(** * Dhanno: transaction categorisation, learning store, CSV dates, assets

    A shallow embedding of the TypeScript back end of the Dhanno finance
    manager and the properties its design document states about it.

    Conventions of the embedding:
    - A JavaScript string is the [string] of the bytes of its UTF-8 form.
      White space ([trim], the class [\s]) is JavaScript's, [length] counts
      UTF-16 units; [toLowerCase], [toUpperCase] and the other character
      classes of the regular expressions act on ASCII.
    - JavaScript numbers that carry a confidence or the amount of a
      transaction are rationals [Q]; where the source can produce [NaN] or
      an infinity the type [jsnum] keeps them apart.  The running figures of
      the assets, which the source adds up and subtracts, are the binary64
      values [float] with the machine's rounding.
    - The Prisma tables are lists of rows in the order the database yields
      them; [findFirst] takes the first row that satisfies the filter (after
      the stable sort asked for by [orderBy], when there is one).
    - Calls that can throw carry their outcome as data (an oracle for the
      language model, a fault flag for a database write). *)

From Stdlib Require Import String Ascii ZArith QArith Qminmax Qabs Lia Bool Floats.
From stdpp Require Import gmap strings list pretty.

(** ** JavaScript string primitives *)

Module Js.

Definition code (c : ascii) : nat := nat_of_ascii c.

Definition isUpper (c : ascii) : bool := (65 <=? code c) && (code c <=? 90).
Definition isLower (c : ascii) : bool := (97 <=? code c) && (code c <=? 122).
Definition isDigit (c : ascii) : bool := (48 <=? code c) && (code c <=? 57).
Definition isAlpha (c : ascii) : bool := isUpper c || isLower c.

(** The one-byte members of the class [\s]. *)
Definition isSpace (c : ascii) : bool :=
  ((9 <=? code c) && (code c <=? 13)) || (code c =? 32).

(** The three-byte members of [\s], by the codes of their bytes: U+1680,
    U+2000 to U+200A, U+2028, U+2029, U+202F, U+205F, U+3000 and U+FEFF. *)
Definition isSpaceTail (lead c2 c3 : nat) : bool :=
  ((lead =? 225) && (c2 =? 154) && (c3 =? 128))
  || ((lead =? 226) && (c2 =? 128)
      && (((128 <=? c3) && (c3 <=? 138)) || (c3 =? 168) || (c3 =? 169) || (c3 =? 175)))
  || ((lead =? 226) && (c2 =? 129) && (c3 =? 159))
  || ((lead =? 227) && (c2 =? 128) && (c3 =? 128))
  || ((lead =? 239) && (c2 =? 187) && (c3 =? 191)).

(** The number of bytes of the white-space character that [s] begins with,
    0 when it begins with none: what [\s] and [trim] take at this place.
    The two-byte member is U+00A0. *)
Definition spaceWidth (s : string) : nat :=
  match s with
  | EmptyString => 0
  | String c1 r1 =>
      if isSpace c1 then 1
      else if code c1 =? 194 then
        match r1 with
        | String c2 _ => if code c2 =? 160 then 2 else 0
        | EmptyString => 0
        end
      else if (code c1 =? 225) || (code c1 =? 226) || (code c1 =? 227) || (code c1 =? 239)
      then
        match r1 with
        | String c2 (String c3 _) =>
            if isSpaceTail (code c1) (code c2) (code c3) then 3 else 0
        | _ => 0
        end
      else 0
  end.

(** [s.length]: the UTF-16 units of the text.  A byte below 128 or a lead
    byte of a two- or three-byte character is one unit, the lead byte of a
    four-byte character two (a surrogate pair), a continuation byte none. *)
Fixpoint utf16Length (s : string) : nat :=
  match s with
  | EmptyString => 0
  | String c r =>
      (if code c <? 128 then 1
       else if code c <? 192 then 0
       else if code c <? 240 then 1
       else 2) + utf16Length r
  end.

Definition lowerChar (c : ascii) : ascii :=
  if isUpper c then ascii_of_nat (code c + 32) else c.

Fixpoint toLowerCase (s : string) : string :=
  match s with
  | EmptyString => EmptyString
  | String c r => String (lowerChar c) (toLowerCase r)
  end.

(** [s.includes(sub)] *)
Fixpoint includes (s sub : string) : bool :=
  String.prefix sub s ||
  match s with
  | EmptyString => false
  | String _ r => includes r sub
  end.

(** The scans below go through the text byte by byte; [skip] counts the
    bytes still to pass of a white-space character met earlier. *)
Fixpoint trimStartFrom (skip : nat) (s : string) : string :=
  match s with
  | EmptyString => EmptyString
  | String _ r =>
      match skip with
      | S k => trimStartFrom k r
      | O => match spaceWidth s with
             | S k => trimStartFrom k r
             | O => s
             end
      end
  end.

Definition trimStart (s : string) : string := trimStartFrom 0 s.

(** Nothing but white space from here on. *)
Fixpoint onlySpacesFrom (skip : nat) (s : string) : bool :=
  match s with
  | EmptyString => true
  | String _ r =>
      match skip with
      | S k => onlySpacesFrom k r
      | O => match spaceWidth s with
             | S k => onlySpacesFrom k r
             | O => false
             end
      end
  end.

Fixpoint trimEnd (s : string) : string :=
  match s with
  | EmptyString => EmptyString
  | String c r => if onlySpacesFrom 0 s then EmptyString else String c (trimEnd r)
  end.

Definition trim (s : string) : string := trimEnd (trimStart s).

(** [s.split(sep)] for a one-character separator: never the empty list. *)
Fixpoint split (sep : ascii) (s : string) : list string :=
  match s with
  | EmptyString => [EmptyString]
  | String c r =>
      if Ascii.eqb c sep then EmptyString :: split sep r
      else match split sep r with
           | w :: ws => String c w :: ws
           | [] => [String c EmptyString]
           end
  end.

(** [parts.join(sep)] *)
Fixpoint join (sep : string) (parts : list string) : string :=
  match parts with
  | [] => EmptyString
  | [w] => w
  | w :: ws => w +:+ sep +:+ join sep ws
  end.

(** Truthiness of a string value: only [''] is falsy. *)
Definition truthy (s : string) : bool := negb (bool_decide (s = EmptyString)).

(** [v || d] where [v] is a string or null/undefined. *)
Definition orElse (v : option string) (d : string) : string :=
  match v with
  | Some s => if truthy s then s else d
  | None => d
  end.

(** [v || null] *)
Definition orNull (v : option string) : option string :=
  match v with
  | Some s => if truthy s then Some s else None
  | None => None
  end.

(** [x > y] on rationals. *)
Definition Qgtb (x y : Q) : bool := if Qlt_le_dec y x then true else false.

(** JavaScript numbers where [NaN] and the infinities can arise. *)
Inductive jsnum : Type :=
  | NaN
  | NegInf
  | Fin (q : Q)
  | PosInf.

(** [Math.min(a, x)] for a finite [a]. *)
Definition Math_min (a : Q) (x : jsnum) : jsnum :=
  match x with
  | NaN => NaN
  | NegInf => NegInf
  | Fin q => Fin (Qmin a q)
  | PosInf => Fin a
  end.

(** [Math.max(a, x)] for a finite [a]. *)
Definition Math_max (a : Q) (x : jsnum) : jsnum :=
  match x with
  | NaN => NaN
  | NegInf => Fin a
  | Fin q => Fin (Qmax a q)
  | PosInf => PosInf
  end.

(** [x > a] for a finite [a]; any comparison with [NaN] is false. *)
Definition gtNum (x : jsnum) (a : Q) : bool :=
  match x with
  | NaN | NegInf => false
  | Fin q => Qgtb q a
  | PosInf => true
  end.

End Js.

(** ** The persisted entities (Prisma models) *)

Module Category.
Record t : Type := mk {
  id : string;
  name : string;
  userId : option string;
  isDefault : bool
}.
End Category.

Module CategoryPattern.
Record t : Type := mk {
  id : nat;
  userId : string;
  description : string;
  merchant : option string;
  categoryId : string;
  confidence : Q;
  isUserCorrection : bool;
  updatedAt : Z
}.
End CategoryPattern.

(** [include: { category: true }] followed by [.category.name]: the name of
    the category a row refers to. *)
Definition categoryNameOf (categories : list Category.t) (cid : string) : string :=
  match List.find (fun c => bool_decide (Category.id c = cid)) categories with
  | Some c => Category.name c
  | None => EmptyString
  end.

(** ** learning.service.ts *)

Module LearningService.
Import Js.

Abbreviation Pattern := CategoryPattern.t.

(** The filter of [recordUserCorrection] and of the exact-match step:
    [{ userId, description: { equals, mode: 'insensitive' },
       merchant: merchant || null }]. *)
Definition keyWhere (userId description : string) (merchant : option string)
    (p : Pattern) : bool :=
  bool_decide (CategoryPattern.userId p = userId)
  && bool_decide (toLowerCase (CategoryPattern.description p) = toLowerCase description)
  && bool_decide (CategoryPattern.merchant p = orNull merchant).

(** The identifier the database gives a new row: one no row of the table has. *)
Definition freshId (store : list Pattern) : nat :=
  S (list_max (List.map CategoryPattern.id store)).

(** [prisma.categoryPattern.update({ where: { id }, data })] with the data
    written by [recordUserCorrection]. *)
Definition updateCorrection (rowId : nat) (categoryId : string) (confidence : Q)
    (now : Z) (p : Pattern) : Pattern :=
  if Nat.eqb (CategoryPattern.id p) rowId then
    CategoryPattern.mk (CategoryPattern.id p) (CategoryPattern.userId p)
      (CategoryPattern.description p) (CategoryPattern.merchant p)
      categoryId (Qmax confidence (CategoryPattern.confidence p)) true now
  else p.

(** [recordUserCorrection]. [fault] is the outcome of the database calls
    inside the [try]: when one of them throws, the [catch] logs the error and
    the function returns normally with nothing written. *)
Definition recordUserCorrection (fault : bool) (now : Z) (store : list Pattern)
    (userId description : string) (merchant : option string)
    (categoryId : string) (confidence : Q) : list Pattern :=
  if fault then store
  else
    match List.find (keyWhere userId description merchant) store with
    | Some existingPattern =>
        List.map (updateCorrection (CategoryPattern.id existingPattern)
                    categoryId confidence now) store
    | None =>
        store ++ [CategoryPattern.mk (freshId store) userId description merchant
                    categoryId confidence true now]
    end.

(** [orderBy: { confidence: 'desc' }] then the first row: a row of greatest
    confidence, the earliest such row in table order. *)
Fixpoint firstByConfidenceDesc (rows : list Pattern) : option Pattern :=
  match rows with
  | [] => None
  | p :: rest =>
      match firstByConfidenceDesc rest with
      | Some q =>
          if Qgtb (CategoryPattern.confidence q) (CategoryPattern.confidence p)
          then Some q else Some p
      | None => Some p
      end
  end.

(** [text.replace(/[^a-z0-9\s]/g, ' ')]: a white-space character stays as
    it is; of any other character that goes, each byte becomes a blank (the
    next step makes one blank of them, as it does of the one blank per
    UTF-16 unit that the source writes). *)
Fixpoint replaceNonAlnumFrom (skip : nat) (s : string) : string :=
  match s with
  | EmptyString => EmptyString
  | String c r =>
      match skip with
      | S k => String c (replaceNonAlnumFrom k r)
      | O => match spaceWidth s with
             | S k => String c (replaceNonAlnumFrom k r)
             | O => String (if isLower c || isDigit c then c else " "%char)
                      (replaceNonAlnumFrom 0 r)
             end
      end
  end.

Definition replaceNonAlnum (s : string) : string := replaceNonAlnumFrom 0 s.

(** [text.replace(/\s+/g, ' ')]; [inRun] says that the character before was
    white space, for which the blank is already written. *)
Fixpoint collapseSpacesFrom (skip : nat) (inRun : bool) (s : string) : string :=
  match s with
  | EmptyString => EmptyString
  | String c r =>
      match skip with
      | S k => collapseSpacesFrom k inRun r
      | O => match spaceWidth s with
             | S k => if inRun then collapseSpacesFrom k true r
                      else String " "%char (collapseSpacesFrom k true r)
             | O => String c (collapseSpacesFrom 0 false r)
             end
      end
  end.

Definition collapseSpaces (s : string) : string := collapseSpacesFrom 0 false s.

Definition stopWords : list string :=
  ["upi"; "the"; "and"; "or"; "but"; "in"; "on"; "at"; "to"; "for"; "of";
   "with"; "by"; "from"; "up"; "about"; "into"; "through"; "during";
   "before"; "after"; "above"; "below"; "between"; "among"; "under"; "over"].

Definition isStopWord (w : string) : bool :=
  bool_decide (w ∈ stopWords).

Definition extractKeywords (text : string) : list string :=
  let cleanText := trim (collapseSpaces (replaceNonAlnum (toLowerCase text))) in
  take 10
    (List.filter (fun word => (2 <? utf16Length word) && negb (isStopWord word))
       (split " "%char cleanText)).

(** Jaccard similarity of the two word lists seen as sets. *)
Definition calculateSimilarity (words1 words2 : list string) : Q :=
  if (length words1 =? 0) || (length words2 =? 0) then 0
  else
    let set1 : gset string := list_to_set words1 in
    let set2 : gset string := list_to_set words2 in
    let intersection := set1 ∩ set2 in
    let union := set1 ∪ set2 in
    inject_Z (Z.of_nat (size intersection)) / inject_Z (Z.of_nat (size union)).

Module MatchType.
Inductive t : Type := exact | description | merchant | keywords.
End MatchType.

Module Match.
Record t : Type := mk {
  categoryId : string;
  categoryName : string;
  confidence : Q;
  matchType : MatchType.t
}.
End Match.

(** Step 2 of [findSimilarPattern]: the [for] loop over the rows that
    [findMany({ where: { userId } })] returned, in the order it returned
    them (the query asks for no ordering). *)
Fixpoint scanDescriptions (categories : list Category.t) (descWords : list string)
    (patterns : list Pattern) : option Match.t :=
  match patterns with
  | [] => None
  | pattern :: rest =>
      let patternWords := extractKeywords (CategoryPattern.description pattern) in
      let similarity := calculateSimilarity descWords patternWords in
      if Qgtb similarity 0.7 then
        Some (Match.mk (CategoryPattern.categoryId pattern)
                (categoryNameOf categories (CategoryPattern.categoryId pattern))
                (CategoryPattern.confidence pattern * similarity) MatchType.description)
      else scanDescriptions categories descWords rest
  end.

(** The filter of step 3:
    [{ userId, merchant: { contains: merchant, mode: 'insensitive' } }];
    a row without merchant never satisfies [contains]. *)
Definition merchantWhere (userId merchant : string) (p : Pattern) : bool :=
  bool_decide (CategoryPattern.userId p = userId)
  && match CategoryPattern.merchant p with
     | Some stored => includes (toLowerCase stored) (toLowerCase merchant)
     | None => false
     end.

Definition findSimilarPattern (categories : list Category.t) (store : list Pattern)
    (userId description : string) (merchant : option string) : option Match.t :=
  (* 1. exact match *)
  match firstByConfidenceDesc
          (List.filter (keyWhere userId description merchant) store) with
  | Some exactMatch =>
      Some (Match.mk (CategoryPattern.categoryId exactMatch)
              (categoryNameOf categories (CategoryPattern.categoryId exactMatch))
              (CategoryPattern.confidence exactMatch) MatchType.exact)
  | None =>
      (* 2. description similarity *)
      let descWords := extractKeywords description in
      let byDescription :=
        if 0 <? length descWords then
          scanDescriptions categories descWords
            (List.filter (fun p => bool_decide (CategoryPattern.userId p = userId)) store)
        else None in
      match byDescription with
      | Some m => Some m
      | None =>
          (* 3. merchant match *)
          match orNull merchant with
          | Some merch =>
              match firstByConfidenceDesc
                      (List.filter (merchantWhere userId merch) store) with
              | Some merchantMatch =>
                  Some (Match.mk (CategoryPattern.categoryId merchantMatch)
                          (categoryNameOf categories (CategoryPattern.categoryId merchantMatch))
                          (CategoryPattern.confidence merchantMatch * 0.8) MatchType.merchant)
              | None => None
              end
          | None => None
          end
      end
  end.

End LearningService.

(** ** ollama.service.ts: the classifier *)

Module Json.

#[local] Set Warnings "-register-all".

(** Values that [JSON.parse] can return. *)
Inductive t : Type :=
  | JNull
  | JBool (b : bool)
  | JNum (q : Q)
  | JStr (s : string)
  | JArr (items : list t)
  | JObj (fields : list (string * t)).

(** Truthiness, as [||] tests it. *)
Definition truthy (v : t) : bool :=
  match v with
  | JNull => false
  | JBool b => b
  | JNum q => negb (Qeq_bool q 0)
  | JStr s => Js.truthy s
  | JArr _ | JObj _ => true
  end.

Fixpoint lookup (key : string) (fields : list (string * t)) : option t :=
  match fields with
  | [] => None
  | (k, v) :: rest => if bool_decide (k = key) then Some v else lookup key rest
  end.

(** Outcome of reading a property of a value. *)
Inductive access : Type :=
  | Throws               (* TypeError: the value is null *)
  | Undefined
  | Value (v : t).

(** [parsed.key] *)
Definition prop (parsed : t) (key : string) : access :=
  match parsed with
  | JNull => Throws
  | JObj fields =>
      match lookup key fields with
      | Some v => Value v
      | None => Undefined
      end
  | _ => Undefined
  end.

End Json.

(** The parts of the JavaScript runtime the classifier calls and the
    repository does not define. *)
Record JsRuntime : Type := {
  (** [JSON.parse]; [None] when it throws a SyntaxError. *)
  JSON_parse : string -> option Json.t;
  (** ToNumber of a non-empty string. *)
  StringToNumber : string -> Js.jsnum;
  (** ToNumber of an array or object. *)
  ObjectToNumber : Json.t -> Js.jsnum
}.

Module CategorySuggestion.
Record t : Type := mk {
  category : string;
  confidence : Js.jsnum;
  (** a string on every path but one: [parsed.reasoning || ''] keeps whatever
      truthy value the model sent *)
  reasoning : Json.t
}.
End CategorySuggestion.

(** What the call to the model's HTTP API came to. *)
Inductive LlmOutcome : Type :=
  (** [fetch] rejected, the status was not ok, or the body was not the JSON
      of an object: anything that throws inside the [try] of
      [categorizeTransaction]. *)
  | TransportFailure
  (** [data.response]: [None] when that field is not a string. *)
  | Responded (response : option string).

Module OllamaService.
Import Js.

Module Rule.
Record t : Type := mk {
  keywords : list string;
  category : string;
  confidence : Q
}.
End Rule.

(** The table [patterns] of [quickCategorize], in source order. *)
Definition patterns : list Rule.t :=
  [ Rule.mk ["groceries"; "grocery"; "food"; "swiggy"; "zomato"; "bigbasket";
             "dmart"; "grofers"; "fresh"]
      "Groceries & Food" 0.95;
    Rule.mk ["electricity"; "water"; "gas"; "bill"; "bses"; "tata power"; "adani"]
      "Utilities & Bills" 0.95;
    Rule.mk ["recharge"; "prepaid"; "postpaid"; "airtel"; "jio"; "vi"; "bsnl"; "mtnl"]
      "Mobile & Internet" 0.95;
    Rule.mk ["ola"; "uber"; "auto"; "taxi"; "metro"; "petrol"; "diesel"; "fuel";
             "iocl"; "bpcl"; "hpcl"]
      "Transportation" 0.95;
    Rule.mk ["zerodha"; "stock purchase"; "equity buy"; "share buy"; "kite";
             "upstox"; "angel broking"]
      "Stock Purchase" 0.95;
    Rule.mk ["groww"; "sip"; "systematic investment"; "mutual fund"; "mf purchase";
             "elss"; "lumpsum"]
      "Mutual Fund Purchase" 0.95;
    Rule.mk ["charges"; "fee"; "annual fee"; "maintenance fee"; "atm charges";
             "sms charges"; "neft charges"; "rtgs charges"; "processing fee";
             "late payment"; "overdraft"; "foreign transaction"; "demat charges"]
      "Banking & Credit Card Fees" 0.95;
    Rule.mk ["netflix"; "amazon prime"; "spotify"; "subscription"; "gift";
             "donation"; "pet"; "repair"; "maintenance"; "legal"; "books"; "magazine"]
      "Miscellaneous Expenses" 0.90;
    Rule.mk ["cashback"; "reward"; "refund"; "gift money"; "prize"; "reimbursement";
             "found money"; "competition"]
      "Miscellaneous Income" 0.90;
    Rule.mk ["stock sale"; "equity sell"; "share sell"; "sell order"; "profit booking"]
      "Stock Sale" 0.95;
    Rule.mk ["mf redemption"; "mutual fund redemption"; "fund withdrawal";
             "sip withdrawal"]
      "Mutual Fund Redemption" 0.95;
    Rule.mk ["ppf"; "epf contribution"; "nps"; "fixed deposit"; "fd"; "gold purchase";
             "crypto purchase"]
      "PPF Contribution" 0.90;
    Rule.mk ["dividend"; "divd"; "tcs dividend"; "infosys dividend"; "reliance dividend"]
      "Dividend Income" 0.95;
    Rule.mk ["capital gain"; "ltcg"; "stcg"; "profit from sale"]
      "Capital Gains" 0.95;
    Rule.mk ["crop sales"; "harvest"; "farm produce"; "agricultural income";
             "farm revenue"]
      "Crop Sales" 0.95;
    Rule.mk ["livestock"; "cattle sale"; "milk"; "dairy"; "poultry"]
      "Livestock Income" 0.95;
    Rule.mk ["farm rent"; "land lease"; "agricultural rent"]
      "Farm Rental Income" 0.95;
    Rule.mk ["subsidy"; "agricultural subsidy"; "govt subsidy"; "crop insurance"]
      "Agricultural Subsidies" 0.95;
    Rule.mk ["seeds"; "fertilizer"; "pesticide"; "farm labor"; "irrigation"]
      "Seeds & Fertilizers" 0.90;
    Rule.mk ["tractor"; "farm equipment"; "harvester"; "plough"]
      "Farm Equipment Purchase" 0.90;
    Rule.mk ["bore well"; "water pump"; "drip irrigation"; "sprinkler"]
      "Irrigation System" 0.90;
    Rule.mk ["veterinary"; "animal feed"; "cattle feed"; "fodder"]
      "Veterinary Services" 0.90 ].

(** [desc.includes(keyword) || merch.includes(keyword)] *)
Definition keywordHit (desc merch keyword : string) : bool :=
  includes desc keyword || includes merch keyword.

(** [pattern.keywords.some(...)] *)
Definition hasMatch (desc merch : string) (pattern : Rule.t) : bool :=
  existsb (keywordHit desc merch) (Rule.keywords pattern).

(** The predicate of [availableCategories.find] inside the loop. *)
Definition namesAgree (ruleCategory cat : string) : bool :=
  includes (toLowerCase cat) (toLowerCase ruleCategory)
  || includes (toLowerCase ruleCategory) (toLowerCase cat).

(** [availableCategories.find(...)] followed by [if (matchingCategory)]. *)
Definition resolveCategory (availableCategories : list string) (pattern : Rule.t)
    : option string :=
  match List.find (namesAgree (Rule.category pattern)) availableCategories with
  | Some matchingCategory =>
      if truthy matchingCategory then Some matchingCategory else None
  | None => None
  end.

Definition quickReasoning (desc merch : string) (pattern : Rule.t) : string :=
  "Quick match based on keyword: " +:+
  orElse (List.find (keywordHit desc merch) (Rule.keywords pattern)) "undefined".

(** The [for (const pattern of patterns)] loop. *)
Fixpoint quickScan (desc merch : string) (availableCategories : list string)
    (rules : list Rule.t) : option CategorySuggestion.t :=
  match rules with
  | [] => None
  | pattern :: rest =>
      if hasMatch desc merch pattern then
        match resolveCategory availableCategories pattern with
        | Some matchingCategory =>
            Some (CategorySuggestion.mk matchingCategory
                    (Fin (Rule.confidence pattern))
                    (Json.JStr (quickReasoning desc merch pattern)))
        | None => quickScan desc merch availableCategories rest
        end
      else quickScan desc merch availableCategories rest
  end.

Definition quickCategorize (description : string) (merchant : option string)
    (availableCategories : list string) : option CategorySuggestion.t :=
  let desc := toLowerCase description in
  let merch := orElse (option_map toLowerCase merchant) "" in
  quickScan desc merch availableCategories patterns.

(** [availableCategories[0] || 'Uncategorized'] *)
Definition firstOrUncategorized (availableCategories : list string) : string :=
  orElse (head availableCategories) "Uncategorized".

Definition findClosestCategory (suggestedCategory : string)
    (availableCategories : list string) : string :=
  let normalized := trim (toLowerCase suggestedCategory) in
  let exactMatch :=
    List.find (fun cat => bool_decide (toLowerCase cat = normalized))
      availableCategories in
  match orNull exactMatch with
  | Some cat => cat
  | None =>
      let partialMatch :=
        List.find (fun cat => includes (toLowerCase cat) normalized
                              || includes normalized (toLowerCase cat))
          availableCategories in
      match orNull partialMatch with
      | Some cat => cat
      | None => firstOrUncategorized availableCategories
      end
  end.

(** The suffix of [s] that starts at the first occurrence of [c]. *)
Fixpoint fromFirst (c : ascii) (s : string) : option string :=
  match s with
  | EmptyString => None
  | String d r => if Ascii.eqb d c then Some s else fromFirst c r
  end.

(** The prefix of [s] that ends at the last occurrence of [c]. *)
Definition upToLast (c : ascii) (s : string) : option string :=
  option_map String.rev (fromFirst c (String.rev s)).

(** [response.match(/\{[\s\S]*\}/)]: from the first opening brace to the
    last closing brace after it. *)
Definition matchBraces (response : string) : option string :=
  match fromFirst "{"%char response with
  | Some tail => upToLast "}"%char tail
  | None => None
  end.

Section Parse.
Variable rt : JsRuntime.

(** ToNumber, as [Math.min] applies it to its argument. *)
Definition ToNumber (v : Json.t) : jsnum :=
  match v with
  | Json.JNull => Fin 0
  | Json.JBool b => Fin (if b then 1 else 0)
  | Json.JNum q => Fin q
  | Json.JStr s => if truthy s then StringToNumber rt s else Fin 0
  | Json.JArr _ | Json.JObj _ => ObjectToNumber rt v
  end.

(** [v || d] on a property that may be undefined. *)
Definition propOr (a : Json.access) (d : Json.t) : Json.t :=
  match a with
  | Json.Value v => if Json.truthy v then v else d
  | _ => d
  end.

Definition parseFallback (availableCategories : list string) : CategorySuggestion.t :=
  CategorySuggestion.mk (firstOrUncategorized availableCategories) (Fin 0.1)
    (Json.JStr "Could not parse LLM response").

(** The body of the [try] of [parseCategorizationResponse]: [None] when it
    throws or falls out of the [if]. [response] is [None] when the value
    handed in is not a string, so that [response.match] throws. *)
Definition tryParse (response : option string) (availableCategories : list string)
    : option CategorySuggestion.t :=
  match response with
  | None => None
  | Some text =>
      match matchBraces text with
      | None => None
      | Some jsonMatch =>
          match JSON_parse rt jsonMatch with
          | None => None
          | Some parsed =>
              match Json.prop parsed "category" with
              | Json.Value (Json.JStr suggested) =>
                  let normalizedCategory :=
                    findClosestCategory suggested availableCategories in
                  Some (CategorySuggestion.mk normalizedCategory
                          (Math_max 0 (Math_min 1
                             (ToNumber (propOr (Json.prop parsed "confidence")
                                          (Json.JNum 0.5)))))
                          (propOr (Json.prop parsed "reasoning") (Json.JStr "")))
              | _ => None (* [suggestedCategory.toLowerCase] is not callable *)
              end
          end
      end
  end.

Definition parseCategorizationResponse (response : option string)
    (availableCategories : list string) : CategorySuggestion.t :=
  match tryParse response availableCategories with
  | Some suggestion => suggestion
  | None => parseFallback availableCategories
  end.

Definition transportFallback (availableCategories : list string) : CategorySuggestion.t :=
  CategorySuggestion.mk (firstOrUncategorized availableCategories) (Fin 0.1)
    (Json.JStr "Failed to get LLM categorization").

(** Step 3 of [categorizeTransaction]: the [try]/[catch] around the call. *)
Definition llmFallback (llm : LlmOutcome) (availableCategories : list string)
    : CategorySuggestion.t :=
  match llm with
  | TransportFailure => transportFallback availableCategories
  | Responded response => parseCategorizationResponse response availableCategories
  end.

Definition matchTypeName (m : LearningService.MatchType.t) : string :=
  match m with
  | LearningService.MatchType.exact => "exact"
  | LearningService.MatchType.description => "description"
  | LearningService.MatchType.merchant => "merchant"
  | LearningService.MatchType.keywords => "keywords"
  end.

(** Step 1 of [categorizeTransaction]: [None] when the step is skipped or the
    match is not trusted. *)
Definition learnedStep (categories : list Category.t)
    (store : list CategoryPattern.t) (description : string)
    (merchant : option string) (userId : option string)
    : option CategorySuggestion.t :=
  match orNull userId with
  | Some uid =>
      match LearningService.findSimilarPattern categories store uid description merchant with
      | Some learnedMatch =>
          if Qgtb (LearningService.Match.confidence learnedMatch) 0.8 then
            Some (CategorySuggestion.mk
                    (LearningService.Match.categoryName learnedMatch)
                    (Fin (LearningService.Match.confidence learnedMatch))
                    (Json.JStr ("Learned from previous " +:+
                                matchTypeName (LearningService.Match.matchType learnedMatch)
                                +:+ " match")))
          else None
      | None => None
      end
  | None => None
  end.

(** [categorizeTransaction]. [llm] maps the inputs of the prompt to what the
    model call comes to; it is consulted on the third step only. *)
Definition categorizeTransaction (categories : list Category.t)
    (store : list CategoryPattern.t)
    (llm : string -> option string -> Q -> list string -> LlmOutcome)
    (description : string) (merchant : option string) (amount : Q)
    (availableCategories : list string) (userId : option string)
    : CategorySuggestion.t :=
  match learnedStep categories store description merchant userId with
  | Some learned => learned
  | None =>
      match quickCategorize description merchant availableCategories with
      | Some quickMatch => quickMatch
      | None =>
          llmFallback (llm description merchant amount availableCategories)
            availableCategories
      end
  end.

End Parse.

End OllamaService.

(** ** recategorize.service.ts (second half of ollama.service.ts) *)

Module Transaction.
Record t : Type := mk {
  id : string;
  userId : string;
  description : string;
  merchant : option string;
  amount : Q;
  categoryId : option string;
  llmCategorized : bool;
  llmConfidence : option Js.jsnum
}.
End Transaction.

Module RecategorizationService.
Import Js.

(** The model call made while transaction [t] is being classified. *)
Definition Oracle : Type :=
  Transaction.t -> string -> option string -> Q -> list string -> LlmOutcome.

(** [{ OR: [{ userId }, { isDefault: true }] }] *)
Definition visibleTo (userId : string) (c : Category.t) : bool :=
  bool_decide (Category.userId c = Some userId) || Category.isDefault c.

(** [prisma.transaction.update({ where: { id }, data: { categoryId,
    llmCategorized: true, llmConfidence } })] *)
Definition applySuggestion (rowId : string) (newCategoryId : string)
    (confidence : jsnum) (t : Transaction.t) : Transaction.t :=
  if bool_decide (Transaction.id t = rowId) then
    Transaction.mk (Transaction.id t) (Transaction.userId t)
      (Transaction.description t) (Transaction.merchant t) (Transaction.amount t)
      (Some newCategoryId) true (Some confidence)
  else t.

Section Service.
Variable rt : JsRuntime.
Variable llm : Oracle.
Variable categoriesTable : list Category.t.
Variable patternStore : list CategoryPattern.t.

Definition suggest (categories : list Category.t) (transaction : Transaction.t)
    (userId : string) : CategorySuggestion.t :=
  OllamaService.categorizeTransaction rt categoriesTable patternStore (llm transaction)
    (Transaction.description transaction) (Transaction.merchant transaction)
    (Qabs (Transaction.amount transaction))
    (List.map Category.name categories) (Some userId).

(** [categories.find(cat => cat.name === suggestion.category)] *)
Definition newCategoryFor (categories : list Category.t)
    (suggestion : CategorySuggestion.t) : option Category.t :=
  List.find (fun cat => bool_decide (Category.name cat = CategorySuggestion.category suggestion))
    categories.

(** One turn of the loop of [recategorizeAllTransactions]: the table after
    it and whether the counter went up. *)
Definition recategorizeAllStep (categories : list Category.t) (userId : string)
    (table : list Transaction.t) (transaction : Transaction.t)
    : list Transaction.t * bool :=
  let suggestion := suggest categories transaction userId in
  match newCategoryFor categories suggestion with
  | Some newCategory =>
      if negb (bool_decide (Some (Category.id newCategory) = Transaction.categoryId transaction))
         && gtNum (CategorySuggestion.confidence suggestion) 0.7
      then (List.map (applySuggestion (Transaction.id transaction)
                        (Category.id newCategory)
                        (CategorySuggestion.confidence suggestion)) table, true)
      else (table, false)
  | None => (table, false)
  end.

Fixpoint recategorizeAllLoop (categories : list Category.t) (userId : string)
    (table : list Transaction.t) (updatedCount : nat)
    (transactions : list Transaction.t) : list Transaction.t * nat :=
  match transactions with
  | [] => (table, updatedCount)
  | transaction :: rest =>
      let '(table', hit) := recategorizeAllStep categories userId table transaction in
      recategorizeAllLoop categories userId table'
        (if hit then S updatedCount else updatedCount) rest
  end.

(** [recategorizeAllTransactions]: the table afterwards and
    [{ updated, total }]. *)
Definition recategorizeAllTransactions (table : list Transaction.t) (userId : string)
    : list Transaction.t * (nat * nat) :=
  let transactions :=
    List.filter (fun t => bool_decide (Transaction.userId t = userId)) table in
  let categories := List.filter (visibleTo userId) categoriesTable in
  let '(table', updatedCount) :=
    recategorizeAllLoop categories userId table 0 transactions in
  (table', (updatedCount, length transactions)).

(** [recategorizeTransaction]: the table afterwards and the returned
    boolean, [None] when it throws 'Transaction not found'. *)
Definition recategorizeTransaction (table : list Transaction.t) (transactionId : string)
    : list Transaction.t * option bool :=
  match List.find (fun t => bool_decide (Transaction.id t = transactionId)) table with
  | None => (table, None)
  | Some transaction =>
      let categories :=
        List.filter (visibleTo (Transaction.userId transaction)) categoriesTable in
      let suggestion := suggest categories transaction (Transaction.userId transaction) in
      match newCategoryFor categories suggestion with
      | Some newCategory =>
          if gtNum (CategorySuggestion.confidence suggestion) 0.7 then
            (List.map (applySuggestion transactionId (Category.id newCategory)
                         (CategorySuggestion.confidence suggestion)) table,
             Some true)
          else (table, Some false)
      | None => (table, Some false)
      end
  end.

End Service.
End RecategorizationService.

(** ** learning.routes.ts: PUT /:id/category *)

Module LearningRoutes.
Import Js.

Module Db.
Record t : Type := mk {
  transactions : list Transaction.t;
  categories : list Category.t;
  patterns : list CategoryPattern.t
}.
End Db.

Inductive Response : Type :=
  | Status400 (error : string)
  | Status404 (error : string)
  | Status500 (error : string)
  | Status200 (message : string) (transaction : Transaction.t).

(** [prisma.transaction.update({ where: { id }, data: { categoryId,
    llmCategorized: false, llmConfidence: null } })] *)
Definition manualUpdate (rowId categoryId : string) (t : Transaction.t)
    : Transaction.t :=
  if bool_decide (Transaction.id t = rowId) then
    Transaction.mk (Transaction.id t) (Transaction.userId t)
      (Transaction.description t) (Transaction.merchant t) (Transaction.amount t)
      (Some categoryId) false None
  else t.

(** The handler. [faultUpdate] and [faultLearn] say whether the transaction
    update and the database calls of [recordUserCorrection] throw;
    [bodyCategoryId] is [req.body.categoryId]. *)
Definition putCategory (faultUpdate faultLearn : bool) (now : Z) (db : Db.t)
    (reqUserId id : string) (bodyCategoryId : option string) : Db.t * Response :=
  match orNull bodyCategoryId with
  | None => (db, Status400 "categoryId is required")
  | Some categoryId =>
      match List.find (fun t => bool_decide (Transaction.id t = id)
                                && bool_decide (Transaction.userId t = reqUserId))
              (Db.transactions db) with
      | None => (db, Status404 "Transaction not found")
      | Some transaction =>
          match List.find (fun c => bool_decide (Category.id c = categoryId)
                                    && RecategorizationService.visibleTo reqUserId c)
                  (Db.categories db) with
          | None => (db, Status400 "Invalid category")
          | Some category =>
              if faultUpdate then (db, Status500 "Failed to update category")
              else
                let transactions' :=
                  List.map (manualUpdate id categoryId) (Db.transactions db) in
                let updatedTransaction := manualUpdate id categoryId transaction in
                let patterns' :=
                  LearningService.recordUserCorrection faultLearn now (Db.patterns db)
                    reqUserId (Transaction.description transaction)
                    (Transaction.merchant transaction) categoryId 1 in
                (Db.mk transactions' (Db.categories db) patterns',
                 Status200 "Transaction category updated and learned for future use"
                   updatedTransaction)
          end
      end
  end.

End LearningRoutes.

(** ** asset-transaction-handler.ts *)

Module Asset.
Record t : Type := mk {
  id : nat;
  userId : string;
  name : string;
  category : option string;       (* null only when a create left it out *)
  subCategory : option string;
  currentValue : float;
  purchaseValue : option float;
  quantity : option float;
  description : option string;
  isActive : bool;
  lastUpdated : Z
}.
End Asset.

Module AssetHandler.
Import Js.

(** What [handleAssetTransaction] reads of its argument [transaction: any],
    apart from [transaction.category?.name]: [description] is
    [transaction.description || '']. *)
Module AssetTransaction.
Record t : Type := mk {
  description : string;
  merchant : option string;
  amount : float
}.
End AssetTransaction.

(** What the reads [assetInfo.category], [assetInfo.subCategory] and
    [assetInfo.isSale] give: [None] is [undefined], and an absent [isSale]
    is falsy. *)
Module AssetInfo.
Record t : Type := mk {
  category : option string;
  subCategory : option string;
  isSale : bool
}.
End AssetInfo.

Definition entry (category subCategory : string) (isSale : bool) : AssetInfo.t :=
  AssetInfo.mk (Some category) (Some subCategory) isSale.

(** The own keys of [assetCategoryMapping]. *)
Definition assetCategoryMapping : list (string * AssetInfo.t) :=
  [ ("Stock Purchase", entry "Stocks" "Individual Stocks" false);
    ("Mutual Fund Purchase", entry "Mutual Funds" "Equity Funds" false);
    ("PPF Contribution", entry "Fixed Deposits" "PPF" false);
    ("EPF Contribution", entry "Fixed Deposits" "EPF" false);
    ("NPS Contribution", entry "Fixed Deposits" "NPS" false);
    ("Gold Purchase", entry "Precious Metals" "Gold" false);
    ("Real Estate Purchase", entry "Real Estate" "Residential" false);
    ("Farm Equipment Purchase", entry "Farm Assets" "Equipment" false);
    ("Livestock Purchase", entry "Farm Assets" "Livestock" false);
    ("Asset Purchase", entry "Other Assets" "Miscellaneous" false);
    ("Stock Sale", entry "Stocks" "Individual Stocks" true);
    ("Mutual Fund Redemption", entry "Mutual Funds" "Equity Funds" true);
    ("Asset Sale", entry "Other Assets" "Miscellaneous" true) ].

(** The names every object literal inherits from [Object.prototype]. *)
Definition objectPrototypeKeys : list string :=
  [ "constructor"; "__defineGetter__"; "__defineSetter__"; "hasOwnProperty";
    "__lookupGetter__"; "__lookupSetter__"; "isPrototypeOf";
    "propertyIsEnumerable"; "toString"; "valueOf"; "__proto__"; "toLocaleString" ].

(** The own property [categoryName] of the table. *)
Fixpoint ownProperty (categoryName : string) (table : list (string * AssetInfo.t))
    : option AssetInfo.t :=
  match table with
  | [] => None
  | (k, info) :: rest =>
      if bool_decide (k = categoryName) then Some info else ownProperty categoryName rest
  end.

(** [assetCategoryMapping[categoryName]]: the own property, or else the
    member inherited under that name, which is a function or an object,
    so truthy, and has no [category], [subCategory] or [isSale]. *)
Definition mappingFor (categoryName : string) (table : list (string * AssetInfo.t))
    : option AssetInfo.t :=
  match ownProperty categoryName table with
  | Some info => Some info
  | None =>
      if bool_decide (categoryName ∈ objectPrototypeKeys)
      then Some (AssetInfo.mk None None false)
      else None
  end.

(** [merchant || description.split(' ').slice(0, 3).join(' ') || 'Unknown Asset'] *)
Definition deriveAssetName (description merchant : string) : string :=
  if truthy merchant then merchant
  else
    let firstWords := join " " (take 3 (split " "%char description)) in
    if truthy firstWords then firstWords else "Unknown Asset".

(** One field of a Prisma filter: [undefined] sets no condition. *)
Definition fieldIs (wanted actual : option string) : bool :=
  match wanted with
  | Some v => bool_decide (actual = Some v)
  | None => true
  end.

(** The filter of [prisma.asset.findFirst]. *)
Definition assetWhere (userId assetName : string) (info : AssetInfo.t) (a : Asset.t) : bool :=
  bool_decide (Asset.userId a = userId)
  && bool_decide (Asset.name a = assetName)
  && fieldIs (AssetInfo.category info) (Asset.category a)
  && fieldIs (AssetInfo.subCategory info) (Asset.subCategory a).

(** The identifier the database gives a new asset: one no asset has. *)
Definition freshId (assets : list Asset.t) : nat :=
  S (list_max (List.map Asset.id assets)).

(** [Math.max(0, x)]: [NaN] for [NaN], and [+0] for both zeros. *)
Definition Math_max0 (x : float) : float :=
  if is_nan x then nan else if (0 <? x)%float then x else 0%float.

(** [existingAsset.quantity || 0]: null, a zero and [NaN] are falsy. *)
Definition quantityOrZero (q : option float) : float :=
  match q with
  | Some v => if is_nan v || (v =? 0)%float then 0%float else v
  | None => 0%float
  end.

Definition sellFrom (rowId : nat) (amount : float) (now : Z) (a : Asset.t) : Asset.t :=
  if Nat.eqb (Asset.id a) rowId then
    let newValue := Math_max0 (Asset.currentValue a - abs amount)%float in
    Asset.mk (Asset.id a) (Asset.userId a) (Asset.name a) (Asset.category a)
      (Asset.subCategory a) newValue (Asset.purchaseValue a) (Asset.quantity a)
      (Asset.description a) (0 <? newValue)%float now
  else a.

Definition addTo (rowId : nat) (amount : float) (now : Z) (a : Asset.t) : Asset.t :=
  if Nat.eqb (Asset.id a) rowId then
    Asset.mk (Asset.id a) (Asset.userId a) (Asset.name a) (Asset.category a)
      (Asset.subCategory a) (Asset.currentValue a + abs amount)%float
      (Asset.purchaseValue a) (Some (quantityOrZero (Asset.quantity a) + 1)%float)
      (Asset.description a) (Asset.isActive a) now
  else a.

(** [handleAssetTransaction]. [categoryName] is [transaction.category?.name];
    [fault] says whether a database call inside the [try] throws, be it for
    the connection or because the table refuses the row, in which case the
    [catch] logs the error and nothing is written. *)
Definition handleAssetTransaction (fault : bool) (now : Z) (assets : list Asset.t)
    (categoryName : option string) (transaction : AssetTransaction.t) (userId : string)
    : list Asset.t :=
  match orNull categoryName with
  | None => assets
  | Some name =>
      match mappingFor name assetCategoryMapping with
      | None => assets
      | Some assetInfo =>
          let description := AssetTransaction.description transaction in
          let merchant := orElse (AssetTransaction.merchant transaction) "" in
          let assetName := deriveAssetName description merchant in
          if fault then assets
          else
            match List.find (assetWhere userId assetName assetInfo) assets with
            | Some existingAsset =>
                if AssetInfo.isSale assetInfo then
                  List.map (sellFrom (Asset.id existingAsset)
                              (AssetTransaction.amount transaction) now) assets
                else
                  List.map (addTo (Asset.id existingAsset)
                              (AssetTransaction.amount transaction) now) assets
            | None =>
                if AssetInfo.isSale assetInfo then assets
                else
                  assets ++
                  [Asset.mk (freshId assets) userId assetName
                     (AssetInfo.category assetInfo) (AssetInfo.subCategory assetInfo)
                     (abs (AssetTransaction.amount transaction))
                     (Some (abs (AssetTransaction.amount transaction)))
                     (Some 1%float)
                     (Some ("Auto-created from transaction: " +:+ description))
                     true now]
            end
      end
  end.

End AssetHandler.

(** ** csv-parser.service.ts: dates *)

Module JsDate.
#[local] Open Scope Z_scope.

(** Days from 1970-01-01 to the first day of month [m] (1..12) of year [y]
    in the proleptic Gregorian calendar, plus [d - 1]. *)
Definition daysFromCivil (y m d : Z) : Z :=
  let y' := if m <=? 2 then y - 1 else y in
  let era := y' / 400 in
  let yoe := y' - era * 400 in
  let mp := (m + 9) mod 12 in
  let doy := (153 * mp + 2) / 5 + d - 1 in
  let doe := yoe * 365 + yoe / 4 - yoe / 100 + doy in
  era * 146097 + doe - 719468.

(** A [Date] built from local calendar fields: the local day it falls on,
    or the invalid date. *)
Inductive t : Type :=
  | Invalid
  | LocalDay (day : Z).

(** [new Date(year, monthIndex, day)]: years 0..99 mean 1900..1999, months
    and days outside their range carry over, and a date more than 10^8 days
    from the epoch is invalid. *)
Definition make (year monthIndex day : Z) : t :=
  let yr := if (0 <=? year) && (year <=? 99) then 1900 + year else year in
  let ym := yr + monthIndex / 12 in
  let mn := monthIndex mod 12 in
  let n := daysFromCivil ym (mn + 1) 1 + day - 1 in
  if Z.abs n <=? 100000000 then LocalDay n else Invalid.

(** [isNaN(date.getTime())] *)
Definition isInvalid (d : t) : bool :=
  match d with
  | Invalid => true
  | LocalDay _ => false
  end.

(** The calendar date [day]/[month]/[year], month counted from 1. *)
Definition calendar (year month day : Z) : t :=
  LocalDay (daysFromCivil year month day).

End JsDate.

Module CSVParserService.
Import Js.

Definition MONTH_MAP : list (string * Z) :=
  [("jan", 0); ("feb", 1); ("mar", 2); ("apr", 3); ("may", 4); ("jun", 5);
   ("jul", 6); ("aug", 7); ("sep", 8); ("oct", 9); ("nov", 10); ("dec", 11)]%Z.

Fixpoint monthIndexOf (key : string) (table : list (string * Z)) : option Z :=
  match table with
  | [] => None
  | (k, v) :: rest => if bool_decide (k = key) then Some v else monthIndexOf key rest
  end.

(** [s.replace(/,/g, '')] *)
Fixpoint removeCommas (s : string) : string :=
  match s with
  | EmptyString => EmptyString
  | String c r => if Ascii.eqb c ","%char then removeCommas r
                  else String c (removeCommas r)
  end.

(** [parseInt] of a string of decimal digits. *)
Definition digitValue (c : ascii) : Z := Z.of_nat (code c - 48).

Fixpoint parseIntFrom (acc : Z) (s : string) : Z :=
  match s with
  | EmptyString => acc
  | String c r => parseIntFrom (10 * acc + digitValue c)%Z r
  end.

Definition parseInt (s : string) : Z := parseIntFrom 0 s.

(** *** The pieces of the regular expressions

    Each piece consumes a prefix of the input and hands back the rest.  In
    the expressions of [parseDate] a quantified class is always followed by
    a character outside the class (or by the end), so taking the longest
    prefix is what the backtracking matcher settles on. *)

(** [\s*] *)
Definition skipSpaces (s : string) : string := trimStart s.

(** [\s+] *)
Definition spaces1 (s : string) : option string :=
  match spaceWidth s with
  | S _ => Some (trimStart s)
  | O => None
  end.

(** Up to [n] leading digits. *)
Fixpoint digitsUpTo (n : nat) (s : string) : string * string :=
  match n, s with
  | S k, String c r =>
      if isDigit c then
        let '(ds, rest) := digitsUpTo k r in (String c ds, rest)
      else (EmptyString, s)
  | _, _ => (EmptyString, s)
  end.

(** [(\d{1,2})] *)
Definition digits12 (s : string) : option (string * string) :=
  let '(ds, rest) := digitsUpTo 2 s in
  if (1 <=? String.length ds)%nat then Some (ds, rest) else None.

(** [(\d{n})] *)
Definition digitsExactly (n : nat) (s : string) : option (string * string) :=
  let '(ds, rest) := digitsUpTo n s in
  if (String.length ds =? n)%nat then Some (ds, rest) else None.

(** [([A-Za-z]{3})] *)
Definition letters3 (s : string) : option (string * string) :=
  match s with
  | String a (String b (String c rest)) =>
      if isAlpha a && isAlpha b && isAlpha c
      then Some (String a (String b (String c EmptyString)), rest)
      else None
  | _ => None
  end.

(** A literal character. *)
Definition lit (c : ascii) (s : string) : option string :=
  match s with
  | String d r => if Ascii.eqb d c then Some r else None
  | EmptyString => None
  end.

(** [$] *)
Definition atEnd (s : string) : bool := bool_decide (s = EmptyString).

(** [/^\s*(\d{1,2})\s+([A-Za-z]{3})\s+(\d{4})\s*$/] *)
Definition matchDayMonthNameYear (s : string) : option (string * string * string) :=
  '(day, s1) ← digits12 (skipSpaces s);
  s2 ← spaces1 s1;
  '(monthStr, s3) ← letters3 s2;
  s4 ← spaces1 s3;
  '(year, s5) ← digitsExactly 4 s4;
  if atEnd (skipSpaces s5) then Some (day, monthStr, year) else None.

(** [/^\s*(\d{1,2})\/(\d{1,2})\/(\d{2})\s*/]: no [$], so whatever follows
    the two digits of the year is left unread. *)
Definition matchShortYear (s : string) : option (string * string * string) :=
  '(day, s1) ← digits12 (skipSpaces s);
  s2 ← lit "/"%char s1;
  '(month, s3) ← digits12 s2;
  s4 ← lit "/"%char s3;
  '(year, _) ← digitsExactly 2 s4;
  Some (day, month, year).

(** [/^(\d{1,2})\/(\d{1,2})\/(\d{4})$/] *)
Definition matchSlash4 (s : string) : option (string * string * string) :=
  '(p1, s1) ← digits12 s;
  s2 ← lit "/"%char s1;
  '(p2, s3) ← digits12 s2;
  s4 ← lit "/"%char s3;
  '(p3, s5) ← digitsExactly 4 s4;
  if atEnd s5 then Some (p1, p2, p3) else None.

(** [/^(\d{4})-(\d{1,2})-(\d{1,2})$/] *)
Definition matchDashYearFirst (s : string) : option (string * string * string) :=
  '(p1, s1) ← digitsExactly 4 s;
  s2 ← lit "-"%char s1;
  '(p2, s3) ← digits12 s2;
  s4 ← lit "-"%char s3;
  '(p3, s5) ← digits12 s4;
  if atEnd s5 then Some (p1, p2, p3) else None.

(** [/^(\d{1,2})-(\d{1,2})-(\d{4})$/] *)
Definition matchDashYearLast (s : string) : option (string * string * string) :=
  '(p1, s1) ← digits12 s;
  s2 ← lit "-"%char s1;
  '(p2, s3) ← digits12 s2;
  s4 ← lit "-"%char s3;
  '(p3, s5) ← digitsExactly 4 s4;
  if atEnd s5 then Some (p1, p2, p3) else None.

(** The array [formats], in source order (its first two entries are the
    same expression). *)
Definition formats : list (string -> option (string * string * string)) :=
  [matchSlash4; matchSlash4; matchDashYearFirst; matchDashYearLast].

(** The first attempt that is a valid date. *)
Definition firstValid (attempts : list JsDate.t) : option JsDate.t :=
  List.find (fun attempt => negb (JsDate.isInvalid attempt)) attempts.

(** The [for (const format of formats)] loop. *)
Fixpoint tryFormats (fs : list (string -> option (string * string * string)))
    (cleanedDate : string) : option JsDate.t :=
  match fs with
  | [] => None
  | format :: rest =>
      match format cleanedDate with
      | Some (p1, p2, p3) =>
          let a := parseInt p1 in
          let b := parseInt p2 in
          let c := parseInt p3 in
          if ((a <=? 31) && (b <=? 12) && (31 <? c))%Z then
            Some (JsDate.make c (b - 1) a)
          else
            match firstValid [JsDate.make c (b - 1) a;
                              JsDate.make c (a - 1) b;
                              JsDate.make a (b - 1) c] with
            | Some attempt => Some attempt
            | None => tryFormats rest cleanedDate
            end
      | None => tryFormats rest cleanedDate
      end
  end.

(** The first branch of [parseDate]: [None] when the expression does not
    match or the month name is not in [MONTH_MAP]. *)
Definition tryDayMonthNameYear (cleanedDate : string) : option JsDate.t :=
  '(day, monthStr, year) ← matchDayMonthNameYear cleanedDate;
  monthIndex ← monthIndexOf (toLowerCase monthStr) MONTH_MAP;
  Some (JsDate.make (parseInt year) monthIndex (parseInt day)).

Definition parseDate (dateStr : string) : option JsDate.t :=
  let cleanedDate := removeCommas (trim dateStr) in
  match tryDayMonthNameYear cleanedDate with
  | Some date => Some date
  | None =>
      match matchShortYear cleanedDate with
      | Some (day, month, year) =>
          let fullYear :=
            (if parseInt year <? 50 then 2000 + parseInt year
             else 1900 + parseInt year)%Z in
          Some (JsDate.make fullYear (parseInt month - 1) (parseInt day))
      | None => tryFormats formats cleanedDate
      end
  end.

(** *** Rows *)

Definition CSVRow : Type := list (string * string).

Section Rows.
(** The detected format, the lookup of a column by its candidate names
    ([findColumnValue]), and what [parseRow] does once it holds a date
    (description, amount, merchant, type, source: [None] when it returns
    null or an exception is caught). *)
Variable Format : Type.
Variable dateColumn : Format -> list string.
Variable findColumnValue : CSVRow -> list string -> option string.
Variable ParsedTransaction : Type.
Variable finishRow : CSVRow -> Format -> JsDate.t -> option ParsedTransaction.

Definition parseRow (row : CSVRow) (format : option Format)
    : option ParsedTransaction :=
  match format with
  | None => None
  | Some fmt =>
      match orNull (findColumnValue row (dateColumn fmt)) with
      | None => None
      | Some dateValue =>
          match parseDate dateValue with
          | None => None
          | Some date => finishRow row fmt date
          end
      end
  end.

(** [data.map(row => this.parseRow(row, format, userSource)).filter(Boolean)] *)
Definition parseRows (data : list CSVRow) (format : option Format)
    : list ParsedTransaction :=
  omap (fun row => parseRow row format) data.

End Rows.

End CSVParserService.

(** ** learning.service.ts: listing, cleanup and statistics *)

Module LearningMaintenance.
Import Js LearningService.

(** The natural key of a row: user, description without regard to case,
    merchant. *)
Definition keyOf (p : Pattern) : string * string * option string :=
  (CategoryPattern.userId p, toLowerCase (CategoryPattern.description p),
   CategoryPattern.merchant p).

(** The filter of [cleanupOldPatterns]:
    [{ userId, isUserCorrection: false, updatedAt: { lt: cutoffDate } }]. *)
Definition cleanupWhere (userId : string) (cutoffDate : Z) (p : Pattern) : bool :=
  bool_decide (CategoryPattern.userId p = userId)
  && negb (CategoryPattern.isUserCorrection p)
  && (CategoryPattern.updatedAt p <? cutoffDate)%Z.

Section Cleanup.
(** [daysBefore now keepDays] is the instant that
    [cutoffDate.setDate(cutoffDate.getDate() - keepDays)] leaves in
    [cutoffDate] when it held [now]: the calendar arithmetic of [Date]. *)
Variable daysBefore : Z -> Z -> Z.

(** [cleanupOldPatterns]: the table after [deleteMany] and [result.count]. *)
Definition cleanupOldPatterns (now : Z) (store : list Pattern) (userId : string)
    (keepDays : Z) : list Pattern * nat :=
  let cutoffDate := daysBefore now keepDays in
  (List.filter (fun p => negb (cleanupWhere userId cutoffDate p)) store,
   length (List.filter (cleanupWhere userId cutoffDate) store)).

End Cleanup.

(** No two rows share an identifier, and no two rows share a key. *)
Definition WellKeyed (store : list Pattern) : Prop :=
  NoDup (List.map CategoryPattern.id store) /\ NoDup (List.map keyOf store).

(** No confidence above 1. *)
Definition Bounded (store : list Pattern) : Prop :=
  forall p, In p store -> (CategoryPattern.confidence p <= 1)%Q.

Module Stats.
Record t : Type := mk {
  totalPatterns : Z;
  userCorrections : Z;
  aiPatterns : Z;
  averageConfidence : Q
}.
End Stats.

Definition sumConfidence (rows : list Pattern) : Q :=
  List.fold_right (fun p acc => (CategoryPattern.confidence p + acc)%Q) 0%Q rows.

(** [_avg: { confidence: true }]: [None] (null) over no row. *)
Definition avgConfidence (rows : list Pattern) : option Q :=
  match rows with
  | [] => None
  | _ => Some (sumConfidence rows / inject_Z (Z.of_nat (length rows)))%Q
  end.

(** [where: { userId }] *)
Definition ofUser (userId : string) (p : Pattern) : bool :=
  bool_decide (CategoryPattern.userId p = userId).

(** [getCategoryStats] *)
Definition getCategoryStats (store : list Pattern) (userId : string) : Stats.t :=
  let mine := List.filter (ofUser userId) store in
  let count := Z.of_nat (length mine) in
  let userCorrections :=
    Z.of_nat (length (List.filter
                        (fun p => ofUser userId p && CategoryPattern.isUserCorrection p)
                        store)) in
  Stats.mk count userCorrections (count - userCorrections)
    (match avgConfidence mine with
     | Some avg => avg      (* [avg || 0] is [avg] also when [avg] is 0 *)
     | None => 0%Q
     end).

End LearningMaintenance.

(** ** What the recategorisation decides for one transaction *)

Module Verdict.
Import Js RecategorizationService.

Section Verdict.
Variable rt : JsRuntime.
Variable llm : Oracle.
Variable categoriesTable : list Category.t.
Variable patternStore : list CategoryPattern.t.

(** The category and confidence the loop of [recategorizeAllTransactions]
    writes for [transaction], [None] when it writes nothing. *)
Definition verdict (categories : list Category.t) (userId : string)
    (transaction : Transaction.t) : option (string * jsnum) :=
  let suggestion :=
    suggest rt llm categoriesTable patternStore categories transaction userId in
  match newCategoryFor categories suggestion with
  | Some newCategory =>
      if negb (bool_decide (Some (Category.id newCategory)
                            = Transaction.categoryId transaction))
         && gtNum (CategorySuggestion.confidence suggestion) 0.7
      then Some (Category.id newCategory, CategorySuggestion.confidence suggestion)
      else None
  | None => None
  end.

(** The write of [decided] done on row [r]. *)
Definition enact (decided : Transaction.t) (v : option (string * jsnum))
    (r : Transaction.t) : Transaction.t :=
  match v with
  | Some (categoryId, confidence) =>
      applySuggestion (Transaction.id decided) categoryId confidence r
  | None => r
  end.

(** The row the loop over [ts] leaves in place of [r]. *)
Fixpoint afterLoop (categories : list Category.t) (userId : string)
    (ts : list Transaction.t) (r : Transaction.t) : Transaction.t :=
  match ts with
  | [] => r
  | t :: rest =>
      if bool_decide (Transaction.id t = Transaction.id r)
      then enact t (verdict categories userId t) r
      else afterLoop categories userId rest r
  end.

(** A row after the loop has decided on it, if it is the user's. *)
Definition settle (userId : string) (r : Transaction.t) : Transaction.t :=
  if bool_decide (Transaction.userId r = userId)
  then enact r (verdict (List.filter (visibleTo userId) categoriesTable) userId r) r
  else r.

End Verdict.

(** The rows whose category is not what it was, position by position. *)
Definition recategorized (before after : list Transaction.t) : list (Transaction.t * Transaction.t) :=
  List.filter (fun '(r, r') =>
                 negb (bool_decide (Transaction.categoryId r = Transaction.categoryId r')))
    (List.combine before after).

(** No two categories the user can see share a name. *)
Definition DistinctNames (userId : string) (categories : list Category.t) : Prop :=
  forall c c', In c categories -> In c' categories ->
    visibleTo userId c = true -> visibleTo userId c' = true ->
    Category.name c = Category.name c' -> c = c'.

(** What a transaction is, apart from its categorisation. *)
Definition payload (t : Transaction.t) : string * string * string * option string * Q :=
  (Transaction.id t, Transaction.userId t, Transaction.description t,
   Transaction.merchant t, Transaction.amount t).

End Verdict.

(** ** Views of the persisted rows *)

Module Views.

(** What an asset is, apart from its running figures. *)
Definition assetIdentity (a : Asset.t)
    : nat * string * string * option string * option string * option float
      * option string :=
  (Asset.id a, Asset.userId a, Asset.name a, Asset.category a, Asset.subCategory a,
   Asset.purchaseValue a, Asset.description a).

(** [assetName] as [handleAssetTransaction] derives it. *)
Definition assetNameOf (transaction : AssetHandler.AssetTransaction.t) : string :=
  AssetHandler.deriveAssetName (AssetHandler.AssetTransaction.description transaction)
    (Js.orElse (AssetHandler.AssetTransaction.merchant transaction) "").

End Views.

(** ** category.routes.ts: DELETE /:id *)

Module CategoryRoutes.
Import Js.

Module CategoryType.
Inductive t : Type := income | expense | investment | asset.
End CategoryType.

(** A row of the category table with the columns the routes read. *)
Module CategoryRow.
Record t : Type := mk {
  id : string;
  name : string;
  type : CategoryType.t;
  isDefault : bool;
  userId : option string;
  parentId : option string
}.
End CategoryRow.

Module Db.
Record t : Type := mk {
  categories : list CategoryRow.t;
  transactions : list Transaction.t
}.
End Db.

Inductive Response : Type :=
  | Status400 (error : string)
  | Status404 (error : string)
  | Status500 (error : string)
  | Status200 (message : string).

(** [prisma.transaction.count({ where: { categoryId } })] *)
Definition transactionCount (db : Db.t) (id : string) : nat :=
  length (List.filter (fun t => bool_decide (Transaction.categoryId t = Some id))
            (Db.transactions db)).

(** [prisma.category.count({ where: { parentId } })] *)
Definition childrenCount (db : Db.t) (id : string) : nat :=
  length (List.filter (fun c => bool_decide (CategoryRow.parentId c = Some id))
            (Db.categories db)).

(** The handler of DELETE /:id. [fault] says whether [prisma.category.delete]
    throws (the reads before it are taken to succeed). *)
Definition deleteCategory (fault : bool) (db : Db.t) (reqUserId id : string)
    : Db.t * Response :=
  match List.find (fun c => bool_decide (CategoryRow.id c = id)
                            && bool_decide (CategoryRow.userId c = Some reqUserId))
          (Db.categories db) with
  | None => (db, Status404 "Category not found")
  | Some category =>
      if CategoryRow.isDefault category then
        (db, Status400 "Default categories cannot be deleted")
      else if (0 <? transactionCount db id)%nat then
        (db, Status400 ("Cannot delete category. It has "
                        +:+ pretty (transactionCount db id)
                        +:+ " associated transactions. Please recategorize these transactions first."))
      else if (0 <? childrenCount db id)%nat then
        (db, Status400 ("Cannot delete category. It has "
                        +:+ pretty (childrenCount db id)
                        +:+ " subcategories. Please delete subcategories first."))
      else if fault then (db, Status500 "Failed to delete category")
      else
        (Db.mk (List.filter (fun c => negb (bool_decide (CategoryRow.id c = id)))
                  (Db.categories db))
               (Db.transactions db),
         Status200 "Category deleted successfully")
  end.

(** Every category a transaction or a subcategory points to is in the
    table. *)
Definition Referenced (db : Db.t) : Prop :=
  (forall t cid, In t (Db.transactions db) -> Transaction.categoryId t = Some cid ->
     exists c, In c (Db.categories db) /\ CategoryRow.id c = cid)
  /\ (forall k pid, In k (Db.categories db) -> CategoryRow.parentId k = Some pid ->
        exists c, In c (Db.categories db) /\ CategoryRow.id c = pid).

End CategoryRoutes.

(** ** csv-parser.service.ts: formats, columns, amounts, rows *)

(** More of the JavaScript primitives, on the same footing as [Js]. *)
Module JsMore.
Import Js.

Definition upperChar (c : ascii) : ascii :=
  if isLower c then ascii_of_nat (code c - 32) else c.

Fixpoint toUpperCase (s : string) : string :=
  match s with
  | EmptyString => EmptyString
  | String c r => String (upperChar c) (toUpperCase r)
  end.

(** [s.startsWith(p)] *)
Definition startsWith (s p : string) : bool := String.prefix p s.

(** [s.endsWith(p)] *)
Definition endsWith (s p : string) : bool :=
  String.prefix (String.rev p) (String.rev s).

(** [s.substring(n)] *)
Fixpoint dropChars (n : nat) (s : string) : string :=
  match n, s with
  | S k, String _ r => dropChars k r
  | _, _ => s
  end.

(** [s.slice(1, -1)] *)
Definition sliceInner (s : string) : string :=
  String.rev (dropChars 1 (String.rev (dropChars 1 s))).

(** A character class [[...]]: its one-byte members, and whether [\s] is
    among them. *)
Module CharClass.
Record t : Type := mk {
  single : ascii -> bool;
  whiteSpace : bool
}.
End CharClass.

(** [s.replace(/[...]/g, '')] *)
Fixpoint removeCharsFrom (inClass : CharClass.t) (skip : nat) (s : string) : string :=
  match s with
  | EmptyString => EmptyString
  | String c r =>
      match skip with
      | S k => removeCharsFrom inClass k r
      | O =>
          match (if CharClass.whiteSpace inClass then spaceWidth s else 0) with
          | S k => removeCharsFrom inClass k r
          | O => if CharClass.single inClass c then removeCharsFrom inClass 0 r
                 else String c (removeCharsFrom inClass 0 r)
          end
      end
  end.

Definition removeChars (inClass : CharClass.t) (s : string) : string :=
  removeCharsFrom inClass 0 s.

(** [s.replace(/xy/gi, '')] for two letters [x], [y] given in lower case:
    occurrences are removed from left to right and do not overlap. *)
Fixpoint removePairCI (x y : ascii) (s : string) : string :=
  match s with
  | String a ((String b r) as tail) =>
      if Ascii.eqb (lowerChar a) x && Ascii.eqb (lowerChar b) y
      then removePairCI x y r
      else String a (removePairCI x y tail)
  | _ => s
  end.

(** [-x] *)
Definition neg (x : jsnum) : jsnum :=
  match x with
  | NaN => NaN
  | NegInf => PosInf
  | Fin q => Fin (- q)
  | PosInf => NegInf
  end.

(** [Math.abs(x)] *)
Definition Math_abs (x : jsnum) : jsnum :=
  match x with
  | NaN => NaN
  | NegInf | PosInf => PosInf
  | Fin q => Fin (Qabs q)
  end.

Definition isNaN (x : jsnum) : bool :=
  match x with
  | NaN => true
  | _ => false
  end.

(** [x >= 0] *)
Definition geZero (x : jsnum) : bool :=
  match x with
  | NaN | NegInf => false
  | Fin q => negb (Qgtb 0 q)
  | PosInf => true
  end.

(** [x] is NaN, or zero, or below zero. *)
Definition notPositive (x : jsnum) : Prop :=
  match x with
  | NaN | NegInf => True
  | Fin q => (q <= 0)%Q
  | PosInf => False
  end.

(** [x] is NaN, or zero, or above zero. *)
Definition notNegative (x : jsnum) : Prop :=
  match x with
  | NaN | PosInf => True
  | Fin q => (0 <= q)%Q
  | NegInf => False
  end.

(** [parseFloat] and [Number.prototype.toString] are the runtime's. *)
Record NumberRuntime : Type := {
  parseFloat : string -> jsnum;
  numberToString : jsnum -> string
}.

End JsMore.

Module StatementParser.
Import Js JsMore CSVParserService.

Module CSVFormat.
Record t : Type := mk {
  name : string;
  dateColumn : list string;
  descriptionColumn : list string;
  amountColumn : list string;
  merchantColumn : option (list string);
  typeColumn : option (list string);
  detectPattern : list string -> bool
}.
End CSVFormat.

(** [headers.some(h => h && p(h))] *)
Definition someTruthy (p : string -> bool) (headers : list string) : bool :=
  existsb (fun h => truthy h && p h) headers.

(** [headers.some(h => h.includes(part))] *)
Definition someIncludes (part : string) (headers : list string) : bool :=
  existsb (fun h => includes h part) headers.

(** [array.includes(name)] *)
Definition arrayIncludes (name : string) (headers : list string) : bool :=
  existsb (fun h => bool_decide (h = name)) headers.

Definition detectSBI (headers : list string) : bool :=
  let hasTxnDate := someTruthy (fun h => bool_decide (trim h = "Txn Date")) headers in
  let hasDescription := someTruthy (fun h => bool_decide (trim h = "Description")) headers in
  let hasDebit :=
    someTruthy (fun h => bool_decide (trim h = "Debit") || includes h "Debit") headers in
  let hasCredit :=
    someTruthy (fun h => bool_decide (trim h = "Credit") || includes h "Credit") headers in
  let hasRefNo := someTruthy (fun h => includes h "Ref No.") headers in
  let hasBalance := someTruthy (fun h => bool_decide (trim h = "Balance")) headers in
  hasTxnDate && hasDescription && hasDebit && hasCredit && hasRefNo && hasBalance.

Definition detectHDFC (headers : list string) : bool :=
  someTruthy (fun h => includes h "HDFC") headers
  || someTruthy (fun h => includes h "Chq/Ref Number") headers
  || someTruthy (fun h => includes h "Narration") headers
  || ((15 <? length headers)%nat && arrayIncludes "_12" headers && arrayIncludes "_14" headers).

Definition SBI : CSVFormat.t :=
  CSVFormat.mk "SBI"
    ["Txn Date"; "Value Date"; "Transaction Date"; "Date"]
    ["Description"; "Remarks"; "Narration"; "Transaction Remarks"]
    ["Debit"; "Credit"; "Amount"; "Transaction Amount"]
    None (Some ["Type"]) detectSBI.

Definition HDFC : CSVFormat.t :=
  CSVFormat.mk "HDFC Bank"
    ["Date"; "Transaction Date"; "Value Date"; ""; "_1"]
    ["Description"; "Narration"; "Transaction Details"; "Particulars"; "_1"; "_2"]
    ["Amount"; "Debit Amount"; "Credit Amount"; "Transaction Amount"; "_12"; "_14"]
    None (Some ["Transaction Type"; "Type"]) detectHDFC.

Definition ICICI : CSVFormat.t :=
  CSVFormat.mk "ICICI Bank"
    ["Transaction Date"; "Value Date"; "Date"]
    ["Transaction Remarks"; "Description"; "Narration"]
    ["Amount"; "Debit Amount"; "Credit Amount"]
    None (Some ["Transaction Type"])
    (fun headers => someIncludes "ICICI" headers
                    || someIncludes "Transaction Remarks" headers
                    || someIncludes "Reference Number" headers).

Definition Axis : CSVFormat.t :=
  CSVFormat.mk "Axis Bank"
    ["Transaction Date"; "Date"; "Tran Date"]
    ["Particulars"; "Description"; "Transaction Details"]
    ["Amount"; "Debit Amount"; "Credit Amount"]
    None None
    (fun headers => someIncludes "Axis" headers
                    || someIncludes "Particulars" headers
                    || someIncludes "Instrument Number" headers).

Definition Kotak : CSVFormat.t :=
  CSVFormat.mk "Kotak Bank"
    ["Transaction Date"; "Date"]
    ["Description"; "Narration"; "Transaction Description"]
    ["Amount"; "Debit Amount"; "Credit Amount"]
    None None
    (fun headers => someIncludes "Kotak" headers || someIncludes "Balance" headers).

Definition PNB : CSVFormat.t :=
  CSVFormat.mk "PNB"
    ["Tran Date"; "Transaction Date"; "Date"]
    ["Transaction Details"; "Description"; "Narration"]
    ["Amount"; "Debit"; "Credit"]
    None None
    (fun headers => someIncludes "PNB" headers || someIncludes "Tran Date" headers).

Definition BankOfBaroda : CSVFormat.t :=
  CSVFormat.mk "Bank of Baroda"
    ["Transaction Date"; "Date"]
    ["Transaction Particulars"; "Description"; "Remarks"]
    ["Amount"; "Debit Amount"; "Credit Amount"]
    None None
    (fun headers => someIncludes "Baroda" headers
                    || someIncludes "Transaction Particulars" headers).

Definition Generic : CSVFormat.t :=
  CSVFormat.mk "Generic"
    ["date"; "Date"; "transaction_date"; "Transaction Date"]
    ["description"; "Description"; "memo"; "Memo"; "payee"; "Payee"]
    ["amount"; "Amount"; "debit"; "Debit"; "credit"; "Credit"]
    (Some ["merchant"; "Merchant"; "payee"; "Payee"]) None
    (fun _ => true).

Definition BANK_FORMATS : list CSVFormat.t :=
  [SBI; HDFC; ICICI; Axis; Kotak; PNB; BankOfBaroda; Generic].

Definition detectFormat (headers : list string) : option CSVFormat.t :=
  List.find (fun format => CSVFormat.detectPattern format headers) BANK_FORMATS.

(** *** Columns

    A row is the list of its own keys and values in the order of
    [Object.keys]; every value is a string, as [CSVRow] declares. *)

(** [row[key]] *)
Definition rowGet (row : CSVRow) (key : string) : option string :=
  option_map snd (List.find (fun kv => bool_decide (fst kv = key)) row).

(** [Object.keys(row)] *)
Definition keysOf (row : CSVRow) : list string := List.map fst row.

(** [key && row[key]] for the key that [Object.keys(row).find] came to. *)
Definition viaKey (row : CSVRow) (key : option string) : option string :=
  match orNull key with
  | Some k => orNull (rowGet row k)
  | None => None
  end.

(** One turn of the loop of [findColumnValue]. *)
Definition lookupColumn (row : CSVRow) (columnName : string) : option string :=
  match orNull (rowGet row columnName) with
  | Some v => Some v
  | None =>
      let key :=
        List.find (fun k => bool_decide (toLowerCase k = toLowerCase columnName))
          (keysOf row) in
      match viaKey row key with
      | Some v => Some v
      | None =>
          let trimmedKey :=
            List.find (fun k => bool_decide (toLowerCase (trim k) = toLowerCase columnName))
              (keysOf row) in
          match viaKey row trimmedKey with
          | Some v => Some v
          | None =>
              let partialKey :=
                List.find (fun k => includes (toLowerCase k) (toLowerCase columnName))
                  (keysOf row) in
              viaKey row partialKey
          end
      end
  end.

Fixpoint lookupColumns (row : CSVRow) (columnNames : list string) : option string :=
  match columnNames with
  | [] => None
  | columnName :: rest =>
      match lookupColumn row columnName with
      | Some v => Some v
      | None => lookupColumns row rest
      end
  end.

(** [\d{1,2}\/\d{1,2}\/\d{2,4}] at the head of [s]. *)
Definition slashDateAt (s : string) : bool :=
  match ('(_, s1) ← digits12 s;
         s2 ← lit "/"%char s1;
         '(_, s3) ← digits12 s2;
         s4 ← lit "/"%char s3;
         digitsExactly 2 s4) with
  | Some _ => true
  | None => false
  end.

(** [/\d{1,2}\/\d{1,2}\/\d{2,4}/.test(s)] *)
Fixpoint testSlashDate (s : string) : bool :=
  slashDateAt s ||
  match s with
  | EmptyString => false
  | String _ r => testSlashDate r
  end.

(** The comma and white space. *)
Definition isCommaOrSpace : CharClass.t :=
  CharClass.mk (fun c => Ascii.eqb c ","%char) true.

(** The comma, white space and the double quote. *)
Definition isCommaSpaceOrQuote : CharClass.t :=
  CharClass.mk (fun c => Ascii.eqb c ","%char || Ascii.eqb c "034"%char) true.

Section WithNumbers.
Variable nr : NumberRuntime.

(** [const x = parseFloat(text); if (!isNaN(x) && x > 0) marker + x.toString()] *)
Definition markedIfPositive (marker text : string) : option string :=
  let x := parseFloat nr text in
  if negb (isNaN x) && gtNum x 0 then Some (marker +:+ numberToString nr x) else None.

(** After the loop, for a malformed HDFC file: a date in the column
    without name. *)
Definition firstColumnDate (row : CSVRow) (columnNames : list string) : option string :=
  if arrayIncludes "" columnNames then
    match orNull (rowGet row "") with
    | Some firstCol => if testSlashDate firstCol then Some firstCol else None
    | None => None
    end
  else None.

(** Then a description in the column [_1]. *)
Definition secondColumnText (row : CSVRow) (columnNames : list string) : option string :=
  if arrayIncludes "_1" columnNames then
    match orNull (rowGet row "_1") with
    | Some descCol => if (0 <? String.length (trim descCol))%nat then Some descCol else None
    | None => None
    end
  else None.

(** Then an amount in the column [_12] (debit) or [_14] (credit). *)
Definition markedAmount (row : CSVRow) (columnNames : list string) : option string :=
  if arrayIncludes "_12" columnNames || arrayIncludes "_14" columnNames then
    let fromDebit :=
      match orNull (rowGet row "_12") with
      | Some debitCol =>
          if truthy (trim debitCol)
          then markedIfPositive "DEBIT:" (removeChars isCommaOrSpace debitCol)
          else None
      | None => None
      end in
    match fromDebit with
    | Some v => Some v
    | None =>
        match orNull (rowGet row "_14") with
        | Some creditCol =>
            if truthy (trim creditCol)
            then markedIfPositive "CREDIT:" (removeChars isCommaOrSpace creditCol)
            else None
        | None => None
        end
    end
  else None.

(** The part of [findColumnValue] after the loop. *)
Definition malformedColumns (row : CSVRow) (columnNames : list string) : option string :=
  match firstColumnDate row columnNames with
  | Some v => Some v
  | None =>
      match secondColumnText row columnNames with
      | Some v => Some v
      | None => markedAmount row columnNames
      end
  end.

Definition findColumnValue (row : CSVRow) (columnNames : list string) : option string :=
  match lookupColumns row columnNames with
  | Some v => Some v
  | None => malformedColumns row columnNames
  end.

(** *** Amounts *)

(** The two quotes. *)
Definition isQuote : CharClass.t :=
  CharClass.mk (fun c => Ascii.eqb c "034"%char || Ascii.eqb c "039"%char) false.

(** [s.replace(/[₹$\s]/g, '')]; the rupee sign is the three bytes
    E2 82 B9 of its UTF-8 form. *)
Definition rupeeAt (s : string) : bool :=
  match s with
  | String c (String c2 (String c3 _)) =>
      Ascii.eqb c "226"%char && Ascii.eqb c2 "130"%char && Ascii.eqb c3 "185"%char
  | _ => false
  end.

Fixpoint removeCurrencyAndSpaceFrom (skip : nat) (s : string) : string :=
  match s with
  | EmptyString => EmptyString
  | String c r =>
      match skip with
      | S k => removeCurrencyAndSpaceFrom k r
      | O =>
          match spaceWidth s with
          | S k => removeCurrencyAndSpaceFrom k r
          | O =>
              if Ascii.eqb c "$"%char then removeCurrencyAndSpaceFrom 0 r
              else if rupeeAt s then removeCurrencyAndSpaceFrom 2 r
              else String c (removeCurrencyAndSpaceFrom 0 r)
          end
      end
  end.

Definition removeCurrencyAndSpace (s : string) : string :=
  removeCurrencyAndSpaceFrom 0 s.

(** [s.replace(/Rs\.?/gi, '')] *)
Fixpoint removeRs (s : string) : string :=
  match s with
  | String a ((String b r) as tail) =>
      if Ascii.eqb (lowerChar a) "r"%char && Ascii.eqb (lowerChar b) "s"%char
      then match r with
           | String d r' => if Ascii.eqb d "."%char then removeRs r' else removeRs r
           | EmptyString => EmptyString
           end
      else String a (removeRs tail)
  | _ => s
  end.

(** [s.replace(/INR/gi, '')] *)
Fixpoint removeINR (s : string) : string :=
  match s with
  | String a r =>
      match r with
      | String b (String c r') =>
          if Ascii.eqb (lowerChar a) "i"%char && Ascii.eqb (lowerChar b) "n"%char
             && Ascii.eqb (lowerChar c) "r"%char
          then removeINR r'
          else String a (removeINR r)
      | _ => String a (removeINR r)
      end
  | EmptyString => EmptyString
  end.

(** The text [parseAmount] works on once the symbols are gone. *)
Definition cleanAmount (amountStr : string) : string :=
  removeCommas (removeINR (removeRs (removeCurrencyAndSpace (removeChars isQuote amountStr)))).

Definition parseAmount (amountStr : string) : jsnum :=
  if startsWith amountStr "DEBIT:" then neg (parseFloat nr (dropChars 6 amountStr))
  else if startsWith amountStr "CREDIT:" then parseFloat nr (dropChars 7 amountStr)
  else
    let cleaned := cleanAmount amountStr in
    if startsWith cleaned "(" && endsWith cleaned ")" then
      neg (parseFloat nr (sliceInner cleaned))
    else if includes (toLowerCase cleaned) "dr" then
      neg (Math_abs (parseFloat nr (removePairCI "d" "r" cleaned)))
    else if includes (toLowerCase cleaned) "cr" then
      Math_abs (parseFloat nr (removePairCI "c" "r" cleaned))
    else parseFloat nr cleaned.

End WithNumbers.

(** *** Merchants *)

Definition prefixes : list string :=
  ["UPI-"; "IMPS-"; "NEFT-"; "RTGS-"; "POS "; "ATM "; "NET BANKING";
   "MOBILE BANKING"; "PHONE BANKING"; "INTERNET BANKING";
   "BY TRANSFER-"; "TO TRANSFER-"; "FT "; "BIL/"].

(** The loop over [prefixes], left at the first prefix that applies. *)
Fixpoint stripPrefix (ps : list string) (cleaned : string) : string :=
  match ps with
  | [] => cleaned
  | prefix :: rest =>
      if startsWith (toUpperCase cleaned) prefix
      then dropChars (String.length prefix) cleaned
      else stripPrefix rest cleaned
  end.

(** The leading digits of [s]. *)
Fixpoint takeDigits (s : string) : string :=
  match s with
  | String c r => if isDigit c then String c (takeDigits r) else EmptyString
  | EmptyString => EmptyString
  end.

Definition startsWithDigit (s : string) : bool :=
  match s with
  | String d _ => isDigit d
  | EmptyString => false
  end.

(** [s.replace(/-\d+/g, '')]; [inMatch] says that the characters before
    [s] end inside a match, whose digits are still being consumed. *)
Fixpoint removeHyphenNumbersFrom (inMatch : bool) (s : string) : string :=
  match s with
  | EmptyString => EmptyString
  | String c r =>
      if inMatch && isDigit c then removeHyphenNumbersFrom true r
      else if Ascii.eqb c "-"%char && startsWithDigit r then removeHyphenNumbersFrom true r
      else String c (removeHyphenNumbersFrom false r)
  end.

Definition removeHyphenNumbers (s : string) : string := removeHyphenNumbersFrom false s.

(** Where a scan stands with respect to a run of digits. *)
Module Run.
Inductive t : Type := outside | dropping | keeping.
End Run.

(** [s.replace(/\d{10,}/g, '')]: a maximal run of digits goes when it has
    ten digits or more. *)
Fixpoint removeLongNumbersFrom (state : Run.t) (s : string) : string :=
  match s with
  | EmptyString => EmptyString
  | String c r =>
      if isDigit c then
        match state with
        | Run.dropping => removeLongNumbersFrom Run.dropping r
        | Run.keeping => String c (removeLongNumbersFrom Run.keeping r)
        | Run.outside =>
            if (10 <=? String.length (takeDigits s))%nat
            then removeLongNumbersFrom Run.dropping r
            else String c (removeLongNumbersFrom Run.keeping r)
        end
      else String c (removeLongNumbersFrom Run.outside r)
  end.

Definition removeLongNumbers (s : string) : string := removeLongNumbersFrom Run.outside s.

(** [s.split(/\s+/)]; [inRun] says that the character before was white
    space, at which the word before has been closed. *)
Fixpoint splitSpacesFrom (skip : nat) (inRun : bool) (s : string) : list string :=
  match s with
  | EmptyString => [EmptyString]
  | String c r =>
      match skip with
      | S k => splitSpacesFrom k inRun r
      | O =>
          match spaceWidth s with
          | S k => if inRun then splitSpacesFrom k true r
                   else EmptyString :: splitSpacesFrom k true r
          | O => match splitSpacesFrom 0 false r with
                 | w :: ws => String c w :: ws
                 | [] => [String c EmptyString]
                 end
          end
      end
  end.

Definition splitSpaces (s : string) : list string := splitSpacesFrom 0 false s.

(** [word.match(/^\d+$/)] *)
Definition allDigits (word : string) : bool :=
  (0 <? String.length word)%nat && forallb isDigit (list_ascii_of_string word).

(** No white-space character anywhere in [word]. *)
Fixpoint spaceless (word : string) : bool :=
  match word with
  | EmptyString => true
  | String _ r => (spaceWidth word =? 0)%nat && spaceless r
  end.

(** [word.length > 2 && !word.match(/^\d+$/)] *)
Definition merchantWord (word : string) : bool :=
  (2 <? utf16Length word)%nat && negb (allDigits word).

Definition extractMerchantFromDescription (description : string) : option string :=
  let cleaned := stripPrefix prefixes description in
  let cleaned := removeHyphenNumbers cleaned in
  let cleaned := removeLongNumbers cleaned in
  let words := List.filter merchantWord (splitSpaces (trim cleaned)) in
  if (1 <=? length words)%nat
  then Some (join " " (take (Nat.min 3 (length words)) words))
  else None.

(** *** Type and source *)

Module TransactionType.
Inductive t : Type := income | expense | asset.
End TransactionType.

Definition assetPurchasePatterns : list string :=
  ["zerodha"; "groww"; "sip"; "mutual fund"; "stock purchase"; "equity buy"; "share buy";
   "ppf"; "epf"; "nps"; "fixed deposit"; "fd"; "gold purchase"; "crypto"; "bitcoin";
   "investment"; "systematic investment plan"; "lumpsum"; "elss";
   "tractor"; "farm equipment"; "harvester"; "irrigation"; "bore well"; "farm land";
   "livestock purchase"; "cattle purchase"; "farm building"; "solar panel"].

Definition assetSalePatterns : list string :=
  ["stock sale"; "equity sell"; "share sell"; "mutual fund redemption"; "mf redemption";
   "fd maturity"; "fixed deposit maturity"; "gold sale"; "crypto sale"; "profit booking";
   "farm land sale"; "tractor sale"; "livestock sale"; "cattle sale"; "equipment sale"].

Definition incomePatterns : list string :=
  ["salary"; "dividend"; "divd"; "interest"; "bonus"; "freelance"; "capital gain";
   "ltcg"; "stcg"; "rent received";
   "crop sales"; "harvest"; "milk sales"; "dairy income"; "farm revenue";
   "agricultural income"; "livestock income"; "subsidy"; "farm rental"].

Definition determineTransactionType (description : string) (amount : jsnum)
    : TransactionType.t :=
  let desc := toLowerCase description in
  if existsb (fun pattern => includes desc pattern) assetPurchasePatterns then
    TransactionType.asset
  else if existsb (fun pattern => includes desc pattern) assetSalePatterns then
    TransactionType.asset
  else if existsb (fun pattern => includes desc pattern) incomePatterns then
    TransactionType.income
  else if geZero amount then TransactionType.income else TransactionType.expense.

Definition sourceMap : list (string * string) :=
  [("SBI", "SBI Savings Account");
   ("HDFC Bank", "HDFC Savings Account");
   ("ICICI Bank", "ICICI Savings Account");
   ("Axis Bank", "Axis Savings Account");
   ("Kotak Bank", "Kotak Savings Account");
   ("PNB", "PNB Savings Account");
   ("BOB", "Bank of Baroda Savings Account");
   ("Generic", "Bank Statement")].

(** [sourceMap[format.name] || `${format.name} Account`], for a name that is
    not a property of [Object.prototype]. *)
Definition getTransactionSource (format : option CSVFormat.t) : string :=
  match format with
  | None => "Unknown"
  | Some fmt =>
      orElse (rowGet sourceMap (CSVFormat.name fmt)) (CSVFormat.name fmt +:+ " Account")
  end.

(** *** Rows *)

Module ParsedTransaction.
Record t : Type := mk {
  date : Z;          (* the day [date.toISOString().split('T')[0]] names,
                        counted from 1970-01-01 *)
  description : string;
  amount : jsnum;
  merchant : option string;
  type : TransactionType.t;
  source : string;
  originalData : CSVRow
}.
End ParsedTransaction.

(** What [parseCSV] resolves to. *)
Module Parsed.
Record t : Type := mk {
  format : option CSVFormat.t;
  transactions : list ParsedTransaction.t;
  headers : list string;
  preview : list CSVRow
}.
End Parsed.

Section WithRuntime.
Variable nr : NumberRuntime.

(** [minutesAhead d] is the number of minutes by which the instant
    [new Date(y, m, d)] of local day [d] precedes midnight UTC of the same
    calendar day: the offset of the server's time zone on that day. *)
Variable minutesAhead : Z -> Z.

(** The day named by [date.toISOString().split('T')[0]]; [None] when
    [toISOString] throws. *)
Definition isoDay (date : JsDate.t) : option Z :=
  match date with
  | JsDate.Invalid => None
  | JsDate.LocalDay d => Some ((d * 1440 - minutesAhead d) / 1440)%Z
  end.

Definition notBlank (s : string) : bool :=
  negb (bool_decide (trim s = "")) && negb (bool_decide (trim s = " ")).

(** The SBI branch of [parseRow]: the amount text it settles on. *)
Definition sbiAmountValue (row : CSVRow) (amountValue : option string) : option string :=
  let debitAmount := findColumnValue nr row ["Debit"; "        Debit"] in
  let creditAmount := findColumnValue nr row ["Credit"] in
  let fromDebit :=
    match orNull debitAmount with
    | Some debit =>
        if notBlank debit
        then markedIfPositive nr "DEBIT:" (removeChars isCommaSpaceOrQuote debit)
        else None
    | None => None
    end in
  match fromDebit with
  | Some marked => Some marked
  | None =>
      match orNull creditAmount with
      | Some credit =>
          if notBlank credit then
            match markedIfPositive nr "CREDIT:" (removeChars isCommaSpaceOrQuote credit) with
            | Some marked => Some marked
            | None => amountValue
            end
          else amountValue
      | None => amountValue
      end
  end.

(** [let x = 0; if (v && v.trim() !== '' && v.trim() !== '0.00') x = parseFloat(...)] *)
Definition hdfcNumber (value : option string) : jsnum :=
  match orNull value with
  | Some v =>
      if negb (bool_decide (trim v = "")) && negb (bool_decide (trim v = "0.00"))
      then parseFloat nr (removeChars isCommaOrSpace v)
      else Fin 0
  | None => Fin 0
  end.

(** The HDFC branch of [parseRow]: [None] when it returns null. *)
Definition hdfcAmountValue (row : CSVRow) : option string :=
  let debitValue :=
    findColumnValue nr row ["Debit Amount"; "Debit Amount       "; "_12"] in
  let creditValue :=
    findColumnValue nr row ["Credit Amount"; "Credit Amount      "; "_14"] in
  let debitAmount := hdfcNumber debitValue in
  let creditAmount := hdfcNumber creditValue in
  if gtNum debitAmount 0 then Some ("DEBIT:" +:+ numberToString nr debitAmount)
  else if gtNum creditAmount 0 then Some ("CREDIT:" +:+ numberToString nr creditAmount)
  else None.

(** [parseRow] from the description on, once the date is known. *)
Definition finishRow (userSource : option string) (row : CSVRow) (format : CSVFormat.t)
    (date : JsDate.t) : option ParsedTransaction.t :=
  let description :=
    orElse (findColumnValue nr row (CSVFormat.descriptionColumn format))
      "Unknown Transaction" in
  let amountValue := findColumnValue nr row (CSVFormat.amountColumn format) in
  let amountValue :=
    if bool_decide (CSVFormat.name format = "SBI") then sbiAmountValue row amountValue
    else if bool_decide (CSVFormat.name format = "HDFC Bank") then hdfcAmountValue row
    else amountValue in
  match orNull amountValue with
  | None => None
  | Some amountText =>
      let amount := parseAmount nr amountText in
      if isNaN amount then None
      else
        let merchant :=
          match CSVFormat.merchantColumn format with
          | Some merchantColumn => findColumnValue nr row merchantColumn
          | None => extractMerchantFromDescription description
          end in
        let type := determineTransactionType description amount in
        let source :=
          match orNull userSource with
          | Some given => given
          | None => getTransactionSource (Some format)
          end in
        match isoDay date with
        | None => None              (* [toISOString] throws, the [catch] returns null *)
        | Some day =>
            Some (ParsedTransaction.mk day (trim description) (Math_abs amount)
                    (option_map trim merchant) type source row)
        end
  end.

Definition parseRow (row : CSVRow) (format : option CSVFormat.t)
    (userSource : option string) : option ParsedTransaction.t :=
  match format with
  | None => None
  | Some fmt =>
      match orNull (findColumnValue nr row (CSVFormat.dateColumn fmt)) with
      | None => None
      | Some dateValue =>
          match parseDate dateValue with
          | None => None
          | Some date => finishRow userSource row fmt date
          end
      end
  end.


(** [parseCSV], from the rows that [Papa.parse] hands to [complete]. *)
Definition parseCSV (data : list CSVRow) (userSource : option string) : Parsed.t :=
  let headers := match data with
                 | first :: _ => keysOf first
                 | [] => []
                 end in
  let format := detectFormat headers in
  let transactions := omap (fun row => parseRow row format userSource) data in
  Parsed.mk format transactions headers (take 5 data).

End WithRuntime.

End StatementParser.

(** ** csv.routes.ts (POST /import) and transaction.routes.ts
       (POST /bulk-categorize): categorisation by type *)

Module Ledger.
Import Js JsMore StatementParser.

(** A row of the transaction table with the columns these routes read and
    write; [instant] is the date in milliseconds since the epoch. *)
Module Row.
Record t : Type := mk {
  id : string;
  userId : string;
  instant : Z;
  description : string;
  amount : Q;
  merchant : option string;
  type : TransactionType.t;
  categoryId : option string;
  llmCategorized : bool;
  llmConfidence : option jsnum;
  source : option string
}.
End Row.

(** A parsed transaction whose amount is finite. *)
Module Incoming.
Record t : Type := mk {
  date : Z;                 (* the day its [date] text names *)
  description : string;
  amount : Q;
  merchant : option string;
  type : TransactionType.t;
  source : string
}.
End Incoming.

Definition ofParsed (p : ParsedTransaction.t) : option Incoming.t :=
  match ParsedTransaction.amount p with
  | Fin q =>
      Some (Incoming.mk (ParsedTransaction.date p) (ParsedTransaction.description p) q
              (ParsedTransaction.merchant p) (ParsedTransaction.type p)
              (ParsedTransaction.source p))
  | _ => None
  end.

(** [new Date(text)] for the text of day [d]: midnight UTC. *)
Definition midnight (d : Z) : Z := (d * 86400000)%Z.

(** The day [instant.toISOString().split('T')[0]] names. *)
Definition dayOf (instant : Z) : Z := (instant / 86400000)%Z.

(** [c.type === transaction.type] *)
Definition sameType (c : CategoryRoutes.CategoryType.t) (t : TransactionType.t) : bool :=
  match c, t with
  | CategoryRoutes.CategoryType.income, TransactionType.income
  | CategoryRoutes.CategoryType.expense, TransactionType.expense
  | CategoryRoutes.CategoryType.asset, TransactionType.asset => true
  | _, _ => false
  end.

(** [prisma.category.findMany({ where: { userId } })] *)
Definition userCategoriesOf (categories : list CategoryRoutes.CategoryRow.t)
    (userId : string) : list CategoryRoutes.CategoryRow.t :=
  List.filter (fun c => bool_decide (CategoryRoutes.CategoryRow.userId c = Some userId))
    categories.

(** [userCategories.filter(c => c.type === transaction.type)] *)
Definition categoriesForType (userCategories : list CategoryRoutes.CategoryRow.t)
    (type : TransactionType.t) : list CategoryRoutes.CategoryRow.t :=
  List.filter (fun c => sameType (CategoryRoutes.CategoryRow.type c) type) userCategories.

(** [categoriesForType.find(c => c.name === suggestion.category)] *)
Definition selectCategory (categoriesForType : list CategoryRoutes.CategoryRow.t)
    (suggestion : CategorySuggestion.t) : option CategoryRoutes.CategoryRow.t :=
  List.find (fun c => bool_decide (CategoryRoutes.CategoryRow.name c
                                   = CategorySuggestion.category suggestion))
    categoriesForType.

(** The category table as the classifier's lookups of names see it. *)
Definition toCategory (c : CategoryRoutes.CategoryRow.t) : Category.t :=
  Category.mk (CategoryRoutes.CategoryRow.id c) (CategoryRoutes.CategoryRow.name c)
    (CategoryRoutes.CategoryRow.userId c) (CategoryRoutes.CategoryRow.isDefault c).

(** A row that the import wrote for user [userId]. *)
Definition wellFiled (userId : string) (userCategories : list CategoryRoutes.CategoryRow.t)
    (r : Row.t) : Prop :=
  Row.userId r = userId
  /\ (Row.llmCategorized r = true <-> is_Some (Row.categoryId r))
  /\ forall c, Row.categoryId r = Some c ->
       exists category,
         In category userCategories
         /\ CategoryRoutes.CategoryRow.id category = c
         /\ sameType (CategoryRoutes.CategoryRow.type category) (Row.type r) = true.

(** [{ imported, skipped, failed, categorized }] *)
Module Results.
Record t : Type := mk {
  imported : nat;
  skipped : nat;
  failed : nat;
  categorized : nat
}.
End Results.

Section Routes.
Variable rt : JsRuntime.
(** The model call made for the [k]-th transaction of the request. *)
Variable llm : nat -> string -> option string -> Q -> list string -> LlmOutcome.
Variable categories : list CategoryRoutes.CategoryRow.t.
Variable patternStore : list CategoryPattern.t.
(** [amount.toFixed(2)] *)
Variable toFixed2 : Q -> string.
(** The id the database gives the row created for the [k]-th transaction. *)
Variable newId : nat -> string.
(** Whether the classification and the [create] of the [k]-th transaction
    throw. *)
Variable classifyFails : nat -> bool.
Variable createFails : nat -> bool.

(** The text [`${date}|${description.toLowerCase()}|${amount.toFixed(2)}`],
    kept as its three parts: the date has no bar and the amount has none, so
    two such texts are equal exactly when their parts are. *)
Definition hashOf (day : Z) (description : string) (amount : Q) : Z * string * string :=
  (day, toLowerCase description, toFixed2 amount).

(** [duplicateCheckSet], from the rows of the user whose date is that of one
    of the incoming transactions. *)
Definition duplicateCheckSet (ledger : list Row.t) (userId : string)
    (transactions : list Incoming.t) : list (Z * string * string) :=
  List.map (fun t => hashOf (dayOf (Row.instant t)) (Row.description t) (Row.amount t))
    (List.filter
       (fun t => bool_decide (Row.userId t = userId)
                 && bool_decide (Row.instant t
                                 ∈ List.map (fun i => midnight (Incoming.date i)) transactions))
       ledger).

(** What the categorisation step settles for a transaction:
    [categoryId], [llmCategorized], [llmConfidence], and whether
    [categorized] goes up. *)
Definition categorise (k : nat) (userId : option string) (userCategories : list CategoryRoutes.CategoryRow.t)
    (description : string) (merchant : option string) (amount : Q)
    (type : TransactionType.t) : option string * bool * option jsnum :=
  let forType := categoriesForType userCategories type in
  if (0 <? length forType)%nat then
    if classifyFails k then (None, false, None)
    else
      let suggestion :=
        OllamaService.categorizeTransaction rt (List.map toCategory categories)
          patternStore (llm k) description (orNull merchant) amount
          (List.map CategoryRoutes.CategoryRow.name forType) userId in
      match selectCategory forType suggestion with
      | Some selectedCategory =>
          (Some (CategoryRoutes.CategoryRow.id selectedCategory), true,
           Some (CategorySuggestion.confidence suggestion))
      | None => (None, false, None)
      end
  else (None, false, None).

Definition bump (b : bool) (n : nat) : nat := if b then S n else n.

(** The body run for the [k]-th transaction of POST /import. The write to
    the asset table that follows a created asset transaction is not part of
    this model. *)
Definition importOne (skipDuplicates : bool) (userId : string)
    (userCategories : list CategoryRoutes.CategoryRow.t)
    (seen : list (Z * string * string)) (k : nat) (transaction : Incoming.t)
    (state : list Row.t * Results.t) : list Row.t * Results.t :=
  let '(ledger, results) := state in
  if skipDuplicates
     && bool_decide (hashOf (Incoming.date transaction) (Incoming.description transaction)
                       (Incoming.amount transaction) ∈ seen)
  then (ledger, Results.mk (Results.imported results) (S (Results.skipped results))
                  (Results.failed results) (Results.categorized results))
  else
    let '(categoryId, llmCategorized, llmConfidence) :=
      categorise k (Some userId) userCategories (Incoming.description transaction)
        (Incoming.merchant transaction) (Incoming.amount transaction)
        (Incoming.type transaction) in
    let categorized := bump llmCategorized (Results.categorized results) in
    if createFails k then
      (ledger, Results.mk (Results.imported results) (Results.skipped results)
                 (S (Results.failed results)) categorized)
    else
      (ledger ++ [Row.mk (newId k) userId (midnight (Incoming.date transaction))
                    (Incoming.description transaction) (Incoming.amount transaction)
                    (Incoming.merchant transaction) (Incoming.type transaction)
                    categoryId llmCategorized llmConfidence
                    (Some (Incoming.source transaction))],
       Results.mk (S (Results.imported results)) (Results.skipped results)
         (Results.failed results) categorized).

(** The batches of ten, one transaction after the other: each body reads
    only the set built before the loop, the categories and the patterns,
    so the order in which the bodies of a batch run changes the order of the
    new rows and nothing else. *)
Fixpoint importFrom (skipDuplicates : bool) (userId : string)
    (userCategories : list CategoryRoutes.CategoryRow.t)
    (seen : list (Z * string * string)) (k : nat) (transactions : list Incoming.t)
    (state : list Row.t * Results.t) : list Row.t * Results.t :=
  match transactions with
  | [] => state
  | transaction :: rest =>
      importFrom skipDuplicates userId userCategories seen (S k) rest
        (importOne skipDuplicates userId userCategories seen k transaction state)
  end.

(** POST /import once the file is parsed: [None] for the answer 400 'No
    valid transactions found in CSV'. *)
Definition importTransactions (skipDuplicates : bool) (userId : string)
    (ledger : list Row.t) (transactions : list Incoming.t)
    : list Row.t * option Results.t :=
  match transactions with
  | [] => (ledger, None)
  | _ =>
      let userCategories := userCategoriesOf categories userId in
      let seen := if skipDuplicates then duplicateCheckSet ledger userId transactions
                  else [] in
      let '(ledger', results) :=
        importFrom skipDuplicates userId userCategories seen 0 transactions
          (ledger, Results.mk 0 0 0 0) in
      (ledger', Some results)
  end.

(** [prisma.transaction.update({ where: { id }, data: { categoryId,
    llmCategorized: true, llmConfidence } })] *)
Definition assign (rowId categoryId : string) (confidence : jsnum) (r : Row.t) : Row.t :=
  if bool_decide (Row.id r = rowId) then
    Row.mk (Row.id r) (Row.userId r) (Row.instant r) (Row.description r) (Row.amount r)
      (Row.merchant r) (Row.type r) (Some categoryId) true (Some confidence) (Row.source r)
  else r.

(** The filter of POST /bulk-categorize:
    [{ id: { in: transactionIds }, userId, categoryId: null }]. *)
Definition uncategorizedAmong (transactionIds : list string) (userId : string)
    (r : Row.t) : bool :=
  bool_decide (Row.id r ∈ transactionIds)
  && bool_decide (Row.userId r = userId)
  && bool_decide (Row.categoryId r = None).

(** The callback of POST /bulk-categorize for the [k]-th transaction found:
    the category and confidence it writes, [None] when it returns null. The
    classifier is called without user id. *)
Definition bulkChoice (k : nat) (userCategories : list CategoryRoutes.CategoryRow.t)
    (transaction : Row.t) : option (string * jsnum) :=
  let forType := categoriesForType userCategories (Row.type transaction) in
  if (length forType =? 0)%nat then None
  else
    let suggestion :=
      OllamaService.categorizeTransaction rt (List.map toCategory categories)
        patternStore (llm k) (Row.description transaction) (Row.merchant transaction)
        (Row.amount transaction) (List.map CategoryRoutes.CategoryRow.name forType) None in
    match selectCategory forType suggestion with
    | Some selectedCategory =>
        Some (CategoryRoutes.CategoryRow.id selectedCategory,
              CategorySuggestion.confidence suggestion)
    | None => None
    end.

(** The callbacks one after the other; each writes at most the row it was
    called for. *)
Fixpoint bulkFrom (userCategories : list CategoryRoutes.CategoryRow.t) (k : nat)
    (transactions : list Row.t) (state : list Row.t * nat) : list Row.t * nat :=
  match transactions with
  | [] => state
  | transaction :: rest =>
      let '(ledger, updated) := state in
      bulkFrom userCategories (S k) rest
        (match bulkChoice k userCategories transaction with
         | Some (categoryId, confidence) =>
             (List.map (assign (Row.id transaction) categoryId confidence) ledger,
              S updated)
         | None => (ledger, updated)
         end)
  end.

(** The write of a callback seen from row [r]. *)
Definition enactBulk (transaction : Row.t) (choice : option (string * jsnum)) (r : Row.t)
    : Row.t :=
  match choice with
  | Some (categoryId, confidence) => assign (Row.id transaction) categoryId confidence r
  | None => r
  end.

(** The row the callbacks for [transactions], numbered from [k], leave in
    place of [r]. *)
Fixpoint afterBulk (userCategories : list CategoryRoutes.CategoryRow.t) (k : nat)
    (transactions : list Row.t) (r : Row.t) : Row.t :=
  match transactions with
  | [] => r
  | transaction :: rest =>
      if bool_decide (Row.id transaction = Row.id r)
      then enactBulk transaction (bulkChoice k userCategories transaction) r
      else afterBulk userCategories (S k) rest r
  end.

(** The number of callbacks that write. *)
Fixpoint bulkHits (userCategories : list CategoryRoutes.CategoryRow.t) (k : nat)
    (transactions : list Row.t) : nat :=
  match transactions with
  | [] => 0
  | transaction :: rest =>
      (match bulkChoice k userCategories transaction with
       | Some _ => 1
       | None => 0
       end + bulkHits userCategories (S k) rest)%nat
  end.

(** POST /bulk-categorize when the database calls succeed; [transactionIds]
    is [None] when the body holds no array, and the answer is [None] for
    the status 400. *)
Definition bulkCategorize (userId : string) (ledger : list Row.t)
    (transactionIds : option (list string)) : list Row.t * option nat :=
  match transactionIds with
  | None | Some [] => (ledger, None)
  | Some ids =>
      let transactions := List.filter (uncategorizedAmong ids userId) ledger in
      let userCategories := userCategoriesOf categories userId in
      let '(ledger', updated) := bulkFrom userCategories 0 transactions (ledger, 0%nat) in
      (ledger', Some updated)
  end.

End Routes.

End Ledger.

(** ** transaction.routes.ts: the pages of GET / *)

Module TransactionRoutes.

Module Pagination.
Record t : Type := mk {
  currentPage : Z;
  totalPages : Z;
  totalCount : Z;
  limit : Z;
  hasNextPage : bool;
  hasPreviousPage : bool
}.
End Pagination.

#[local] Open Scope Z_scope.

(** [parseInt(text) || d]: [parsed] is what [parseInt] made of the query
    parameter, [None] for NaN. *)
Definition parsedOr (parsed : option Z) (d : Z) : Z :=
  match parsed with
  | Some n => if n =? 0 then d else n
  | None => d
  end.

Definition pageNumOf (parsedPage : option Z) : Z := Z.max 1 (parsedOr parsedPage 1).

Definition limitNumOf (parsedLimit : option Z) : Z :=
  Z.max 1 (Z.min 100 (parsedOr parsedLimit 10)).

(** [Math.ceil(totalCount / limitNum)] for a count and a limit of at least
    1 (for the counts a table can hold, the quotient of the two numbers is
    rounded to the same whole number as the exact quotient). *)
Definition ceilDiv (totalCount limitNum : Z) : Z :=
  (totalCount + limitNum - 1) / limitNum.

(** The answer of GET /: [matching] is the list of the rows that satisfy
    [where], in the order [orderBy] asks for, as both queries see it. *)
Definition listTransactions {A : Type} (matching : list A)
    (parsedPage parsedLimit : option Z) : list A * Pagination.t :=
  let pageNum := pageNumOf parsedPage in
  let limitNum := limitNumOf parsedLimit in
  let offset := (pageNum - 1) * limitNum in
  let totalCount := Z.of_nat (length matching) in
  let transactions := take (Z.to_nat limitNum) (drop (Z.to_nat offset) matching) in
  let totalPages := ceilDiv totalCount limitNum in
  (transactions,
   Pagination.mk pageNum totalPages totalCount limitNum
     (pageNum <? totalPages) (1 <? pageNum)).

End TransactionRoutes.

(** ** Concrete inputs for the statement parser and the routes *)

Module Fixtures.
Import Js JsMore StatementParser.

(** A runtime that agrees with JavaScript on strings of decimal digits and
    on the whole numbers they denote. *)
Definition numbers : NumberRuntime :=
  {| parseFloat := fun s =>
       if (0 <? String.length s)%nat && forallb isDigit (list_ascii_of_string s)
       then Fin (inject_Z (CSVParserService.parseInt s)) else NaN;
     numberToString := fun x =>
       match x with
       | Fin q => pretty (Qnum q)
       | _ => "NaN"
       end |}.

(** Indian Standard Time, five and a half hours ahead of UTC. *)
Definition ist : Z -> Z := fun _ => 330%Z.

(** A row of an SBI statement with a debit of 250. *)
Definition sbiDebitRow : CSVParserService.CSVRow :=
  [("Txn Date", "15 Jan 2023"); ("Value Date", "15 Jan 2023");
   ("Description", "TO TRANSFER-UPI/DR/SWIGGY"); ("Ref No./Cheque No.", "TRANSFER TO 4897");
   ("        Debit", "250"); ("Credit", " "); ("Balance", "1,000")].

(** [toFixed(2)] on amounts that are not negative, rounding half up. *)
Definition toFixed2 (q : Q) : string :=
  let cents := ((Qnum q * 200 + Zpos (Qden q)) / (2 * Zpos (Qden q)))%Z in
  let low := (cents mod 100)%Z in
  pretty (cents / 100)%Z +:+ "." +:+ (if (low <? 10)%Z then "0" else "") +:+ pretty low.

Definition newId (k : nat) : string := "tx-" +:+ pretty k.

Definition groceries : CategoryRoutes.CategoryRow.t :=
  CategoryRoutes.CategoryRow.mk "c-food" "Groceries & Food"
    CategoryRoutes.CategoryType.expense false (Some "u") None.

Definition travel : CategoryRoutes.CategoryRow.t :=
  CategoryRoutes.CategoryRow.mk "c-travel" "Travel"
    CategoryRoutes.CategoryType.expense false (Some "u") None.

(** A statement with the same line twice. *)
Definition swiggyLine : Ledger.Incoming.t :=
  Ledger.Incoming.mk 19372 "UPI-SWIGGY-1234567890-paytm" 250 (Some "SWIGGY")
    StatementParser.TransactionType.expense "SBI Savings Account".

Definition twoLines : list Ledger.Incoming.t := [swiggyLine; swiggyLine].

Definition modelDown : nat -> string -> option string -> Q -> list string -> LlmOutcome :=
  fun _ _ _ _ _ => TransportFailure.

Definition noFault : nat -> bool := fun _ => false.

(** An uncategorized row that no keyword rule recognises. *)
Definition plainRow : Ledger.Row.t :=
  Ledger.Row.mk "t9" "u" 0 "XYZZY 42" 10 None StatementParser.TransactionType.expense
    None false None None.

(** A category table with one transaction filed under groceries. *)
Definition filed : CategoryRoutes.Db.t :=
  CategoryRoutes.Db.mk [groceries; travel]
    [Transaction.mk "t1" "u" "Swiggy order 1234" None (-250) (Some "c-food") false None].

(** The header row of an SBI statement. *)
Definition sbiHeaders : list string :=
  ["Txn Date"; "Value Date"; "Description"; "Ref No./Cheque No."; "        Debit";
   "Credit"; "Balance"].

End Fixtures.

(** * The vocabulary of the statements *)

(** ** What the design document says, in its own words *)

Module Stated.
Import Js LearningService.

(** "ordered by confidence descending, then recency descending" *)
Definition precedes (p q : Pattern) : bool :=
  Qgtb (CategoryPattern.confidence p) (CategoryPattern.confidence q)
  || (Qeq_bool (CategoryPattern.confidence p) (CategoryPattern.confidence q)
      && (CategoryPattern.updatedAt q <=? CategoryPattern.updatedAt p)%Z).

Fixpoint insertOrdered (p : Pattern) (rows : list Pattern) : list Pattern :=
  match rows with
  | [] => [p]
  | q :: rest => if precedes p q then p :: rows else q :: insertOrdered p rest
  end.

Definition ordered (rows : list Pattern) : list Pattern :=
  List.fold_right insertOrdered [] rows.

(** "stored merchant is a case-insensitive substring match against the query
    merchant (or vice versa)" *)
Definition merchantEitherWay (userId merchant : string) (p : Pattern) : bool :=
  bool_decide (CategoryPattern.userId p = userId)
  && match CategoryPattern.merchant p with
     | Some stored =>
         includes (toLowerCase stored) (toLowerCase merchant)
         || includes (toLowerCase merchant) (toLowerCase stored)
     | None => false
     end.

(** [findBestMatch] as section 4.3 of the design document words it: exact
    match, then the first similar description among the rows in the stated
    order, then the merchant match in either direction. *)
Definition findBestMatch (categories : list Category.t) (store : list Pattern)
    (userId description : string) (merchant : option string) : option Match.t :=
  match firstByConfidenceDesc
          (List.filter (keyWhere userId description merchant) store) with
  | Some r =>
      Some (Match.mk (CategoryPattern.categoryId r)
              (categoryNameOf categories (CategoryPattern.categoryId r))
              (CategoryPattern.confidence r) MatchType.exact)
  | None =>
      match scanDescriptions categories (extractKeywords description)
              (ordered (List.filter
                 (fun p => bool_decide (CategoryPattern.userId p = userId)) store)) with
      | Some m => Some m
      | None =>
          match merchant with
          | Some merch =>
              match firstByConfidenceDesc
                      (List.filter (merchantEitherWay userId merch) store) with
              | Some r =>
                  Some (Match.mk (CategoryPattern.categoryId r)
                          (categoryNameOf categories (CategoryPattern.categoryId r))
                          (CategoryPattern.confidence r * 0.8) MatchType.merchant)
              | None => None
              end
          | None => None
          end
      end
  end.

(** "naming the first available category" *)
Definition namesFirstAvailable (availableCategories : list string)
    (s : CategorySuggestion.t) : Prop :=
  head availableCategories = Some (CategorySuggestion.category s).

(** "confidence always lies in [0,1]" *)
Definition withinUnit (c : jsnum) : Prop :=
  exists r, c = Fin r /\ (0 <= r <= 1)%Q.





(** "keyed by (userId, derived-asset-name, asset-category,
    asset-subcategory)" *)
Definition keyedBy (userId assetName : string) (info : AssetHandler.AssetInfo.t)
    (a : Asset.t) : Prop :=
  Asset.userId a = userId
  /\ Asset.name a = assetName
  /\ Asset.category a = AssetHandler.AssetInfo.category info
  /\ Asset.subCategory a = AssetHandler.AssetInfo.subCategory info.

(** "the matching existing asset": the first asset of the table that has
    the key; [pre] and [post] are the rows before and after it. *)
Definition matchingAsset (userId assetName : string) (info : AssetHandler.AssetInfo.t)
    (assets pre : list Asset.t) (e : Asset.t) (post : list Asset.t) : Prop :=
  assets = pre ++ e :: post
  /\ keyedBy userId assetName info e
  /\ forall a, In a pre -> ~ keyedBy userId assetName info a.

(** "increase its current value by the transaction's absolute amount
    (... incrementing a purchase counter if existing)"; a counter that is
    null, zero or not a number counts from zero. *)
Definition purchased (amount : float) (a a' : Asset.t) : Prop :=
  Views.assetIdentity a' = Views.assetIdentity a
  /\ Asset.currentValue a' = (Asset.currentValue a + abs amount)%float
  /\ Asset.isActive a' = Asset.isActive a
  /\ match Asset.quantity a with
     | Some q =>
         if is_nan q || (q =? 0)%float then Asset.quantity a' = Some 1%float
         else Asset.quantity a' = Some (q + 1)%float
     | None => Asset.quantity a' = Some 1%float
     end.

(** "decrease the matching existing asset's value by the absolute amount,
    floored at zero, marking it inactive if it reaches zero".  The
    difference is not a number only when a figure already is not, or when
    an infinite amount is taken from an infinite value. *)
Definition sold (amount : float) (a a' : Asset.t) : Prop :=
  let difference := (Asset.currentValue a - abs amount)%float in
  Views.assetIdentity a' = Views.assetIdentity a
  /\ Asset.quantity a' = Asset.quantity a
  /\ (Asset.currentValue a' <? 0)%float = false
  /\ (is_nan difference = false ->
      Asset.currentValue a' = (if (0 <? difference)%float then difference else 0%float)
      /\ (Asset.isActive a' = false <-> Asset.currentValue a' = 0%float))
  /\ (is_nan difference = true ->
      is_nan (Asset.currentValue a') = true /\ Asset.isActive a' = false).

(** "Jaccard similarity: |A∩B| / |A∪B| over two keyword sets" *)
Definition jaccard (A B : gset string) : Q :=
  inject_Z (Z.of_nat (size (A ∩ B))) / inject_Z (Z.of_nat (size (A ∪ B))).

(** The number of different words of a list. *)
Definition distinct (words : list string) : nat := length (remove_dups words).

(** "extract a keyword set from the query description (lowercase, strip
    non-alphanumeric, drop a fixed stop-word list ..., drop tokens of at
    most 2 chars, cap at 10 tokens)": the tokens are the runs of lower-case
    letters and digits of the lower-cased text, in order. *)
Definition isAlnum (c : ascii) : bool := isLower c || isDigit c.

(** The pieces of [s] between the characters of [sep]. *)
Fixpoint cutAt (sep : ascii -> bool) (s : string) : list string :=
  match s with
  | EmptyString => [EmptyString]
  | String c r =>
      if sep c then EmptyString :: cutAt sep r
      else match cutAt sep r with
           | w :: ws => String c w :: ws
           | [] => [String c EmptyString]
           end
  end.

Definition nonEmpty (w : string) : bool := negb (bool_decide (w = EmptyString)).

Definition tokens (s : string) : list string :=
  List.filter nonEmpty (cutAt (fun c => negb (isAlnum c)) s).

(** "a fixed stop-word list of common banking filler terms such as "upi",
    prepositions": the banking term, the conjunctions and the prepositions
    that are dropped. *)
Definition fillerTerms : list string :=
  ["upi"] ++ ["the"; "and"; "or"; "but"]
  ++ ["in"; "on"; "at"; "to"; "for"; "of"; "with"; "by"; "from"; "up"; "about";
      "into"; "through"; "during"; "before"; "after"; "above"; "below"; "between";
      "among"; "under"; "over"].

Definition keywords (text : string) : list string :=
  take 10
    (List.filter (fun w => (2 <? String.length w)%nat && negb (bool_decide (w ∈ fillerTerms)))
       (tokens (toLowerCase text))).

End Stated.

(** ** Names for what the code computes *)

Module Describe.
Import Js LearningService OllamaService.

Definition descriptionSimilarity (description : string) (p : Pattern) : Q :=
  calculateSimilarity (extractKeywords description)
    (extractKeywords (CategoryPattern.description p)).

Definition matchOf (categories : list Category.t) (p : Pattern) (confidence : Q)
    (ty : MatchType.t) : Match.t :=
  Match.mk (CategoryPattern.categoryId p)
    (categoryNameOf categories (CategoryPattern.categoryId p)) confidence ty.

(** A rule fires and resolves against the caller's categories. *)
Definition ruleApplies (desc merch : string) (availableCategories : list string)
    (rule : Rule.t) : bool :=
  hasMatch desc merch rule
  && bool_decide (is_Some (resolveCategory availableCategories rule)).

Definition quickSuggestion (desc merch : string) (rule : Rule.t) (cat : string)
    : CategorySuggestion.t :=
  CategorySuggestion.mk cat (Fin (Rule.confidence rule))
    (Json.JStr (quickReasoning desc merch rule)).

Definition learnedSuggestion (m : Match.t) : CategorySuggestion.t :=
  CategorySuggestion.mk (Match.categoryName m) (Fin (Match.confidence m))
    (Json.JStr ("Learned from previous " +:+ matchTypeName (Match.matchType m)
                +:+ " match")).

(** The learned step is trusted: a user id was supplied and the store holds
    a match for it whose confidence exceeds 0.8. *)
Definition trustedMatch (categories : list Category.t) (store : list CategoryPattern.t)
    (description : string) (merchant userId : option string) (m : Match.t) : Prop :=
  exists uid, userId = Some uid /\ uid <> EmptyString /\
    findSimilarPattern categories store uid description merchant = Some m /\
    (0.8 < Match.confidence m)%Q.

(** The model's answer cannot be read: it is not a string, holds no pair of
    braces, is not JSON between them, or has no string under "category". *)
Inductive Unparseable (rt : JsRuntime) : option string -> Prop :=
  | NotAString : Unparseable rt None
  | NoObject text : matchBraces text = None -> Unparseable rt (Some text)
  | BadJson text jsonMatch :
      matchBraces text = Some jsonMatch -> JSON_parse rt jsonMatch = None ->
      Unparseable rt (Some text)
  | NoCategory text jsonMatch parsed :
      matchBraces text = Some jsonMatch -> JSON_parse rt jsonMatch = Some parsed ->
      (forall s, Json.prop parsed "category" <> Json.Value (Json.JStr s)) ->
      Unparseable rt (Some text).

(** A transport failure or an unparseable answer. *)
Inductive LlmFailed (rt : JsRuntime) : LlmOutcome -> Prop :=
  | FailedTransport : LlmFailed rt TransportFailure
  | FailedParse response : Unparseable rt response -> LlmFailed rt (Responded response).

Definition clampedConfidence (q : Q) : Q := Qmax 0 (Qmin 1 q).

Definition ledgerView (a : Asset.t) : float * option float * bool :=
  (Asset.currentValue a, Asset.quantity a, Asset.isActive a).

(** The text [d1 d2 / m1 m2 / y1 y2 y3 y4]. *)
Definition slashDate (d1 d2 m1 m2 y1 y2 y3 y4 : ascii) : string :=
  String d1 (String d2 (String "/" (String m1 (String m2 (String "/"
    (String y1 (String y2 (String y3 (String y4 EmptyString))))))))).

Definition keyView (p : Pattern) : string * option string * string * Q :=
  (CategoryPattern.description p, CategoryPattern.merchant p,
   CategoryPattern.categoryId p, CategoryPattern.confidence p).

(** What the two replacements of [extractKeywords] come to together: the
    letters and digits stay, and every run of other bytes becomes one
    blank; [inRun] says that the byte before was of such a run. *)
Fixpoint squeeze (inRun : bool) (s : string) : string :=
  match s with
  | EmptyString => EmptyString
  | String c r =>
      if Stated.isAlnum c then String c (squeeze false r)
      else if inRun then squeeze true r
      else String " "%char (squeeze true r)
  end.

(** The first [k] bytes of [s] are neither letters nor digits. *)
Fixpoint outsideFor (k : nat) (s : string) : Prop :=
  match k, s with
  | S k', String c r => Stated.isAlnum c = false /\ outsideFor k' r
  | _, _ => True
  end.

(** Nothing but letters, digits and blanks. *)
Fixpoint plain (u : string) : bool :=
  match u with
  | EmptyString => true
  | String c r => (Stated.isAlnum c || Ascii.eqb c " "%char) && plain r
  end.

Fixpoint allAlnum (w : string) : bool :=
  match w with
  | EmptyString => true
  | String c r => Stated.isAlnum c && allAlnum r
  end.

(** Two lists of words that begin with the same word and go on with the
    same words apart from empty ones. *)
Definition sameWords (l l' : list string) : Prop :=
  exists w ws ws', l = w :: ws /\ l' = w :: ws'
    /\ List.filter Stated.nonEmpty ws = List.filter Stated.nonEmpty ws'.

End Describe.

(** ** Concrete inputs *)

Module Sample.
Import Js LearningService OllamaService.

Definition quote : string := String "034"%char EmptyString.
Definition quoted (s : string) : string := quote +:+ s +:+ quote.

(** The text of the object with category Food and confidence -1. *)
Definition negativeText : string :=
  "{" +:+ quoted "category" +:+ ": " +:+ quoted "Food" +:+ ", "
      +:+ quoted "confidence" +:+ ": -1}".
Definition negativeObject : Json.t :=
  Json.JObj [("category", Json.JStr "Food"); ("confidence", Json.JNum (-1))].

(** The same with the confidence spelled as the word high. *)
Definition wordyText : string :=
  "{" +:+ quoted "category" +:+ ": " +:+ quoted "Food" +:+ ", "
      +:+ quoted "confidence" +:+ ": " +:+ quoted "high" +:+ "}".
Definition wordyObject : Json.t :=
  Json.JObj [("category", Json.JStr "Food"); ("confidence", Json.JStr "high")].

(** The same with confidence 0. *)
Definition zeroText : string :=
  "{" +:+ quoted "category" +:+ ": " +:+ quoted "Food" +:+ ", "
      +:+ quoted "confidence" +:+ ": 0}".
Definition zeroObject : Json.t :=
  Json.JObj [("category", Json.JStr "Food"); ("confidence", Json.JNum 0)].

(** A runtime that agrees with JavaScript on the three texts above and on
    strings of digits and words. *)
Definition runtime : JsRuntime :=
  {| JSON_parse := fun s =>
       if bool_decide (s = negativeText) then Some negativeObject
       else if bool_decide (s = wordyText) then Some wordyObject
       else if bool_decide (s = zeroText) then Some zeroObject
       else None;
     StringToNumber := fun s =>
       if forallb isDigit (list_ascii_of_string s)
       then Fin (inject_Z (CSVParserService.parseInt s)) else NaN;
     ObjectToNumber := fun _ => NaN |}.

Definition llmDown : string -> option string -> Q -> list string -> LlmOutcome :=
  fun _ _ _ _ => TransportFailure.

Definition oracleDown : RecategorizationService.Oracle := fun _ => llmDown.

Definition salary : Category.t := Category.mk "c-salary" "Salary" (Some "u") false.
Definition rent : Category.t := Category.mk "c-rent" "Rent" (Some "u") false.
Definition shopping : Category.t := Category.mk "c-shop" "Shopping" (Some "u") false.
Definition food : Category.t := Category.mk "c-food" "Groceries & Food" None true.
Definition dining : Category.t := Category.mk "c-dining" "Dining" (Some "u") false.

(** Two rows that both resemble "ACME CORP PAYMENT"; the less trusted one
    was stored first. *)
Definition similarRows : list Pattern :=
  [ CategoryPattern.mk 1 "u" "ACME CORP PAYMENT APRIL" None "c-rent" 0.85 true 10;
    CategoryPattern.mk 2 "u" "ACME CORP PAYMENT JUNE" None "c-salary" 1 true 20 ].

(** One row whose merchant is a part of the merchant asked about. *)
Definition merchantRows : list Pattern :=
  [ CategoryPattern.mk 1 "u" "PRIME VIDEO RENEWAL" (Some "Amazon") "c-shop" 1 true 10 ].

(** Scenario B: the correction of "ACME CORP PAYMENT" to Salary. *)
Definition correctedRows : list Pattern :=
  recordUserCorrection false 1 [] "u" "ACME CORP PAYMENT" None "c-salary" 1.

Definition swiggyOrder : Transaction.t :=
  Transaction.mk "t1" "u" "Swiggy order 1234" None (-250) (Some "c-food") false None.

Definition db : LearningRoutes.Db.t :=
  LearningRoutes.Db.mk [swiggyOrder] [food; dining] [].

Definition stockBuy : AssetHandler.AssetTransaction.t :=
  AssetHandler.AssetTransaction.mk "ZERODHA INFY BUY" (Some "Zerodha") 10000.
Definition stockSell4000 : AssetHandler.AssetTransaction.t :=
  AssetHandler.AssetTransaction.mk "ZERODHA INFY SELL" (Some "Zerodha") 4000.
Definition stockSell6000 : AssetHandler.AssetTransaction.t :=
  AssetHandler.AssetTransaction.mk "ZERODHA INFY SELL" (Some "Zerodha") 6000.

(** Three trades whose amounts are no binary64 numbers: 0.1, 0.2 and 0.3
    stand for the nearest ones. *)
Definition smallBuy1 : AssetHandler.AssetTransaction.t :=
  AssetHandler.AssetTransaction.mk "ZERODHA INFY BUY" (Some "Zerodha") 0x1.999999999999ap-4.
Definition smallBuy2 : AssetHandler.AssetTransaction.t :=
  AssetHandler.AssetTransaction.mk "ZERODHA INFY BUY" (Some "Zerodha") 0x1.999999999999ap-3.
Definition smallSell : AssetHandler.AssetTransaction.t :=
  AssetHandler.AssetTransaction.mk "ZERODHA INFY SELL" (Some "Zerodha") 0x1.3333333333333p-2.

Definition afterSmallTrades : list Asset.t :=
  AssetHandler.handleAssetTransaction false 3
    (AssetHandler.handleAssetTransaction false 2
       (AssetHandler.handleAssetTransaction false 1 [] (Some "Stock Purchase") smallBuy1 "u")
       (Some "Stock Purchase") smallBuy2 "u")
    (Some "Stock Sale") smallSell "u".

(** Scenario C, step by step. *)
Definition afterBuy : list Asset.t :=
  AssetHandler.handleAssetTransaction false 1 [] (Some "Stock Purchase") stockBuy "u".
Definition afterFirstSale : list Asset.t :=
  AssetHandler.handleAssetTransaction false 2 afterBuy (Some "Stock Sale") stockSell4000 "u".
Definition afterSecondSale : list Asset.t :=
  AssetHandler.handleAssetTransaction false 3 afterFirstSale (Some "Stock Sale")
    stockSell6000 "u".

End Sample.

(** * Properties *)

(** ** Comparisons and lists *)

Module Facts.
Import Js.

Lemma Qgtb_true x y : Qgtb x y = true <-> (y < x)%Q.
Proof.
  unfold Qgtb.
  destruct (Qlt_le_dec y x) as [H|H]; split; intros; auto; try discriminate.
  exfalso. eapply Qlt_not_le; eauto.
Qed.

Lemma Qgtb_false x y : Qgtb x y = false <-> (x <= y)%Q.
Proof.
  unfold Qgtb.
  destruct (Qlt_le_dec y x) as [H|H]; split; intros; auto; try discriminate.
  exfalso. eapply Qlt_not_le; eauto.
Qed.

Lemma orNull_some v s : orNull v = Some s <-> v = Some s /\ s <> EmptyString.
Proof.
  unfold orNull, truthy.
  destruct v as [t|]; [|split; [discriminate|intros [? _]; discriminate]].
  destruct (bool_decide_reflect (t = EmptyString)); simpl; split.
  - discriminate.
  - intros [[= ->] Hne]. contradiction.
  - intros [= ->]. auto.
  - intros [[= ->] _]. reflexivity.
Qed.

Lemma find_none_app {A} (f : A -> bool) (l l' : list A) :
  (forall x, In x l -> f x = false) -> List.find f (l ++ l') = List.find f l'.
Proof.
  induction l as [|a l IH]; simpl; intros H; [reflexivity|].
  rewrite (H a) by auto. apply IH. intros x Hx. apply H. auto.
Qed.

Lemma filter_none {A} (f : A -> bool) (l : list A) :
  (forall x, In x l -> f x = false) -> List.filter f l = [].
Proof.
  induction l as [|a l IH]; simpl; intros H; [reflexivity|].
  rewrite (H a) by auto. apply IH. intros x Hx. apply H. auto.
Qed.

(** The first row a filter accepts. *)
Lemma find_first {A} (f : A -> bool) (l pre : list A) (x : A) (post : list A) :
  l = pre ++ x :: post -> f x = true -> (forall y, In y pre -> f y = false) ->
  List.find f l = Some x.
Proof.
  intros -> Hx Hpre. rewrite find_none_app by exact Hpre. simpl. rewrite Hx. reflexivity.
Qed.

Lemma find_none_all {A} (f : A -> bool) (l : list A) :
  (forall y, In y l -> f y = false) -> List.find f l = None.
Proof.
  intros H. destruct (List.find f l) as [x|] eqn:E; [|reflexivity].
  apply List.find_some in E as [Hin Hx]. rewrite (H x Hin) in Hx. discriminate.
Qed.

(** *** Binary64 numbers next to zero *)

Lemma Prim2SF_zero : Prim2SF 0 = S754_zero false.
Proof. reflexivity. Qed.

(** What is above zero is a number. *)
Lemma above_zero_number d : (0 <? d)%float = true -> is_nan d = false.
Proof.
  intros H. unfold is_nan. apply negb_false_iff.
  rewrite FloatAxioms.ltb_spec, Prim2SF_zero in H. rewrite FloatAxioms.eqb_spec.
  destruct (Prim2SF d) as [sg|sg| |sg m e]; try discriminate; try reflexivity.
  - destruct sg; [discriminate|reflexivity].
  - destruct sg; [discriminate|].
    unfold SFeqb, SFcompare. rewrite Z.compare_refl.
    change (PosDef.Pos.compare_cont Eq m m) with (Pos.compare m m).
    rewrite Pos.compare_refl. reflexivity.
Qed.

Lemma above_zero_not_below d : (0 <? d)%float = true -> (d <? 0)%float = false.
Proof.
  intros H. rewrite FloatAxioms.ltb_spec, Prim2SF_zero in *.
  destruct (Prim2SF d) as [sg|sg| |sg m e]; try discriminate; destruct sg; try discriminate;
    reflexivity.
Qed.

(** Adding to zero what is not below zero gives it back unrounded. *)
Lemma zero_plus_abs b : (0 + abs b)%float = abs b.
Proof.
  assert (Prim2SF (0 + abs b) = Prim2SF (abs b)) as H.
  { rewrite FloatAxioms.add_spec, FloatAxioms.abs_spec, Prim2SF_zero.
    destruct (Prim2SF b) as [sg|sg| |sg m e]; reflexivity. }
  apply (f_equal SF2Prim) in H. rewrite !FloatAxioms.SF2Prim_Prim2SF in H. exact H.
Qed.

End Facts.

Create HintDb dhanno.
#[local] Hint Resolve Qle_refl Qlt_le_weak : dhanno.

(** Splits a conjunction and closes the first part with the given tactic. *)
Tactic Notation "first_with" tactic3(tac) := split; [tac|].

(** Turns the tests on character codes among the hypotheses into facts
    about numbers. *)
Ltac by_codes :=
  repeat match goal with
  | H : (_ && _) = true |- _ => apply andb_true_iff in H as [? ?]
  | H : (_ || _) = true |- _ => apply orb_true_iff in H as [?|?]
  | H : (_ <=? _)%nat = true |- _ => apply Nat.leb_le in H
  | H : (_ =? _)%nat = true |- _ => apply Nat.eqb_eq in H
  | H : Ascii.eqb _ _ = true |- _ => apply Ascii.eqb_eq in H; subst
  end.

(** ** The learning store *)

Section LearningFacts.
Import Js LearningService Stated Describe Facts.

Lemma similarity_nonempty (w1 w2 : list string) :
  w1 <> [] -> w2 <> [] ->
  calculateSimilarity w1 w2 =
    (inject_Z (Z.of_nat (size ((list_to_set w1 : gset string) ∩ list_to_set w2)))
     / inject_Z (Z.of_nat (size ((list_to_set w1 : gset string) ∪ list_to_set w2))))%Q.
Proof.
  intros H1 H2. unfold calculateSimilarity.
  destruct w1; [done|]. destruct w2; [done|]. reflexivity.
Qed.

Lemma similarity_identical (w1 w2 : list string) :
  w1 <> [] -> w2 <> [] ->
  (list_to_set w1 : gset string) = list_to_set w2 ->
  (calculateSimilarity w1 w2 == 1)%Q.
Proof.
  intros H1 H2 Heq. rewrite similarity_nonempty by done.
  assert (size (list_to_set w1 : gset string) <> 0%nat) as Hs.
  { apply size_non_empty_iff. destruct w1 as [|w ws]; [done|].
    apply (non_empty_inhabited w). apply elem_of_list_to_set. left. }
  rewrite <- Heq, intersection_idemp_L, union_idemp_L.
  apply Qmult_inv_r. intros Hz. apply Hs.
  unfold Qeq in Hz. simpl in Hz. lia.
Qed.

Lemma similarity_disjoint (w1 w2 : list string) :
  w1 <> [] -> w2 <> [] ->
  (list_to_set w1 : gset string) ## list_to_set w2 ->
  (calculateSimilarity w1 w2 == 0)%Q.
Proof.
  intros H1 H2 Hd. rewrite similarity_nonempty by done.
  apply disjoint_intersection_L in Hd. rewrite Hd, size_empty.
  unfold Qdiv. apply Qmult_0_l.
Qed.

Lemma firstByConfidenceDesc_none rows : firstByConfidenceDesc rows = None <-> rows = [].
Proof.
  destruct rows as [|p rest]; simpl; [tauto|].
  destruct (firstByConfidenceDesc rest) as [q|]; [destruct (Qgtb _ _)|];
    split; intros; discriminate.
Qed.

Lemma firstByConfidenceDesc_some rows r :
  firstByConfidenceDesc rows = Some r ->
  In r rows /\
  forall q, In q rows -> (CategoryPattern.confidence q <= CategoryPattern.confidence r)%Q.
Proof.
  revert r. induction rows as [|p rest IH]; intros r; simpl; [discriminate|].
  destruct (firstByConfidenceDesc rest) as [q|] eqn:E.
  - destruct (IH q eq_refl) as [Hin Hmax].
    destruct (Qgtb (CategoryPattern.confidence q) (CategoryPattern.confidence p)) eqn:G;
      intros [= <-].
    + apply Qgtb_true in G. split; [auto|].
      intros x [<-|Hx]; auto with dhanno.
    + apply Qgtb_false in G. split; [auto|].
      intros x [<-|Hx]; [auto with dhanno|].
      eapply Qle_trans; [apply Hmax; exact Hx | exact G].
  - apply firstByConfidenceDesc_none in E. subst rest. intros [= <-].
    split; [auto|]. intros x [<-|[]]. auto with dhanno.
Qed.

Lemma scanDescriptions_none categories words ps :
  scanDescriptions categories words ps = None <->
  forall q, In q ps ->
    (calculateSimilarity words (extractKeywords (CategoryPattern.description q)) <= 0.7)%Q.
Proof.
  induction ps as [|p rest IH]; simpl.
  - split; [intros _ q []|reflexivity].
  - destruct (Qgtb _ 0.7) eqn:G.
    + split; [discriminate|]. intros H. apply Qgtb_true in G.
      exfalso. eapply Qlt_not_le; [exact G|]. apply H. auto.
    + apply Qgtb_false in G. rewrite IH. split.
      * intros H q [<-|Hq]; auto.
      * intros H q Hq. apply H. auto.
Qed.

Lemma scanDescriptions_some categories words ps m :
  scanDescriptions categories words ps = Some m ->
  exists pre p post,
    ps = pre ++ p :: post /\
    (forall q, In q pre ->
       (calculateSimilarity words (extractKeywords (CategoryPattern.description q)) <= 0.7)%Q) /\
    (0.7 < calculateSimilarity words (extractKeywords (CategoryPattern.description p)))%Q /\
    m = matchOf categories p
          (CategoryPattern.confidence p *
           calculateSimilarity words (extractKeywords (CategoryPattern.description p)))
          MatchType.description.
Proof.
  induction ps as [|p rest IH]; simpl; [discriminate|].
  destruct (Qgtb _ 0.7) eqn:G.
  - intros [= <-]. apply Qgtb_true in G.
    exists [], p, rest. repeat split; auto. intros q [].
  - intros H. destruct (IH H) as (pre & p' & post & -> & Hpre & Hp & Hm).
    apply Qgtb_false in G.
    exists (p :: pre), p', post. repeat split; auto.
    intros q [<-|Hq]; auto.
Qed.

(** A description match comes from a row of the user that passed the
    threshold. *)
Lemma findSimilarPattern_by_description categories store userId description merchant m :
  findSimilarPattern categories store userId description merchant = Some m ->
  Match.matchType m = MatchType.description ->
  exists p, In p store /\ CategoryPattern.userId p = userId
    /\ (0.7 < descriptionSimilarity description p)%Q
    /\ Match.confidence m
       = (CategoryPattern.confidence p * descriptionSimilarity description p)%Q
    /\ Match.categoryId m = CategoryPattern.categoryId p.
Proof.
  unfold findSimilarPattern.
  destruct (firstByConfidenceDesc _) as [r|]; [intros [= <-]; discriminate|].
  destruct (0 <? length (extractKeywords description)).
  - destruct (scanDescriptions _ _ _) as [md|] eqn:E.
    + intros [= <-] _. apply scanDescriptions_some in E.
      destruct E as (pre & p & post & Hsplit & _ & Hp & ->).
      assert (In p (List.filter
                (fun p => bool_decide (CategoryPattern.userId p = userId)) store)) as Hin.
      { rewrite Hsplit. apply in_or_app. right. left. reflexivity. }
      apply filter_In in Hin as [Hin Hu]. apply bool_decide_eq_true in Hu.
      exists p. repeat split; auto.
    + destruct (orNull merchant); [|discriminate].
      destruct (firstByConfidenceDesc _); [intros [= <-]|]; discriminate.
  - destruct (orNull merchant); [|discriminate].
    destruct (firstByConfidenceDesc _); [intros [= <-]|]; discriminate.
Qed.

(** *** The ratio *)

Lemma size_distinct (words : list string) :
  size (list_to_set words : gset string) = distinct words.
Proof.
  unfold distinct. rewrite <- (size_list_to_set (C:=gset string) (remove_dups words)).
  - f_equal. apply set_eq. intros x.
    rewrite !elem_of_list_to_set, elem_of_remove_dups. reflexivity.
  - apply NoDup_remove_dups.
Qed.

Lemma shared_set (w1 w2 : list string) :
  (list_to_set w1 : gset string) ∩ list_to_set w2 = list_to_set (list_intersection w1 w2).
Proof.
  apply set_eq. intros x.
  rewrite elem_of_intersection, !elem_of_list_to_set, list_elem_of_intersection. reflexivity.
Qed.

Lemma joined_set (w1 w2 : list string) :
  (list_to_set w1 : gset string) ∪ list_to_set w2 = list_to_set (w1 ++ w2).
Proof. rewrite list_to_set_app_L. reflexivity. Qed.

Lemma similarity_counts (w1 w2 : list string) :
  w1 <> [] -> w2 <> [] ->
  calculateSimilarity w1 w2 = jaccard (list_to_set w1) (list_to_set w2)
  /\ calculateSimilarity w1 w2
     = (inject_Z (Z.of_nat (distinct (list_intersection w1 w2)))
        / inject_Z (Z.of_nat (distinct (w1 ++ w2))))%Q.
Proof.
  intros H1 H2. rewrite similarity_nonempty by assumption. split; [reflexivity|].
  rewrite shared_set, joined_set, !size_distinct. reflexivity.
Qed.

Lemma similarity_empty (w1 w2 : list string) :
  w1 = [] \/ w2 = [] -> calculateSimilarity w1 w2 = 0%Q.
Proof.
  intros [-> | ->]; unfold calculateSimilarity; [reflexivity|].
  destruct w1; reflexivity.
Qed.

(** *** The keywords of a description *)

Lemma not_alnum_code c : (code c < 48 \/ 122 < code c)%nat -> isAlnum c = false.
Proof.
  intros H. unfold isAlnum, isLower, isDigit.
  apply orb_false_iff. split; apply andb_false_iff.
  - destruct H; [left|right]; apply Nat.leb_gt; lia.
  - destruct H; [left|right]; apply Nat.leb_gt; lia.
Qed.

Lemma spaceWidth_alnum c r : isAlnum c = true -> spaceWidth (String c r) = 0%nat.
Proof.
  unfold isAlnum, isLower, isDigit, spaceWidth, isSpace. intros H. by_codes.
  all: repeat match goal with
  | |- context [(?a <=? ?b)%nat] => destruct (Nat.leb_spec a b); try lia
  | |- context [(?a =? ?b)%nat] => destruct (Nat.eqb_spec a b); try lia
  end; reflexivity.
Qed.

Lemma spaceWidth_blank r : spaceWidth (String " " r) = 1%nat.
Proof. reflexivity. Qed.

Lemma spaceWidth_outside c r j :
  spaceWidth (String c r) = S j -> isAlnum c = false /\ outsideFor j r.
Proof.
  unfold spaceWidth. destruct (isSpace c) eqn:Hs.
  - intros [= <-]. split; [|exact I]. apply not_alnum_code.
    unfold isSpace in Hs. by_codes; lia.
  - destruct (Nat.eqb_spec (code c) 194) as [E|E].
    + destruct r as [|c2 r2]; [discriminate|].
      destruct (Nat.eqb_spec (code c2) 160) as [E2|E2]; [|discriminate].
      intros [= <-]. split; [apply not_alnum_code; lia|].
      split; [apply not_alnum_code; lia|exact I].
    + destruct (_ || _) eqn:L; [|discriminate].
      destruct r as [|c2 [|c3 r3]]; try discriminate.
      destruct (isSpaceTail _ _ _) eqn:T; [|discriminate].
      intros [= <-]. unfold isSpaceTail in T.
      split; [apply not_alnum_code; by_codes; lia|].
      split; [apply not_alnum_code; by_codes; lia|].
      split; [apply not_alnum_code; by_codes; lia|exact I].
Qed.

Lemma spaceWidth_replaced c r j :
  spaceWidth (String c r) = S j ->
  spaceWidth (String c (replaceNonAlnumFrom j r)) = S j.
Proof.
  unfold spaceWidth. destruct (isSpace c); [auto|].
  destruct (code c =? 194)%nat.
  - destruct r as [|c2 r2]; [discriminate|].
    destruct (code c2 =? 160)%nat eqn:E2; [|discriminate].
    intros [= <-]. cbn [replaceNonAlnumFrom]. rewrite E2. reflexivity.
  - destruct (_ || _); [|discriminate].
    destruct r as [|c2 [|c3 r3]]; try discriminate.
    destruct (isSpaceTail _ _ _) eqn:T; [|discriminate].
    intros [= <-]. cbn [replaceNonAlnumFrom]. rewrite T. reflexivity.
Qed.

Lemma collapse_replace_squeeze s :
  forall k b, outsideFor k s -> (k <> 0%nat -> b = true) ->
    collapseSpacesFrom k b (replaceNonAlnumFrom k s) = squeeze b s.
Proof.
  induction s as [|c r IH]; intros k b Hout Hb; [destruct k; reflexivity|].
  destruct k as [|k].
  - cbn [replaceNonAlnumFrom]. destruct (spaceWidth (String c r)) as [|j] eqn:W.
    + change (isLower c || isDigit c) with (isAlnum c).
      cbn [squeeze]. destruct (isAlnum c) eqn:A.
      * cbn [collapseSpacesFrom]. rewrite spaceWidth_alnum by exact A.
        rewrite IH; [reflexivity|exact I|congruence].
      * cbn [collapseSpacesFrom]. rewrite spaceWidth_blank.
        rewrite IH; [|exact I|reflexivity]. destruct b; reflexivity.
    + destruct (spaceWidth_outside c r j W) as [A Ho].
      cbn [collapseSpacesFrom squeeze]. rewrite (spaceWidth_replaced c r j W), A.
      rewrite IH; [|exact Ho|reflexivity]. destruct b; reflexivity.
  - destruct Hout as [A Ho]. rewrite (Hb ltac:(discriminate)).
    cbn [replaceNonAlnumFrom collapseSpacesFrom squeeze]. rewrite A.
    apply IH; [exact Ho|reflexivity].
Qed.

Lemma squeeze_plain b s : plain (squeeze b s) = true.
Proof.
  revert b. induction s as [|c r IH]; intros b; [reflexivity|].
  cbn [squeeze]. destruct (isAlnum c) eqn:A.
  - cbn [plain]. rewrite A, IH. reflexivity.
  - destruct b; [apply IH|]. cbn [plain]. rewrite IH. rewrite orb_true_r. reflexivity.
Qed.

Lemma sameWords_filter l l' :
  sameWords l l' -> List.filter nonEmpty l = List.filter nonEmpty l'.
Proof. intros (w & ws & ws' & -> & -> & H). simpl. rewrite H. reflexivity. Qed.

Lemma sameWords_cons c l l' :
  sameWords l l' ->
  sameWords (match l with w :: ws => String c w :: ws | [] => [String c EmptyString] end)
            (match l' with w :: ws => String c w :: ws | [] => [String c EmptyString] end).
Proof. intros (w & ws & ws' & -> & -> & H). exists (String c w), ws, ws'. auto. Qed.

Lemma alnum_not_blank c : isAlnum c = true -> Ascii.eqb c " "%char = false.
Proof.
  intros A. destruct (Ascii.eqb_spec c " "%char) as [->|]; [discriminate A|reflexivity].
Qed.

Lemma split_squeeze s :
  sameWords (split " "%char (squeeze false s)) (cutAt (fun c => negb (isAlnum c)) s)
  /\ List.filter nonEmpty (split " "%char (squeeze true s))
     = List.filter nonEmpty (cutAt (fun c => negb (isAlnum c)) s).
Proof.
  induction s as [|c r [IHf IHt]].
  - split; [exists EmptyString, [], []; auto|reflexivity].
  - cbn [squeeze cutAt]. destruct (isAlnum c) eqn:A; cbn [negb].
    + assert (sameWords (split " "%char (String c (squeeze false r)))
                (match cutAt (fun c => negb (isAlnum c)) r with
                 | w :: ws => String c w :: ws
                 | [] => [String c EmptyString]
                 end)) as H.
      { cbn [split]. rewrite (alnum_not_blank c A). apply sameWords_cons. exact IHf. }
      split; [exact H|apply sameWords_filter; exact H].
    + split.
      * cbn [split]. cbn [Ascii.eqb Bool.eqb]. exists EmptyString. eexists _, _.
        split; [reflexivity|]. split; [reflexivity|]. exact IHt.
      * rewrite IHt. reflexivity.
Qed.

Lemma plain_head c r : plain (String c r) = true ->
  (isAlnum c = true \/ c = " "%char) /\ plain r = true.
Proof.
  cbn [plain]. intros H. apply andb_true_iff in H as [H1 H2]. split; [|exact H2].
  apply orb_true_iff in H1 as [H1|H1]; [left; exact H1|right].
  apply Ascii.eqb_eq in H1. exact H1.
Qed.

Lemma trimStart_plain u :
  plain u = true ->
  plain (trimStart u) = true
  /\ List.filter nonEmpty (split " "%char (trimStart u))
     = List.filter nonEmpty (split " "%char u).
Proof.
  unfold trimStart. induction u as [|c r IH]; intros P; [split; reflexivity|].
  destruct (plain_head c r P) as [[A| ->] Pr].
  - cbn [trimStartFrom]. rewrite spaceWidth_alnum by exact A. split; [exact P|reflexivity].
  - cbn [trimStartFrom]. rewrite spaceWidth_blank.
    destruct (IH Pr) as [H1 H2]. split; [exact H1|]. rewrite H2. reflexivity.
Qed.

Lemma onlySpaces_plain u :
  plain u = true -> onlySpacesFrom 0 u = true ->
  List.filter nonEmpty (split " "%char u) = [].
Proof.
  induction u as [|c r IH]; intros P O; [reflexivity|].
  destruct (plain_head c r P) as [[A| ->] Pr].
  - cbn [onlySpacesFrom] in O. rewrite spaceWidth_alnum in O by exact A. discriminate.
  - cbn [onlySpacesFrom] in O. rewrite spaceWidth_blank in O.
    cbn [split Ascii.eqb Bool.eqb]. simpl. apply IH; assumption.
Qed.

Lemma trimEnd_plain u :
  plain u = true -> sameWords (split " "%char (trimEnd u)) (split " "%char u).
Proof.
  induction u as [|c r IH]; intros P; [exists EmptyString, [], []; auto|].
  destruct (plain_head c r P) as [Hc Pr].
  cbn [trimEnd]. destruct (onlySpacesFrom 0 (String c r)) eqn:O.
  - destruct Hc as [A| ->].
    + cbn [onlySpacesFrom] in O. rewrite spaceWidth_alnum in O by exact A. discriminate.
    + cbn [onlySpacesFrom] in O. rewrite spaceWidth_blank in O.
      exists EmptyString, [], (split " "%char r).
      split; [reflexivity|]. split; [reflexivity|].
      symmetry. apply onlySpaces_plain; assumption.
  - destruct Hc as [A| ->].
    + cbn [split]. rewrite (alnum_not_blank c A). apply sameWords_cons. apply IH. exact Pr.
    + cbn [split Ascii.eqb Bool.eqb]. exists EmptyString. eexists _, _.
      split; [reflexivity|]. split; [reflexivity|].
      apply sameWords_filter. apply IH. exact Pr.
Qed.

Lemma cutAt_allAlnum s :
  List.Forall (fun w => allAlnum w = true) (cutAt (fun c => negb (isAlnum c)) s).
Proof.
  induction s as [|c r IH]; [repeat constructor|].
  cbn [cutAt]. destruct (isAlnum c) eqn:A; cbn [negb].
  - destruct (cutAt _ r) as [|w ws]; [repeat constructor; cbn; rewrite A; reflexivity|].
    inversion IH; subst. constructor; [|assumption]. cbn [allAlnum]. rewrite A. assumption.
  - constructor; [reflexivity|exact IH].
Qed.

Lemma alnum_low c : isAlnum c = true -> (code c <? 128)%nat = true.
Proof.
  unfold isAlnum, isLower, isDigit. intros H. apply Nat.ltb_lt. by_codes; lia.
Qed.

Lemma utf16Length_allAlnum w : allAlnum w = true -> utf16Length w = String.length w.
Proof.
  induction w as [|c r IH]; [reflexivity|].
  cbn [allAlnum utf16Length String.length]. intros H.
  apply andb_true_iff in H as [A R]. rewrite (alnum_low c A), IH by exact R. reflexivity.
Qed.

Lemma filter_through {A} (f g : A -> bool) (l : list A) :
  (forall x, f x = true -> g x = true) ->
  List.filter f l = List.filter f (List.filter g l).
Proof.
  intros H. induction l as [|x l IH]; [reflexivity|]. simpl.
  destruct (g x) eqn:G; simpl.
  - destruct (f x); [f_equal|]; exact IH.
  - destruct (f x) eqn:F; [rewrite (H x F) in G; discriminate|exact IH].
Qed.

Lemma filter_agree {A} (f g : A -> bool) (P : A -> Prop) (l : list A) :
  List.Forall P l -> (forall x, P x -> f x = g x) -> List.filter f l = List.filter g l.
Proof.
  intros HF H. induction HF as [|x l Hx Hl IH]; [reflexivity|].
  simpl. rewrite (H x Hx), IH. reflexivity.
Qed.

Lemma Forall_filter_keep {A} (P : A -> Prop) (f : A -> bool) (l : list A) :
  List.Forall P l -> List.Forall P (List.filter f l).
Proof.
  induction 1 as [|x l Hx Hl IH]; simpl; [constructor|].
  destruct (f x); [constructor; assumption|exact IH].
Qed.

Lemma extractKeywords_keywords text : extractKeywords text = keywords text.
Proof.
  unfold extractKeywords, keywords, collapseSpaces, replaceNonAlnum. cbv zeta.
  rewrite collapse_replace_squeeze by (exact I || congruence).
  f_equal.
  set (s := toLowerCase text).
  pose proof (squeeze_plain false s) as P.
  destruct (trimStart_plain _ P) as [P' Hstart].
  rewrite (filter_through _ nonEmpty).
  2:{ intros w Hw. apply andb_true_iff in Hw as [Hl _]. apply Nat.ltb_lt in Hl.
      unfold nonEmpty. destruct w; [simpl in Hl; lia|reflexivity]. }
  assert (List.filter nonEmpty (split " "%char (trim (squeeze false s))) = tokens s) as ->.
  { unfold trim. rewrite (sameWords_filter _ _ (trimEnd_plain _ P')), Hstart.
    apply sameWords_filter. apply (proj1 (split_squeeze s)). }
  apply (filter_agree _ _ (fun w => allAlnum w = true)).
  - apply Forall_filter_keep. apply cutAt_allAlnum.
  - intros w Hw. rewrite (utf16Length_allAlnum w Hw). reflexivity.
Qed.

(** C9: the similarity of two word lists is the Jaccard ratio of their
    sets: exactly 1 for two non-empty lists with the same set of words,
    exactly 0 for two non-empty lists with no word in common; and whenever
    [findSimilarPattern] answers with a description match, the row it
    answers with has a similarity strictly above 0.7 and the returned
    confidence is the row's confidence times that similarity.  For two
    non-empty lists the similarity is the size of the intersection of the
    two sets over the size of their union, that is, the number of different
    words the lists share over the number of different words they hold
    together; it is 0 when a list is empty.  The lists compared are the
    keywords of the two descriptions: the runs of letters and digits of the
    lower-cased text that are longer than two characters and no stop
    words, the first ten of them. *)
Theorem C9_jaccard_similarity :
  (forall w1 w2 : list string, w1 <> [] -> w2 <> [] ->
     (list_to_set w1 : gset string) = list_to_set w2 ->
     (calculateSimilarity w1 w2 == 1)%Q)
  /\ (forall w1 w2 : list string, w1 <> [] -> w2 <> [] ->
        (list_to_set w1 : gset string) ## list_to_set w2 ->
        (calculateSimilarity w1 w2 == 0)%Q)
  /\ (forall categories store userId description merchant m,
        findSimilarPattern categories store userId description merchant = Some m ->
        Match.matchType m = MatchType.description ->
        exists p, In p store /\ CategoryPattern.userId p = userId
          /\ (0.7 < descriptionSimilarity description p)%Q
          /\ ~ (descriptionSimilarity description p <= 0.7)%Q
          /\ Match.confidence m
             = (CategoryPattern.confidence p * descriptionSimilarity description p)%Q)
  /\ (forall w1 w2 : list string, w1 <> [] -> w2 <> [] ->
        calculateSimilarity w1 w2 = jaccard (list_to_set w1) (list_to_set w2)
        /\ calculateSimilarity w1 w2
           = (inject_Z (Z.of_nat (distinct (list_intersection w1 w2)))
              / inject_Z (Z.of_nat (distinct (w1 ++ w2))))%Q)
  /\ (forall w1 w2 : list string, w1 = [] \/ w2 = [] -> calculateSimilarity w1 w2 = 0%Q)
  /\ (forall text, extractKeywords text = keywords text)
  /\ (forall description p,
        descriptionSimilarity description p
        = calculateSimilarity (keywords description)
            (keywords (CategoryPattern.description p))).
Proof.
  first_with ltac:(exact similarity_identical).
  first_with ltac:(exact similarity_disjoint).
  split.
  { intros categories store userId description merchant m Hfind Hty.
    destruct (findSimilarPattern_by_description _ _ _ _ _ _ Hfind Hty)
      as (p & Hin & Hu & Hsim & Hconf & _).
    exists p. repeat split; auto. apply Qlt_not_le. exact Hsim. }
  first_with ltac:(exact similarity_counts).
  first_with ltac:(exact similarity_empty).
  first_with ltac:(exact extractKeywords_keywords).
  intros description p. unfold descriptionSimilarity.
  rewrite !extractKeywords_keywords. reflexivity.
Qed.

Lemma C9_witness :
  (calculateSimilarity ["swiggy"; "order"] ["order"; "swiggy"; "order"] == 1)%Q
  /\ (calculateSimilarity ["swiggy"; "order"] ["acme"; "corp"] == 0)%Q.
Proof.
  destruct C9_jaccard_similarity as (Hsame & Hdisjoint & _). split.
  - apply Hsame; [discriminate | discriminate | vm_compute; reflexivity].
  - apply Hdisjoint; [discriminate | discriminate |].
    apply (bool_decide_unpack _). vm_compute. exact I.
Defined.

End LearningFacts.

Section PatternStoreFacts.
Import Js LearningService Describe Facts.

Lemma id_below_fresh (store : list Pattern) p :
  In p store -> (CategoryPattern.id p < freshId store)%nat.
Proof.
  intros Hin. unfold freshId.
  assert (Forall (fun k => (k <= list_max (List.map CategoryPattern.id store))%nat)
            (List.map CategoryPattern.id store)) as HF.
  { apply list_max_le. lia. }
  rewrite Forall_forall in HF.
  assert (In (CategoryPattern.id p) (List.map CategoryPattern.id store)) as Hi.
  { apply in_map. exact Hin. }
  apply list_elem_of_In in Hi. specialize (HF _ Hi). lia.
Qed.

Lemma updateCorrection_other rowId categoryId confidence now p :
  CategoryPattern.id p <> rowId ->
  updateCorrection rowId categoryId confidence now p = p.
Proof.
  intros H. unfold updateCorrection.
  destruct (Nat.eqb_spec (CategoryPattern.id p) rowId); [contradiction|reflexivity].
Qed.

Lemma map_updateCorrection_fresh (store : list Pattern) categoryId confidence now :
  List.map (updateCorrection (freshId store) categoryId confidence now) store = store.
Proof.
  assert (forall l, (forall p, In p l -> In p store) ->
            List.map (updateCorrection (freshId store) categoryId confidence now) l = l) as H.
  { induction l as [|a l IH]; simpl; intros Hsub; [reflexivity|].
    rewrite updateCorrection_other.
    - f_equal. apply IH. intros p Hp. apply Hsub. auto.
    - pose proof (id_below_fresh store a (Hsub a (or_introl eq_refl))). lia. }
  apply H. auto.
Qed.


Lemma keyWhere_new userId description merchant rowId categoryId confidence flag now :
  orNull merchant = merchant ->
  keyWhere userId description merchant
    (CategoryPattern.mk rowId userId description merchant categoryId confidence flag now)
  = true.
Proof.
  intros H. unfold keyWhere. simpl. rewrite H.
  rewrite !bool_decide_eq_true_2 by reflexivity. reflexivity.
Qed.

(** A correction for a key that has no row appends one row, flagged as a
    user correction, with the confidence given. *)
Lemma recordUserCorrection_new now store userId description merchant categoryId confidence :
  List.find (keyWhere userId description merchant) store = None ->
  recordUserCorrection false now store userId description merchant categoryId confidence
  = store ++ [CategoryPattern.mk (freshId store) userId description merchant
                categoryId confidence true now].
Proof. intros H. unfold recordUserCorrection. rewrite H. reflexivity. Qed.

(** A correction for a key that has a row rewrites that row in place: the
    category is overwritten, the confidence does not go down, the flag is
    set, and no row is added. *)
Lemma recordUserCorrection_existing now store userId description merchant categoryId
    confidence existing :
  List.find (keyWhere userId description merchant) store = Some existing ->
  let store' := recordUserCorrection false now store userId description merchant
                  categoryId confidence in
  let updated :=
    updateCorrection (CategoryPattern.id existing) categoryId confidence now existing in
  length store' = length store /\
  In updated store' /\
  CategoryPattern.categoryId updated = categoryId /\
  CategoryPattern.isUserCorrection updated = true /\
  (CategoryPattern.confidence existing <= CategoryPattern.confidence updated)%Q /\
  (CategoryPattern.confidence updated
   == Qmax confidence (CategoryPattern.confidence existing))%Q.
Proof.
  intros H store' updated.
  assert (store' = List.map (updateCorrection (CategoryPattern.id existing)
                               categoryId confidence now) store) as Hs.
  { unfold store', recordUserCorrection. rewrite H. reflexivity. }
  assert (updated = CategoryPattern.mk (CategoryPattern.id existing)
            (CategoryPattern.userId existing) (CategoryPattern.description existing)
            (CategoryPattern.merchant existing) categoryId
            (Qmax confidence (CategoryPattern.confidence existing)) true now) as Hu.
  { unfold updated, updateCorrection. rewrite Nat.eqb_refl. reflexivity. }
  assert (In existing store) as Hin.
  { apply List.find_some in H. tauto. }
  first_with ltac:(rewrite Hs; apply length_map).
  first_with ltac:(rewrite Hs; apply in_map; exact Hin).
  rewrite Hu. simpl.
  first_with reflexivity. first_with reflexivity.
  split; [apply Q.le_max_r | apply Qeq_refl].
Qed.

(** Two corrections in a row for a key that had no row, the merchant being
    null or a non-empty string: one row for the key, flagged, holding the
    second category and the greater of the two confidences. *)
Lemma recordUserCorrection_twice now1 now2 store userId description merchant
    category1 category2 c1 c2 :
  orNull merchant = merchant ->
  List.find (keyWhere userId description merchant) store = None ->
  List.filter (keyWhere userId description merchant)
    (recordUserCorrection false now2
       (recordUserCorrection false now1 store userId description merchant category1 c1)
       userId description merchant category2 c2)
  = [CategoryPattern.mk (freshId store) userId description merchant category2
       (Qmax c2 c1) true now2].
Proof.
  intros Hm Hnone.
  rewrite (recordUserCorrection_new now1) by exact Hnone.
  pose proof (List.find_none _ _ Hnone) as Hall.
  unfold recordUserCorrection.
  rewrite find_none_app by exact Hall. simpl.
  rewrite keyWhere_new by exact Hm.
  rewrite map_app. cbn [CategoryPattern.id].
  rewrite map_updateCorrection_fresh. simpl.
  unfold updateCorrection. simpl. rewrite Nat.eqb_refl.
  rewrite List.filter_app, filter_none by exact Hall. simpl.
  rewrite keyWhere_new by exact Hm. reflexivity.
Qed.

Lemma recordUserCorrection_twice_witness :
  List.filter (keyWhere "u" "ACME CORP PAYMENT" (Some "Acme"))
    (recordUserCorrection false 2
       (recordUserCorrection false 1 [] "u" "ACME CORP PAYMENT" (Some "Acme") "c-rent" 0.6)
       "u" "ACME CORP PAYMENT" (Some "Acme") "c-salary" 1)
  = [CategoryPattern.mk 1 "u" "ACME CORP PAYMENT" (Some "Acme") "c-salary"
       (Qmax 1 0.6) true 2].
Proof.
  exact (recordUserCorrection_twice 1 2 [] "u" "ACME CORP PAYMENT" (Some "Acme")
           "c-rent" "c-salary" 0.6 1 eq_refl eq_refl).
Defined.

(** C2, where the code departs from it: with the empty string as merchant,
    the lookup of [recordUserCorrection] asks for rows without merchant
    while the row it creates keeps the empty string, so the second
    correction does not find the first. Two rows are stored, the first keeps
    its confidence 0.6 and its category, and the exact-match step of
    [findSimilarPattern] finds neither. *)
Theorem C2_empty_merchant_duplicates :
  let once :=
    recordUserCorrection false 1 [] "u" "ACME CORP PAYMENT" (Some "") "c-rent" 0.6 in
  let twice :=
    recordUserCorrection false 2 once "u" "ACME CORP PAYMENT" (Some "") "c-salary" 1 in
  List.map keyView twice
  = [ ("ACME CORP PAYMENT", Some "", "c-rent", 0.6%Q);
      ("ACME CORP PAYMENT", Some "", "c-salary", 1%Q) ]
  /\ List.filter (keyWhere "u" "ACME CORP PAYMENT" (Some "")) twice = []
  /\ option_map Match.matchType
       (findSimilarPattern [Sample.salary; Sample.rent] twice "u" "ACME CORP PAYMENT" (Some ""))
     = Some MatchType.description
  /\ option_map Match.categoryName
       (findSimilarPattern [Sample.salary; Sample.rent] twice "u" "ACME CORP PAYMENT" (Some ""))
     = Some "Rent".
Proof. vm_compute. repeat split. Qed.

(** C3, as the code has it: [findSimilarPattern] answers, in this order,
    (a) with the exact-key row of greatest confidence, at its stored
    confidence; (b) else, when the description has keywords, with the first
    row of the user, in the order the store yields them, whose similarity
    exceeds 0.7, at confidence times similarity; (c) else, when a non-empty
    merchant is given, with the row of greatest confidence among the rows of
    the user whose stored merchant contains the given one (upper and lower
    case alike), at confidence times 0.8; (d) else with nothing. *)
Theorem C3_findSimilarPattern_steps categories store userId description merchant :
  let exacts := List.filter (keyWhere userId description merchant) store in
  let mine :=
    List.filter (fun p => bool_decide (CategoryPattern.userId p = userId)) store in
  let sim := descriptionSimilarity description in
  let noDescription :=
    extractKeywords description = [] \/ forall q, In q mine -> (sim q <= 0.7)%Q in
  match findSimilarPattern categories store userId description merchant with
  | Some m =>
      (exists r, In r exacts /\
         (forall q, In q exacts ->
            (CategoryPattern.confidence q <= CategoryPattern.confidence r)%Q) /\
         m = matchOf categories r (CategoryPattern.confidence r) MatchType.exact)
      \/ (exacts = [] /\ extractKeywords description <> [] /\
          exists pre p post, mine = pre ++ p :: post /\
            (forall q, In q pre -> (sim q <= 0.7)%Q) /\ (0.7 < sim p)%Q /\
            m = matchOf categories p (CategoryPattern.confidence p * sim p)
                  MatchType.description)
      \/ (exacts = [] /\ noDescription /\
          exists merch r, orNull merchant = Some merch /\
            In r (List.filter (merchantWhere userId merch) store) /\
            (forall q, In q (List.filter (merchantWhere userId merch) store) ->
               (CategoryPattern.confidence q <= CategoryPattern.confidence r)%Q) /\
            m = matchOf categories r (CategoryPattern.confidence r * 0.8)
                  MatchType.merchant)
  | None =>
      exacts = [] /\ noDescription /\
      (orNull merchant = None \/
       exists merch, orNull merchant = Some merch /\
         List.filter (merchantWhere userId merch) store = [])
  end.
Proof.
  intros exacts mine sim noDescription. unfold findSimilarPattern.
  fold exacts. fold mine.
  destruct (firstByConfidenceDesc exacts) as [r|] eqn:E1.
  { left. apply firstByConfidenceDesc_some in E1 as [Hin Hmax]. exists r. auto. }
  apply firstByConfidenceDesc_none in E1.
  assert (forall byDescription : option Match.t,
            noDescription ->
            match (match byDescription with
                   | Some m => Some m
                   | None =>
                       match orNull merchant with
                       | Some merch =>
                           match firstByConfidenceDesc
                                   (List.filter (merchantWhere userId merch) store) with
                           | Some merchantMatch =>
                               Some (Match.mk (CategoryPattern.categoryId merchantMatch)
                                       (categoryNameOf categories
                                          (CategoryPattern.categoryId merchantMatch))
                                       (CategoryPattern.confidence merchantMatch * 0.8)
                                       MatchType.merchant)
                           | None => None
                           end
                       | None => None
                       end
                   end) with
            | Some m =>
                byDescription = Some m
                \/ exists merch r, orNull merchant = Some merch /\
                     In r (List.filter (merchantWhere userId merch) store) /\
                     (forall q, In q (List.filter (merchantWhere userId merch) store) ->
                        (CategoryPattern.confidence q <= CategoryPattern.confidence r)%Q) /\
                     m = matchOf categories r (CategoryPattern.confidence r * 0.8)
                           MatchType.merchant
            | None =>
                byDescription = None /\
                (orNull merchant = None \/
                 exists merch, orNull merchant = Some merch /\
                   List.filter (merchantWhere userId merch) store = [])
            end) as Hmerchant.
  { intros [m|] _; [left; reflexivity|].
    destruct (orNull merchant) as [merch|] eqn:E3; [|auto].
    destruct (firstByConfidenceDesc _) as [r|] eqn:E4.
    - right. apply firstByConfidenceDesc_some in E4 as [Hin Hmax]. exists merch, r. auto.
    - apply firstByConfidenceDesc_none in E4. split; [reflexivity|].
      right. exists merch. auto. }
  destruct (0 <? length (extractKeywords description)) eqn:Hw.
  - assert (extractKeywords description <> []) as Hne.
    { intros Heq. rewrite Heq in Hw. discriminate. }
    destruct (scanDescriptions categories (extractKeywords description) mine)
      as [m|] eqn:E2.
    + right; left. apply scanDescriptions_some in E2.
      destruct E2 as (pre & p & post & Hm & Hpre & Hp & ->).
      repeat split; auto. exists pre, p, post. auto.
    + assert (noDescription) as Hnd.
      { right. exact (proj1 (scanDescriptions_none _ _ _) E2). }
      specialize (Hmerchant None Hnd). cbv beta iota in Hmerchant.
      destruct (orNull merchant) as [merch|].
      * destruct (firstByConfidenceDesc _) as [r|].
        -- destruct Hmerchant as [Hd|Hm]; [discriminate|]. right; right. auto.
        -- destruct Hmerchant as [_ Hm]. auto.
      * destruct Hmerchant as [_ Hm]. auto.
  - assert (noDescription) as Hnd.
    { left. destruct (extractKeywords description); [reflexivity|discriminate]. }
    specialize (Hmerchant None Hnd). cbv beta iota in Hmerchant.
    destruct (orNull merchant) as [merch|].
    + destruct (firstByConfidenceDesc _) as [r|].
      * destruct Hmerchant as [Hd|Hm]; [discriminate|]. right; right. auto.
      * destruct Hmerchant as [_ Hm]. auto.
    + destruct Hmerchant as [_ Hm]. auto.
Qed.

(** C3 as stated fails twice. The scan of step (b) follows the order of the
    store, not the order by confidence and recency: of two similar rows the
    one stored first is returned although the other has the higher
    confidence. And step (c) looks for the given merchant inside the stored
    one only: a stored "Amazon" is not matched by "Amazon Pay India". *)
Lemma C3_counterexample :
  option_map Match.categoryName
    (findSimilarPattern [Sample.salary; Sample.rent] Sample.similarRows
       "u" "ACME CORP PAYMENT" None)
  = Some "Rent"
  /\ option_map Match.categoryName
       (Stated.findBestMatch [Sample.salary; Sample.rent] Sample.similarRows
          "u" "ACME CORP PAYMENT" None)
     = Some "Salary"
  /\ findSimilarPattern [Sample.shopping] Sample.merchantRows
       "u" "ORDER 4471" (Some "Amazon Pay India")
     = None
  /\ option_map Match.matchType
       (Stated.findBestMatch [Sample.shopping] Sample.merchantRows
          "u" "ORDER 4471" (Some "Amazon Pay India"))
     = Some MatchType.merchant.
Proof. vm_compute. repeat split. Qed.

End PatternStoreFacts.

(** ** The classifier *)

Section ClassifierFacts.
Import Js LearningService OllamaService Describe Facts.

Variable rt : JsRuntime.

Lemma learnedStep_some categories store description merchant userId s :
  learnedStep categories store description merchant userId = Some s <->
  exists m, trustedMatch categories store description merchant userId m /\
            s = learnedSuggestion m.
Proof.
  unfold learnedStep, trustedMatch. split.
  - destruct (orNull userId) as [uid|] eqn:E; [|discriminate].
    apply orNull_some in E as [-> Hne].
    destruct (findSimilarPattern _ _ _ _ _) as [m|] eqn:F; [|discriminate].
    destruct (Qgtb _ _) eqn:G; [|discriminate].
    intros [= <-]. apply Qgtb_true in G.
    exists m. split; [|reflexivity]. exists uid. auto.
  - intros (m & (uid & -> & Hne & F & G) & ->).
    assert (orNull (Some uid) = Some uid) as -> by (apply orNull_some; auto).
    rewrite F. apply Qgtb_true in G. rewrite G. reflexivity.
Qed.

Lemma quickScan_none desc merch available rules :
  (forall q, In q rules -> ruleApplies desc merch available q = false) ->
  quickScan desc merch available rules = None.
Proof.
  induction rules as [|r rest IH]; simpl; intros H; [reflexivity|].
  pose proof (H r (or_introl eq_refl)) as Hr. unfold ruleApplies in Hr.
  destruct (hasMatch desc merch r); simpl in Hr.
  - destruct (resolveCategory available r) as [c|].
    + rewrite bool_decide_eq_true_2 in Hr by eauto. discriminate.
    + apply IH. intros q Hq. apply H. auto.
  - apply IH. intros q Hq. apply H. auto.
Qed.

Lemma quickScan_first desc merch available pre rule post cat :
  (forall q, In q pre -> ruleApplies desc merch available q = false) ->
  hasMatch desc merch rule = true ->
  resolveCategory available rule = Some cat ->
  quickScan desc merch available (pre ++ rule :: post)
  = Some (quickSuggestion desc merch rule cat).
Proof.
  intros Hpre Hhit Hres. induction pre as [|r rest IH]; simpl.
  - rewrite Hhit, Hres. reflexivity.
  - pose proof (Hpre r (or_introl eq_refl)) as Hr. unfold ruleApplies in Hr.
    assert (forall q, In q rest -> ruleApplies desc merch available q = false) as Hrest.
    { intros q Hq. apply Hpre. right. exact Hq. }
    destruct (hasMatch desc merch r); simpl in Hr.
    + destruct (resolveCategory available r) as [c|].
      * rewrite bool_decide_eq_true_2 in Hr by eauto. discriminate.
      * apply IH. exact Hrest.
    + apply IH. exact Hrest.
Qed.

(** C1: [categorizeTransaction] resolves in three steps. When a user id is
    supplied and the store's answer for it has a confidence above 0.8, the
    result carries that answer's category and confidence. Otherwise the
    first rule of the keyword table, in table order, that fires on the
    lowercased description or merchant and resolves against the available
    names gives the result. Otherwise the result is that of the model call.
    Without a user id the store is not consulted: the result is the same
    for every store. A result is returned in each case (the function is
    total), also for an empty list of names. *)
Theorem C1_resolution_order categories store llm description merchant amount
    available userId :
  let result := categorizeTransaction rt categories store llm description merchant
                  amount available userId in
  let desc := toLowerCase description in
  let merch := orElse (option_map toLowerCase merchant) "" in
  (forall m, trustedMatch categories store description merchant userId m ->
     result = learnedSuggestion m
     /\ CategorySuggestion.category result = Match.categoryName m
     /\ CategorySuggestion.confidence result = Fin (Match.confidence m))
  /\ ((forall m, ~ trustedMatch categories store description merchant userId m) ->
      (forall pre rule post cat,
         patterns = pre ++ rule :: post ->
         (forall q, In q pre -> ruleApplies desc merch available q = false) ->
         hasMatch desc merch rule = true ->
         resolveCategory available rule = Some cat ->
         result = quickSuggestion desc merch rule cat)
      /\ ((forall q, In q patterns -> ruleApplies desc merch available q = false) ->
          result = llmFallback rt (llm description merchant amount available) available))
  /\ (userId = None ->
      (forall m, ~ trustedMatch categories store description merchant userId m)
      /\ forall store', categorizeTransaction rt categories store' llm description
                          merchant amount available userId = result).
Proof.
  intros result desc merch. split; [|split].
  - intros m Hm.
    assert (result = learnedSuggestion m) as ->; [|auto].
    unfold result, categorizeTransaction.
    assert (learnedStep categories store description merchant userId
            = Some (learnedSuggestion m)) as ->.
    { apply learnedStep_some. eauto. }
    reflexivity.
  - intros Hno.
    assert (learnedStep categories store description merchant userId = None) as Hl.
    { destruct (learnedStep _ _ _ _ _) as [s|] eqn:E; [|reflexivity].
      apply learnedStep_some in E as (m & Hm & _). destruct (Hno m Hm). }
    split.
    + intros pre rule post cat Hp Hpre Hhit Hres.
      unfold result, categorizeTransaction, quickCategorize. rewrite Hl, Hp.
      fold desc. fold merch.
      rewrite (quickScan_first desc merch available pre rule post cat) by assumption.
      reflexivity.
    + intros Hall. unfold result, categorizeTransaction, quickCategorize. rewrite Hl.
      fold desc. fold merch. rewrite quickScan_none by exact Hall. reflexivity.
  - intros ->. split.
    + intros m (uid & Hu & _). discriminate.
    + intros store'. unfold result, categorizeTransaction, learnedStep.
      cbn [orNull]. reflexivity.
Qed.

Lemma tryParse_none response available :
  tryParse rt response available = None <-> Unparseable rt response.
Proof.
  split.
  - unfold tryParse. destruct response as [text|]; [|constructor].
    destruct (matchBraces text) as [j|] eqn:M; [|intros _; apply NoObject; exact M].
    destruct (JSON_parse rt j) as [parsed|] eqn:P;
      [|intros _; eapply BadJson; eassumption].
    intros H. eapply NoCategory; [exact M|exact P|].
    intros s Hs. rewrite Hs in H. discriminate.
  - intros H. destruct H as [|text M|text j M P|text j parsed M P C]; unfold tryParse.
    + reflexivity.
    + rewrite M. reflexivity.
    + rewrite M, P. reflexivity.
    + rewrite M, P. destruct (Json.prop parsed "category") as [| |v]; try reflexivity.
      destruct v; try reflexivity. destruct (C s eq_refl).
Qed.

Lemma firstOrUncategorized_head c rest :
  c <> EmptyString -> firstOrUncategorized (c :: rest) = c.
Proof.
  intros H. unfold firstOrUncategorized, orElse, truthy. simpl.
  rewrite bool_decide_eq_false_2 by exact H. reflexivity.
Qed.

(** C4, as the code has it: when the transport fails or the answer cannot be
    read, the fallback step returns (it is total, nothing is raised) a
    suggestion of confidence 0.1 whose reasoning is one of the two failure
    texts and whose category is the first available name when there is one
    and it is not the empty string, and "Uncategorized" otherwise. *)
Theorem C4_fallback_on_failure llm available :
  LlmFailed rt llm ->
  let s := llmFallback rt llm available in
  CategorySuggestion.confidence s = Fin 0.1
  /\ (CategorySuggestion.reasoning s = Json.JStr "Failed to get LLM categorization"
      \/ CategorySuggestion.reasoning s = Json.JStr "Could not parse LLM response")
  /\ (forall c rest, available = c :: rest -> c <> EmptyString ->
        CategorySuggestion.category s = c /\ Stated.namesFirstAvailable available s)
  /\ (available = [] \/ head available = Some EmptyString ->
        CategorySuggestion.category s = "Uncategorized").
Proof.
  intros H s.
  assert (s = transportFallback available \/ s = parseFallback available) as Hs.
  { destruct H as [|response Hu]; [left; reflexivity|right].
    unfold s, llmFallback, parseCategorizationResponse.
    apply (tryParse_none response available) in Hu. rewrite Hu. reflexivity. }
  assert (CategorySuggestion.category s = firstOrUncategorized available) as Hc.
  { destruct Hs as [-> | ->]; reflexivity. }
  first_with (destruct Hs as [-> | ->]; reflexivity).
  first_with (destruct Hs as [-> | ->]; [left|right]; reflexivity).
  split.
  - intros c rest -> Hne. unfold Stated.namesFirstAvailable. rewrite Hc.
    rewrite firstOrUncategorized_head by exact Hne. auto.
  - rewrite Hc. intros [-> | Hh]; [reflexivity|].
    destruct available as [|c rest]; [reflexivity|].
    simpl in Hh. injection Hh as ->. reflexivity.
Qed.

Lemma clamp_bounds q : (0 <= clampedConfidence q /\ clampedConfidence q <= 1)%Q.
Proof.
  unfold clampedConfidence. split.
  - apply Q.le_max_l.
  - apply Q.max_lub; [discriminate | apply Q.le_min_l].
Qed.

Lemma clamp_zero q : (clampedConfidence q == 0 <-> q <= 0)%Q.
Proof.
  unfold clampedConfidence. split.
  - intros H. destruct (Qlt_le_dec 0 q) as [Hq|Hq]; [|exact Hq]. exfalso.
    assert (0 < Qmin 1 q)%Q as Hm.
    { apply Q.min_glb_lt; [reflexivity | exact Hq]. }
    assert (Qmin 1 q <= Qmax 0 (Qmin 1 q))%Q as Hle by apply Q.le_max_r.
    rewrite H in Hle. eapply Qlt_not_le; eassumption.
  - intros H. apply Q.max_l. eapply Qle_trans; [apply Q.le_min_r | exact H].
Qed.

(** C10, as the code has it: for an answer whose JSON object has a string
    under "category", a self-reported confidence that is a number [q] comes
    back as a number between 0 and 1, namely 0.5 when [q] is 0 and [q]
    clamped to the unit interval otherwise, so that the result is 0 exactly
    when [q] is negative; a confidence that is absent or null comes back as
    0.5. *)
Theorem C10_confidence_range text jsonMatch parsed suggested available :
  matchBraces text = Some jsonMatch ->
  JSON_parse rt jsonMatch = Some parsed ->
  Json.prop parsed "category" = Json.Value (Json.JStr suggested) ->
  let c := CategorySuggestion.confidence
             (parseCategorizationResponse rt (Some text) available) in
  (forall q, Json.prop parsed "confidence" = Json.Value (Json.JNum q) ->
     exists r, c = Fin r /\ Stated.withinUnit c
       /\ (q == 0 -> r == 0.5)%Q
       /\ (~ q == 0 -> r == clampedConfidence q)%Q
       /\ (r == 0 <-> q < 0)%Q)
  /\ (Json.prop parsed "confidence" = Json.Undefined -> c = Fin 0.5)
  /\ (Json.prop parsed "confidence" = Json.Value Json.JNull -> c = Fin 0.5).
Proof.
  intros M P C c.
  assert (c = Math_max 0 (Math_min 1
                (ToNumber rt (propOr (Json.prop parsed "confidence") (Json.JNum 0.5)))))
    as Hc.
  { unfold c, parseCategorizationResponse, tryParse. rewrite M, P, C. reflexivity. }
  split; [|split].
  - intros q Hq. rewrite Hq in Hc. simpl in Hc.
    destruct (Qeq_bool q 0) eqn:Z; simpl in Hc.
    + apply Qeq_bool_iff in Z. exists 0.5%Q. first_with (exact Hc).
      first_with (exists 0.5%Q; split; [exact Hc | split; discriminate]).
      first_with reflexivity.
      first_with (intros Hn; contradiction).
      split; [discriminate|]. intros Hlt. rewrite Z in Hlt. discriminate.
    + assert (~ q == 0)%Q as Hnz.
      { intros Hz. apply Qeq_bool_iff in Hz. congruence. }
      exists (clampedConfidence q). first_with (exact Hc).
      first_with (exists (clampedConfidence q); split; [exact Hc | apply clamp_bounds]).
      first_with (intros Hz; contradiction).
      first_with reflexivity.
      rewrite clamp_zero. split.
      * intros Hle. apply Qle_lteq in Hle as [Hlt|Heq]; [exact Hlt|contradiction].
      * apply Qlt_le_weak.
  - intros Hu. rewrite Hu in Hc. exact Hc.
  - intros Hu. rewrite Hu in Hc. exact Hc.
Qed.

End ClassifierFacts.

Section ClassifierExamples.
Import Js LearningService OllamaService Describe.

Lemma C1_witness :
  CategorySuggestion.category
    (categorizeTransaction Sample.runtime [Sample.salary] Sample.correctedRows
       Sample.llmDown "ACME CORP PAYMENT" None 5000 ["Salary"; "Rent"] (Some "u"))
  = "Salary"
  /\ CategorySuggestion.category
       (categorizeTransaction Sample.runtime [] [] Sample.llmDown
          "UPI-SWIGGY-1234567890-paytm" None 250 ["Salary"; "Groceries & Food"] None)
     = "Groceries & Food".
Proof.
  split.
  - destruct (C1_resolution_order Sample.runtime [Sample.salary] Sample.correctedRows
                Sample.llmDown "ACME CORP PAYMENT" None 5000 ["Salary"; "Rent"] (Some "u"))
      as (Hlearned & _).
    destruct (Hlearned (Match.mk "c-salary" "Salary" 1 MatchType.exact)) as (_ & Hc & _).
    + exists "u". split; [reflexivity|]. split; [discriminate|]. split; reflexivity.
    + exact Hc.
  - destruct (C1_resolution_order Sample.runtime [] [] Sample.llmDown
                "UPI-SWIGGY-1234567890-paytm" None 250 ["Salary"; "Groceries & Food"] None)
      as (_ & Hquick & Hnone).
    destruct (Hnone eq_refl) as (Hno & _).
    destruct (Hquick Hno) as (Hfirst & _).
    rewrite (Hfirst [] (List.hd (Rule.mk [] "" 0) patterns) (List.tl patterns)
               "Groceries & Food" eq_refl).
    + reflexivity.
    + intros q [].
    + reflexivity.
    + reflexivity.
Defined.

(** C4 as stated fails for a caller without categories: the fallback names
    "Uncategorized", which is no available category. *)
Lemma C4_counterexample :
  LlmFailed Sample.runtime TransportFailure
  /\ CategorySuggestion.category (llmFallback Sample.runtime TransportFailure [])
     = "Uncategorized"
  /\ ~ Stated.namesFirstAvailable [] (llmFallback Sample.runtime TransportFailure []).
Proof.
  split; [constructor|]. split; [reflexivity|].
  unfold Stated.namesFirstAvailable. simpl. discriminate.
Qed.

Lemma C4_witness :
  LlmFailed Sample.runtime (Responded (Some "I cannot say"))
  /\ CategorySuggestion.category
       (llmFallback Sample.runtime (Responded (Some "I cannot say")) ["Food"; "Salary"])
     = "Food".
Proof.
  assert (LlmFailed Sample.runtime (Responded (Some "I cannot say"))) as H.
  { apply FailedParse, NoObject. reflexivity. }
  split; [exact H|].
  destruct (C4_fallback_on_failure Sample.runtime _ ["Food"; "Salary"] H)
    as (_ & _ & Hc & _).
  destruct (Hc "Food" ["Salary"] eq_refl) as [Hcat _]; [discriminate|exact Hcat].
Defined.

(** C10 as stated fails twice: a negative self-reported confidence comes
    back as 0, and one spelled as a word comes back as NaN, which is not in
    the unit interval. *)
Lemma C10_counterexample :
  CategorySuggestion.confidence
    (parseCategorizationResponse Sample.runtime
       (Some ("Answer: " +:+ Sample.negativeText)) ["Food"])
  = Fin 0
  /\ CategorySuggestion.confidence
       (parseCategorizationResponse Sample.runtime (Some Sample.wordyText) ["Food"])
     = NaN
  /\ ~ Stated.withinUnit
         (CategorySuggestion.confidence
            (parseCategorizationResponse Sample.runtime (Some Sample.wordyText) ["Food"])).
Proof.
  split; [vm_compute; reflexivity|]. split; [vm_compute; reflexivity|].
  intros (r & Hr & _). vm_compute in Hr. discriminate.
Qed.

Lemma C10_witness :
  exists r,
    CategorySuggestion.confidence
      (parseCategorizationResponse Sample.runtime (Some Sample.zeroText) ["Food"]) = Fin r
    /\ (r == 0.5)%Q.
Proof.
  destruct (C10_confidence_range Sample.runtime Sample.zeroText Sample.zeroText
              Sample.zeroObject "Food" ["Food"] eq_refl eq_refl eq_refl) as (H & _).
  destruct (H 0%Q eq_refl) as (r & Hr & _ & Hz & _).
  exists r. split; [exact Hr | apply Hz; reflexivity].
Defined.

End ClassifierExamples.

(** ** Recategorization *)

Section RecategorizationFacts.
Import Js OllamaService RecategorizationService.

Variable rt : JsRuntime.
Variable llm : Oracle.
Variable categoriesTable : list Category.t.
Variable patternStore : list CategoryPattern.t.

(** The bulk path applies a suggestion only when its category differs from
    the current one and its confidence exceeds 0.7. *)
Lemma recategorizeAllStep_applied categories userId table transaction table' :
  recategorizeAllStep rt llm categoriesTable patternStore categories userId table transaction
  = (table', true) ->
  let suggestion := suggest rt llm categoriesTable patternStore categories transaction userId in
  exists newCategory,
    newCategoryFor categories suggestion = Some newCategory
    /\ Some (Category.id newCategory) <> Transaction.categoryId transaction
    /\ gtNum (CategorySuggestion.confidence suggestion) 0.7 = true
    /\ table' = List.map (applySuggestion (Transaction.id transaction)
                            (Category.id newCategory)
                            (CategorySuggestion.confidence suggestion)) table.
Proof.
  intros H suggestion. unfold recategorizeAllStep in H. fold suggestion in H.
  destruct (newCategoryFor categories suggestion) as [c|]; [|discriminate].
  destruct (bool_decide_reflect (Some (Category.id c) = Transaction.categoryId transaction));
    simpl in H; [discriminate|].
  destruct (gtNum _ _) eqn:G; [|discriminate].
  injection H as <-. exists c. auto.
Qed.

Lemma recategorizeAllStep_skipped categories userId table transaction table' :
  recategorizeAllStep rt llm categoriesTable patternStore categories userId table transaction
  = (table', false) -> table' = table.
Proof.
  unfold recategorizeAllStep.
  destruct (newCategoryFor _ _) as [c|]; [|intros [= <-]; reflexivity].
  destruct (_ && _); intros [= <-]; reflexivity.
Qed.

(** Applying a suggestion sets the category, the flag and the confidence. *)
Lemma applySuggestion_row rowId newCategoryId confidence t :
  Transaction.id t = rowId ->
  let t' := applySuggestion rowId newCategoryId confidence t in
  Transaction.categoryId t' = Some newCategoryId
  /\ Transaction.llmCategorized t' = true
  /\ Transaction.llmConfidence t' = Some confidence.
Proof.
  intros H. unfold applySuggestion. rewrite bool_decide_eq_true_2 by exact H.
  simpl. auto.
Qed.

(** The single-transaction path applies a suggestion whenever its category
    exists and its confidence exceeds 0.7, whatever the current category. *)
Lemma recategorizeTransaction_applied table transactionId table' :
  recategorizeTransaction rt llm categoriesTable patternStore table transactionId
  = (table', Some true) ->
  exists transaction newCategory,
    List.find (fun t => bool_decide (Transaction.id t = transactionId)) table
      = Some transaction
    /\ let categories :=
         List.filter (visibleTo (Transaction.userId transaction)) categoriesTable in
       let suggestion := suggest rt llm categoriesTable patternStore categories transaction
                           (Transaction.userId transaction) in
       newCategoryFor categories suggestion = Some newCategory
       /\ gtNum (CategorySuggestion.confidence suggestion) 0.7 = true
       /\ table' = List.map (applySuggestion transactionId (Category.id newCategory)
                               (CategorySuggestion.confidence suggestion)) table.
Proof.
  unfold recategorizeTransaction.
  destruct (List.find _ table) as [transaction|]; [|discriminate].
  destruct (newCategoryFor _ _) as [c|] eqn:N; [|discriminate].
  destruct (gtNum _ _) eqn:G; [|discriminate].
  intros [= <-]. exists transaction, c. cbv zeta. auto.
Qed.

End RecategorizationFacts.

(** C5, where the code departs from it: [recategorizeTransaction] has no
    test that the suggested category differs from the current one (its
    sibling [recategorizeAllTransactions] has). A transaction already in
    "Groceries & Food", categorised by hand, whose description fires the
    keyword rule for that same category at confidence 0.95, is written
    again, flagged as categorised by the model, and reported as updated;
    the bulk path leaves the same table alone and counts no update. *)
Theorem C5_single_reapplies_current_category :
  RecategorizationService.recategorizeTransaction Sample.runtime Sample.oracleDown
    [Sample.food] [] [Sample.swiggyOrder] "t1"
  = ([Transaction.mk "t1" "u" "Swiggy order 1234" None (-250) (Some "c-food") true
        (Some (Js.Fin 0.95))], Some true)
  /\ RecategorizationService.recategorizeAllTransactions Sample.runtime Sample.oracleDown
       [Sample.food] [] [Sample.swiggyOrder] "u"
     = ([Sample.swiggyOrder], (0, 1)%nat).
Proof. split; vm_compute; reflexivity. Qed.

(** ** The correction endpoint *)

Section EndpointFacts.
Import Js LearningService LearningRoutes Stated Facts.







End EndpointFacts.

(** ** The asset ledger *)

Section AssetFacts.
Import Js AssetHandler Stated Describe Facts.

Lemma ownProperty_defined name info :
  ownProperty name assetCategoryMapping = Some info ->
  exists c sc, AssetInfo.category info = Some c /\ AssetInfo.subCategory info = Some sc.
Proof.
  cbn [ownProperty assetCategoryMapping].
  repeat (destruct (bool_decide _);
          [intros [= <-]; eexists _, _; split; reflexivity|]).
  discriminate.
Qed.

Lemma ownProperty_key name info :
  ownProperty name assetCategoryMapping = Some info -> orNull (Some name) = Some name.
Proof.
  intros H. unfold orNull, truthy.
  destruct (bool_decide_reflect (name = EmptyString)) as [->|]; [|reflexivity].
  vm_compute in H. discriminate.
Qed.

Lemma fieldIs_some c actual : fieldIs (Some c) actual = true <-> actual = Some c.
Proof. unfold fieldIs. apply bool_decide_eq_true. Qed.

(** For an entry of the table the filter of [findFirst] is the key. *)
Lemma assetWhere_keyedBy userId assetName name info a :
  ownProperty name assetCategoryMapping = Some info ->
  assetWhere userId assetName info a = true <-> keyedBy userId assetName info a.
Proof.
  intros H. destruct (ownProperty_defined _ _ H) as (c & sc & Hc & Hsc).
  unfold assetWhere, keyedBy. rewrite Hc, Hsc.
  rewrite !andb_true_iff, !bool_decide_eq_true, !fieldIs_some. tauto.
Qed.

Lemma assetWhere_not_keyedBy userId assetName name info a :
  ownProperty name assetCategoryMapping = Some info ->
  ~ keyedBy userId assetName info a -> assetWhere userId assetName info a = false.
Proof.
  intros H Hn. destruct (assetWhere userId assetName info a) eqn:E; [|reflexivity].
  exfalso. apply Hn. eapply assetWhere_keyedBy; eauto.
Qed.

Lemma handle_mapped now assets name info transaction userId :
  ownProperty name assetCategoryMapping = Some info ->
  let assetName := deriveAssetName (AssetTransaction.description transaction)
                     (orElse (AssetTransaction.merchant transaction) "") in
  handleAssetTransaction false now assets (Some name) transaction userId =
  match List.find (assetWhere userId assetName info) assets with
  | Some existingAsset =>
      if AssetInfo.isSale info then
        List.map (sellFrom (Asset.id existingAsset) (AssetTransaction.amount transaction) now)
          assets
      else
        List.map (addTo (Asset.id existingAsset) (AssetTransaction.amount transaction) now)
          assets
  | None =>
      if AssetInfo.isSale info then assets
      else assets ++
           [Asset.mk (freshId assets) userId assetName (AssetInfo.category info)
              (AssetInfo.subCategory info) (abs (AssetTransaction.amount transaction))
              (Some (abs (AssetTransaction.amount transaction))) (Some 1%float)
              (Some ("Auto-created from transaction: "
                     +:+ AssetTransaction.description transaction))
              true now]
  end.
Proof.
  intros H assetName. unfold handleAssetTransaction, mappingFor.
  rewrite (ownProperty_key name info H), H. reflexivity.
Qed.

Lemma asset_id_below_fresh (assets : list Asset.t) a :
  In a assets -> (Asset.id a < freshId assets)%nat.
Proof.
  intros Hin. unfold freshId.
  assert (Forall (fun k => (k <= list_max (List.map Asset.id assets))%nat)
            (List.map Asset.id assets)) as HF.
  { apply list_max_le. lia. }
  rewrite Forall_forall in HF.
  assert (In (Asset.id a) (List.map Asset.id assets)) as Hi by (apply in_map; exact Hin).
  apply list_elem_of_In in Hi. specialize (HF _ Hi). lia.
Qed.

Lemma addTo_purchased rowId amount now a :
  Asset.id a = rowId -> purchased amount a (addTo rowId amount now a).
Proof.
  intros <-. unfold addTo, purchased. rewrite Nat.eqb_refl.
  cbn [Asset.currentValue Asset.isActive Asset.quantity Views.assetIdentity Asset.id
       Asset.userId Asset.name Asset.category Asset.subCategory Asset.purchaseValue
       Asset.description].
  split; [reflexivity|]. split; [reflexivity|]. split; [reflexivity|].
  unfold quantityOrZero. destruct (Asset.quantity a) as [q|]; [|reflexivity].
  destruct (is_nan q || (q =? 0)%float); reflexivity.
Qed.

Lemma Math_max0_cases d :
  (Math_max0 d <? 0)%float = false
  /\ (is_nan d = false ->
      Math_max0 d = (if (0 <? d)%float then d else 0%float)
      /\ ((0 <? Math_max0 d)%float = false <-> Math_max0 d = 0%float))
  /\ (is_nan d = true ->
      is_nan (Math_max0 d) = true /\ (0 <? Math_max0 d)%float = false).
Proof.
  unfold Math_max0. destruct (is_nan d) eqn:N.
  - split; [reflexivity|]. split; [discriminate|]. intros _. split; reflexivity.
  - destruct (0 <? d)%float eqn:P.
    + split; [apply above_zero_not_below; exact P|]. split; [|discriminate].
      intros _. split; [reflexivity|]. rewrite P. split; [discriminate|].
      intros ->. discriminate P.
    + split; [reflexivity|]. split; [|discriminate].
      intros _. split; [reflexivity|]. split; reflexivity.
Qed.

Lemma sellFrom_sold rowId amount now a :
  Asset.id a = rowId -> sold amount a (sellFrom rowId amount now a).
Proof.
  intros <-. unfold sellFrom, sold. rewrite Nat.eqb_refl.
  cbn [Asset.currentValue Asset.isActive Asset.quantity Views.assetIdentity Asset.id
       Asset.userId Asset.name Asset.category Asset.subCategory Asset.purchaseValue
       Asset.description].
  destruct (Math_max0_cases (Asset.currentValue a - abs amount)) as (H1 & H2 & H3).
  split; [reflexivity|]. split; [reflexivity|]. split; [exact H1|]. split; assumption.
Qed.

(** What an update by identifier does to the table, row by row. *)
Lemma map_update_rows (f : Asset.t -> Asset.t) (assets : list Asset.t) (P : Asset.t -> Asset.t -> Prop) :
  (forall a, P a (f a)) ->
  length (List.map f assets) = length assets
  /\ forall i a, assets !! i = Some a ->
       exists a', List.map f assets !! i = Some a' /\ P a a'.
Proof.
  intros H. split; [apply length_map|].
  intros i a Hi. exists (f a). split; [|apply H].
  change (List.map f assets) with (f <$> assets).
  rewrite list_lookup_fmap, Hi. reflexivity.
Qed.

(** C8, for a category name that is a key of the mapping table, the
    handler's database calls succeeding.  The asset the transaction bears
    on is the first one of the table with the user, the derived name and
    the mapped category and subcategory.  Without such an asset a sale
    changes nothing, and a purchase appends one with that key, the absolute
    amount as current and as purchase value, quantity 1, active, under an
    identifier of its own.  With such an asset no row is added or removed
    and only the rows with its identifier change: a purchase adds the
    absolute amount to the value and 1 to the purchase counter; a sale
    takes the absolute amount from the value without going below zero and
    leaves the asset inactive exactly when the value is zero.  The sums are
    those of binary64 numbers.  Scenario C: buying 10000 creates value
    10000 and quantity 1, selling 4000 leaves 6000 and active, selling 6000
    more leaves 0 and inactive. *)
Theorem C8_asset_ledger now assets name info transaction userId :
  ownProperty name assetCategoryMapping = Some info ->
  let assetName := deriveAssetName (AssetTransaction.description transaction)
                     (orElse (AssetTransaction.merchant transaction) "") in
  let amount := AssetTransaction.amount transaction in
  let assets' := handleAssetTransaction false now assets (Some name) transaction userId in
  ((forall a, In a assets -> ~ keyedBy userId assetName info a) ->
     if AssetInfo.isSale info then assets' = assets
     else exists created,
       assets' = assets ++ [created]
       /\ keyedBy userId assetName info created
       /\ Asset.currentValue created = abs amount
       /\ Asset.purchaseValue created = Some (abs amount)
       /\ Asset.quantity created = Some 1%float
       /\ Asset.isActive created = true
       /\ forall a, In a assets -> Asset.id a <> Asset.id created)
  /\ (forall pre e post, matchingAsset userId assetName info assets pre e post ->
        length assets' = length assets
        /\ forall i a, assets !! i = Some a ->
             exists a', assets' !! i = Some a'
               /\ (Asset.id a <> Asset.id e -> a' = a)
               /\ (Asset.id a = Asset.id e ->
                   if AssetInfo.isSale info then sold amount a a'
                   else purchased amount a a'))
  /\ (List.map ledgerView Sample.afterBuy = [(10000, Some 1, true)]%float
      /\ List.map ledgerView Sample.afterFirstSale = [(6000, Some 1, true)]%float
      /\ List.map ledgerView Sample.afterSecondSale = [(0, Some 1, false)]%float).
Proof.
  intros Hmap assetName amount assets'.
  pose proof (handle_mapped now assets name info transaction userId Hmap) as Heq.
  cbv zeta in Heq. fold assetName amount assets' in Heq.
  split; [|split].
  - intros Hnone.
    rewrite find_none_all in Heq
      by (intros y Hy; eapply assetWhere_not_keyedBy; eauto).
    destruct (AssetInfo.isSale info); [exact Heq|].
    eexists. split; [exact Heq|].
    split; [repeat split|]. split; [reflexivity|]. split; [reflexivity|].
    split; [reflexivity|]. split; [reflexivity|].
    intros a Ha. cbn [Asset.id]. pose proof (asset_id_below_fresh assets a Ha). lia.
  - intros pre e post (Hsplit & Hkey & Hpre).
    rewrite (find_first _ assets pre e post Hsplit) in Heq;
      [|eapply assetWhere_keyedBy; eauto
       |intros y Hy; eapply assetWhere_not_keyedBy; eauto].
    rewrite Heq. destruct (AssetInfo.isSale info).
    + apply (map_update_rows _ assets
               (fun a a' => (Asset.id a <> Asset.id e -> a' = a)
                            /\ (Asset.id a = Asset.id e -> sold amount a a'))).
      intros a. split.
      * intros Hne. unfold sellFrom. apply Nat.eqb_neq in Hne. rewrite Hne. reflexivity.
      * intros He. apply sellFrom_sold. exact He.
    + apply (map_update_rows _ assets
               (fun a a' => (Asset.id a <> Asset.id e -> a' = a)
                            /\ (Asset.id a = Asset.id e -> purchased amount a a'))).
      intros a. split.
      * intros Hne. unfold addTo. apply Nat.eqb_neq in Hne. rewrite Hne. reflexivity.
      * intros He. apply addTo_purchased. exact He.
  - vm_compute. repeat split.
Qed.

Lemma C8_witness :
  exists created,
    handleAssetTransaction false 1 [] (Some "Stock Purchase") Sample.stockBuy "u"
    = [] ++ [created]
    /\ Asset.currentValue created = 10000%float
    /\ Asset.quantity created = Some 1%float.
Proof.
  destruct (C8_asset_ledger 1 [] "Stock Purchase" (entry "Stocks" "Individual Stocks" false)
              Sample.stockBuy "u" eq_refl)
    as (Hnew & _).
  destruct (Hnew (fun a (H : In a []) => match H with end))
    as (created & H1 & _ & H2 & _ & H3 & _).
  exists created. split; [exact H1|]. split; [exact H2 | exact H3].
Defined.

End AssetFacts.

(** ** Dates of the statement parser *)

Section DateFacts.
Import Js CSVParserService Describe.

(** C6, where the code departs from it: the expression for the two-digit
    year has no end anchor, so a date with a four-digit year matches it
    with the first two digits of the year. "15/01/2023" is read as
    15 January 2020, not 2023; the expressions meant for four-digit years
    are never reached by a date written with slashes. The first two forms
    of the priority order behave as stated. *)
Theorem C6_four_digit_year_misread :
  parseDate "15/01/2023" = Some (JsDate.calendar 2020 1 15)
  /\ JsDate.calendar 2020 1 15 <> JsDate.calendar 2023 1 15
  /\ parseDate "15/01/23" = Some (JsDate.calendar 2023 1 15)
  /\ parseDate "15/01/75" = Some (JsDate.calendar 1975 1 15)
  /\ parseDate "19 Oct 2015" = Some (JsDate.calendar 2015 10 19).
Proof. vm_compute. repeat split; discriminate. Qed.

Lemma digit_not_space c : isDigit c = true -> isSpace c = false.
Proof.
  unfold isDigit, isSpace. intros H. apply andb_true_iff in H as [H1 H2].
  apply Nat.leb_le in H1. apply Nat.leb_le in H2.
  apply orb_false_iff. split.
  - apply andb_false_iff. right. apply Nat.leb_gt. lia.
  - apply Nat.eqb_neq. lia.
Qed.

Lemma spaceWidth_digit c r : isDigit c = true -> spaceWidth (String c r) = 0%nat.
Proof.
  unfold isDigit, spaceWidth, isSpace. intros H.
  apply andb_true_iff in H as [H1 H2]. apply Nat.leb_le in H1. apply Nat.leb_le in H2.
  repeat match goal with
  | |- context [(?a <=? ?b)%nat] => destruct (Nat.leb_spec a b); try lia
  | |- context [(?a =? ?b)%nat] => destruct (Nat.eqb_spec a b); try lia
  end; reflexivity.
Qed.

Lemma trimEnd_digit c r : isDigit c = true -> trimEnd (String c r) = String c (trimEnd r).
Proof. intros H. cbn [trimEnd onlySpacesFrom]. rewrite spaceWidth_digit by exact H. reflexivity. Qed.

Lemma digit_not_char c (k : ascii) :
  isDigit c = true -> isDigit k = false -> Ascii.eqb c k = false.
Proof.
  intros H Hk. destruct (Ascii.eqb_spec c k) as [->|]; [congruence|reflexivity].
Qed.

Lemma removeCommas_keep c r :
  Ascii.eqb c ","%char = false -> removeCommas (String c r) = String c (removeCommas r).
Proof. intros H. simpl. rewrite H. reflexivity. Qed.

Lemma digits12_two a b r :
  isDigit a = true -> isDigit b = true ->
  digits12 (String a (String b r)) = Some (String a (String b EmptyString), r).
Proof. intros Ha Hb. unfold digits12. simpl. rewrite Ha, Hb. reflexivity. Qed.

Lemma digitsExactly_two a b r :
  isDigit a = true -> isDigit b = true ->
  digitsExactly 2 (String a (String b r)) = Some (String a (String b EmptyString), r).
Proof. intros Ha Hb. unfold digitsExactly. simpl. rewrite Ha, Hb. reflexivity. Qed.

Lemma lit_hit c r : lit c (String c r) = Some r.
Proof. unfold lit. rewrite Ascii.eqb_refl. reflexivity. Qed.

Lemma parseInt_two a b :
  parseInt (String a (String b EmptyString)) = (10 * digitValue a + digitValue b)%Z.
Proof. unfold parseInt. simpl. lia. Qed.

(** Every date written as two digits, slash, two digits, slash, four digits
    is read with the first two digits of its year, as a year of this
    century when they are below 50 and of the last one otherwise. *)
Lemma parseDate_slash_four_digit d1 d2 m1 m2 y1 y2 y3 y4 :
  isDigit d1 = true -> isDigit d2 = true -> isDigit m1 = true -> isDigit m2 = true ->
  isDigit y1 = true -> isDigit y2 = true -> isDigit y3 = true -> isDigit y4 = true ->
  parseDate (slashDate d1 d2 m1 m2 y1 y2 y3 y4) =
  let yy := (10 * digitValue y1 + digitValue y2)%Z in
  Some (JsDate.make (if (yy <? 50)%Z then 2000 + yy else 1900 + yy)%Z
          (10 * digitValue m1 + digitValue m2 - 1)%Z
          (10 * digitValue d1 + digitValue d2)%Z).
Proof.
  intros D1 D2 M1 M2 Y1 Y2 Y3 Y4.
  assert (forall c, isDigit c = true -> Ascii.eqb c ","%char = false) as Hcomma.
  { intros c Hc. apply digit_not_char; [exact Hc|reflexivity]. }
  assert (trim (slashDate d1 d2 m1 m2 y1 y2 y3 y4) = slashDate d1 d2 m1 m2 y1 y2 y3 y4)
    as Ht.
  { unfold trim, trimStart, slashDate. cbn [trimStartFrom].
    rewrite spaceWidth_digit by assumption.
    repeat (first [rewrite trimEnd_digit by assumption
                  | change (trimEnd (String "/" ?r)) with (String "/"%char (trimEnd r))]).
    reflexivity. }
  assert (removeCommas (slashDate d1 d2 m1 m2 y1 y2 y3 y4)
          = slashDate d1 d2 m1 m2 y1 y2 y3 y4) as Hr.
  { unfold slashDate.
    repeat (rewrite removeCommas_keep by (auto using Hcomma)). reflexivity. }
  unfold parseDate. rewrite Ht, Hr. clear Ht Hr.
  assert (tryDayMonthNameYear (slashDate d1 d2 m1 m2 y1 y2 y3 y4) = None) as ->.
  { unfold tryDayMonthNameYear, matchDayMonthNameYear, skipSpaces, trimStart, slashDate.
    cbn [trimStartFrom]. rewrite spaceWidth_digit by assumption.
    rewrite digits12_two by assumption. cbn [mbind option_bind].
    unfold spaces1. change (spaceWidth (String "/" ?r)) with 0%nat. reflexivity. }
  assert (matchShortYear (slashDate d1 d2 m1 m2 y1 y2 y3 y4)
          = Some (String d1 (String d2 EmptyString), String m1 (String m2 EmptyString),
                  String y1 (String y2 EmptyString))) as ->.
  { unfold matchShortYear, skipSpaces, trimStart, slashDate.
    cbn [trimStartFrom]. rewrite spaceWidth_digit by assumption.
    rewrite digits12_two by assumption.
    cbn [mbind option_bind]. rewrite lit_hit. cbn [mbind option_bind].
    rewrite digits12_two by assumption.
    cbn [mbind option_bind]. rewrite lit_hit. cbn [mbind option_bind].
    rewrite digitsExactly_two by assumption. reflexivity. }
  rewrite !parseInt_two. reflexivity.
Qed.

Lemma parseDate_slash_four_digit_witness :
  parseDate (slashDate "3" "1" "1" "2" "1" "9" "9" "9")
  = Some (JsDate.make 2019 11 31).
Proof.
  exact (parseDate_slash_four_digit "3" "1" "1" "2" "1" "9" "9" "9"
           eq_refl eq_refl eq_refl eq_refl eq_refl eq_refl eq_refl eq_refl).
Defined.

Variable Format : Type.
Variable dateColumn : Format -> list string.
Variable findColumnValue : CSVRow -> list string -> option string.
Variable ParsedTransaction : Type.
Variable finishRow : CSVRow -> Format -> JsDate.t -> option ParsedTransaction.

(** A row whose date text cannot be parsed yields no transaction, and the
    other rows are unaffected: the output is that of the rows without it. *)
Lemma unparseable_date_row_dropped before row after format dateValue :
  orNull (findColumnValue row (dateColumn format)) = Some dateValue ->
  parseDate dateValue = None ->
  parseRow Format dateColumn findColumnValue ParsedTransaction finishRow row (Some format)
  = None
  /\ parseRows Format dateColumn findColumnValue ParsedTransaction finishRow
       (before ++ row :: after) (Some format)
     = parseRows Format dateColumn findColumnValue ParsedTransaction finishRow
         (before ++ after) (Some format).
Proof.
  intros Hv Hd.
  assert (parseRow Format dateColumn findColumnValue ParsedTransaction finishRow
            row (Some format) = None) as Hrow.
  { unfold parseRow. rewrite Hv, Hd. reflexivity. }
  split; [exact Hrow|].
  unfold parseRows. rewrite !omap_app. f_equal.
  change (omap ?f (row :: after))
    with (match f row with Some y => y :: omap f after | None => omap f after end).
  cbv beta. rewrite Hrow. reflexivity.
Qed.

End DateFacts.

Lemma unparseable_date_row_dropped_witness :
  CSVParserService.parseRows unit (fun _ => ["Date"])
    (fun row _ => List.hd_error (List.map snd row)) JsDate.t (fun _ _ d => Some d)
    ([[("Date", "15/01/23")]] ++ [("Date", "soon")] :: [[("Date", "19 Oct 2015")]])
    (Some tt)
  = [JsDate.calendar 2023 1 15; JsDate.calendar 2015 10 19].
Proof.
  refine (eq_trans
            (proj2 (unparseable_date_row_dropped unit (fun _ => ["Date"])
                      (fun row _ => List.hd_error (List.map snd row)) JsDate.t
                      (fun _ _ d => Some d)
                      [[("Date", "15/01/23")]] [("Date", "soon")]
                      [[("Date", "19 Oct 2015")]] tt "soon" eq_refl eq_refl)) _).
  vm_compute. reflexivity.
Defined.

(** ** The end-to-end scenarios of the design document *)

Section Scenarios.
Import Js LearningService OllamaService.

(** Scenario A: the quick match fires on "swiggy", whatever the model call
    would have come to and whatever the runtime. *)
Lemma scenario_A_quick_match rt llm amount :
  categorizeTransaction rt [] [] llm "UPI-SWIGGY-1234567890-paytm" None amount
    ["Salary"; "Groceries & Food"; "Transportation"] None
  = CategorySuggestion.mk "Groceries & Food" (Fin 0.95)
      (Json.JStr "Quick match based on keyword: swiggy").
Proof. reflexivity. Qed.

(** Scenario B: after the correction of "ACME CORP PAYMENT" to Salary, the
    same description classifies as Salary at confidence 1 by the exact
    match, whatever the model call would have come to. *)
Lemma scenario_B_correction_wins rt llm amount :
  List.map Describe.keyView Sample.correctedRows
  = [("ACME CORP PAYMENT", None, "c-salary", 1%Q)]
  /\ categorizeTransaction rt [Sample.salary] Sample.correctedRows llm
       "ACME CORP PAYMENT" None amount ["Miscellaneous Expenses"; "Salary"] (Some "u")
     = CategorySuggestion.mk "Salary" (Fin 1)
         (Json.JStr "Learned from previous exact match").
Proof. split; reflexivity. Qed.

End Scenarios.

Section MoreExamples.
Import Js LearningService RecategorizationService.

Lemma recordUserCorrection_existing_witness :
  In (CategoryPattern.mk 1 "u" "ACME CORP PAYMENT" None "c-rent" (Qmax 0.4 1) true 9)
    (recordUserCorrection false 9 Sample.correctedRows "u" "acme corp payment" None
       "c-rent" 0.4).
Proof.
  exact (proj1 (proj2 (recordUserCorrection_existing 9 Sample.correctedRows "u"
                         "acme corp payment" None "c-rent" 0.4
                         (CategoryPattern.mk 1 "u" "ACME CORP PAYMENT" None "c-salary" 1
                            true 1)
                         eq_refl))).
Defined.

Lemma recategorizeAllStep_applied_witness :
  exists newCategory,
    newCategoryFor [Sample.food; Sample.dining]
      (suggest Sample.runtime Sample.oracleDown [Sample.food; Sample.dining] []
         [Sample.food; Sample.dining]
         (Transaction.mk "t9" "u" "Swiggy order 77" None (-90) (Some "c-dining") false None)
         "u")
    = Some newCategory
    /\ Some (Category.id newCategory) <> Some "c-dining".
Proof.
  destruct (recategorizeAllStep_applied Sample.runtime Sample.oracleDown
              [Sample.food; Sample.dining] [] [Sample.food; Sample.dining] "u" []
              (Transaction.mk "t9" "u" "Swiggy order 77" None (-90) (Some "c-dining")
                 false None)
              [] eq_refl)
    as (newCategory & Hnew & Hdiff & _).
  exists newCategory. split; [exact Hnew | exact Hdiff].
Defined.

End MoreExamples.

(** * Properties of the tables, the routes and the statement parser *)

(** ** The pattern table as a whole *)

Section StoreInvariants.
Import Js LearningService LearningMaintenance OllamaService Describe Facts.

Lemma keyWhere_keyOf userId description merchant p :
  keyWhere userId description merchant p = true <->
  keyOf p = (userId, toLowerCase description, orNull merchant).
Proof.
  unfold keyWhere, keyOf. rewrite !andb_true_iff, !bool_decide_eq_true. split.
  - intros [[-> ->] ->]. reflexivity.
  - intros [= -> -> ->]. auto.
Qed.

Lemma updateCorrection_id rowId categoryId confidence now p :
  CategoryPattern.id (updateCorrection rowId categoryId confidence now p)
  = CategoryPattern.id p.
Proof. unfold updateCorrection. destruct (Nat.eqb _ _); reflexivity. Qed.

Lemma updateCorrection_keyOf rowId categoryId confidence now p :
  keyOf (updateCorrection rowId categoryId confidence now p) = keyOf p.
Proof. unfold updateCorrection. destruct (Nat.eqb _ _); reflexivity. Qed.

Lemma NoDup_map_filter {A B} (g : A -> B) (f : A -> bool) (l : list A) :
  NoDup (List.map g l) -> NoDup (List.map g (List.filter f l)).
Proof.
  induction l as [|x l IH]; simpl; [auto|].
  intros H. apply NoDup_cons in H as [Hx Hl].
  destruct (f x); [|auto]. simpl. apply NoDup_cons. split; [|auto].
  intros Hin. apply Hx. apply list_elem_of_In in Hin.
  apply in_map_iff in Hin as (y & Hy & Hin).
  apply filter_In in Hin as [Hin _]. apply list_elem_of_In. apply in_map_iff. eauto.
Qed.

Lemma recordUserCorrection_WellKeyed fault now store userId description merchant
    categoryId confidence :
  orNull merchant = merchant ->
  WellKeyed store ->
  WellKeyed (recordUserCorrection fault now store userId description merchant
               categoryId confidence).
Proof.
  intros Hm [Hid Hkey]. unfold recordUserCorrection.
  destruct fault; [split; assumption|].
  destruct (List.find _ store) as [e|] eqn:F.
  - split.
    + rewrite List.map_map.
      rewrite (List.map_ext _ CategoryPattern.id); [exact Hid|].
      intros p. apply updateCorrection_id.
    + rewrite List.map_map.
      rewrite (List.map_ext _ keyOf); [exact Hkey|].
      intros p. apply updateCorrection_keyOf.
  - pose proof (List.find_none _ _ F) as Hall. split.
    + rewrite List.map_app. simpl. apply NoDup_app. split; [exact Hid|].
      split; [|apply NoDup_singleton].
      intros x Hx Hx'. apply list_elem_of_In in Hx.
      apply in_map_iff in Hx as (p & <- & Hp).
      apply list_elem_of_singleton in Hx'.
      pose proof (id_below_fresh store p Hp). lia.
    + rewrite List.map_app. simpl. apply NoDup_app. split; [exact Hkey|].
      split; [|apply NoDup_singleton].
      intros x Hx Hx'. apply list_elem_of_In in Hx.
      apply in_map_iff in Hx as (p & <- & Hp).
      apply list_elem_of_singleton in Hx'.
      assert (keyWhere userId description merchant p = true) as Hk.
      { apply keyWhere_keyOf. rewrite Hx'. unfold keyOf. simpl. rewrite Hm. reflexivity. }
      rewrite (Hall p Hp) in Hk. discriminate.
Qed.

Lemma recordUserCorrection_Bounded fault now store userId description merchant
    categoryId confidence :
  (confidence <= 1)%Q ->
  Bounded store ->
  Bounded (recordUserCorrection fault now store userId description merchant
             categoryId confidence).
Proof.
  intros Hc Hb. unfold recordUserCorrection.
  destruct fault; [exact Hb|].
  destruct (List.find _ store) as [e|].
  - intros p Hp. apply in_map_iff in Hp as (q & <- & Hq).
    unfold updateCorrection. destruct (Nat.eqb _ _); [|auto]. simpl.
    apply Q.max_lub; auto.
  - intros p Hp. apply in_app_or in Hp as [Hp|[<-|[]]]; auto.
Qed.

(** The two writers of the pattern table keep it in shape.
    Recording a correction, with a merchant that is null or non-empty and a
    confidence of at most 1, leaves a table in which no two rows share an
    identifier or a key (user, description without regard to case, merchant)
    and no confidence exceeds 1, if the table was so before; the cleanup
    does the same without any condition. *)
Theorem pattern_table_invariants_kept :
  (forall fault now store userId description merchant categoryId confidence,
     orNull merchant = merchant -> (confidence <= 1)%Q ->
     WellKeyed store /\ Bounded store ->
     let store' := recordUserCorrection fault now store userId description merchant
                     categoryId confidence in
     WellKeyed store' /\ Bounded store')
  /\ (forall daysBefore now store userId keepDays,
        WellKeyed store /\ Bounded store ->
        let store' := fst (cleanupOldPatterns daysBefore now store userId keepDays) in
        WellKeyed store' /\ Bounded store').
Proof.
  split.
  - intros fault now store userId description merchant categoryId confidence Hm Hc [Hk Hb].
    split.
    + apply recordUserCorrection_WellKeyed; assumption.
    + apply recordUserCorrection_Bounded; assumption.
  - intros daysBefore now store userId keepDays [[Hid Hkey] Hb]. simpl. split.
    + split; apply NoDup_map_filter; assumption.
    + intros p Hp. apply filter_In in Hp as [Hp _]. auto.
Qed.

Lemma pattern_table_invariants_kept_witness :
  let store := [CategoryPattern.mk 1 "u" "ACME CORP PAYMENT" (Some "Acme") "c-rent" 0.6 false 5] in
  let store' := recordUserCorrection false 9 store "u" "acme corp payment" (Some "Acme")
                  "c-salary" 1 in
  WellKeyed store' /\ Bounded store'.
Proof.
  apply (proj1 pattern_table_invariants_kept).
  - reflexivity.
  - apply Qle_refl.
  - split; [split|].
    + apply NoDup_singleton.
    + apply NoDup_singleton.
    + intros p [<-|[]]. simpl. unfold Qle. simpl. lia.
Defined.

(** *** From a correction to the next classification *)

Lemma filter_key_unique (store : list Pattern) userId description merchant p :
  NoDup (List.map keyOf store) -> In p store ->
  keyWhere userId description merchant p = true ->
  List.filter (keyWhere userId description merchant) store = [p].
Proof.
  intros Hnd Hin Hp. induction store as [|a l IH]; [destruct Hin|].
  simpl in Hnd. apply NoDup_cons in Hnd as [Ha Hl]. simpl.
  destruct (keyWhere userId description merchant a) eqn:Ka.
  - assert (forall q, In q l -> keyWhere userId description merchant q = false) as Hnone.
    { intros q Hq. destruct (keyWhere userId description merchant q) eqn:Kq; [|reflexivity].
      exfalso. apply Ha. apply list_elem_of_In. apply in_map_iff. exists q. split; [|exact Hq].
      apply keyWhere_keyOf in Ka, Kq. congruence. }
    rewrite (filter_none _ _ Hnone).
    destruct Hin as [->|Hin]; [reflexivity|].
    rewrite (Hnone p Hin) in Hp. discriminate.
  - destruct Hin as [->|Hin]; [congruence|]. auto.
Qed.

Lemma keyWhere_same_case userId description description' merchant p :
  toLowerCase description' = toLowerCase description ->
  keyWhere userId description' merchant p = keyWhere userId description merchant p.
Proof. intros H. unfold keyWhere. rewrite H. reflexivity. Qed.

Lemma recorded_row now store userId description merchant categoryId confidence :
  orNull merchant = merchant ->
  exists row,
    In row (recordUserCorrection false now store userId description merchant
              categoryId confidence)
    /\ keyWhere userId description merchant row = true
    /\ CategoryPattern.categoryId row = categoryId
    /\ (confidence <= CategoryPattern.confidence row)%Q.
Proof.
  intros Hm. unfold recordUserCorrection.
  destruct (List.find _ store) as [e|] eqn:F.
  - apply List.find_some in F as [Hin Hk].
    exists (updateCorrection (CategoryPattern.id e) categoryId confidence now e).
    split; [apply in_map; exact Hin|]. split.
    + apply keyWhere_keyOf. rewrite updateCorrection_keyOf. apply keyWhere_keyOf. exact Hk.
    + unfold updateCorrection. rewrite Nat.eqb_refl. simpl. split; [reflexivity|].
      apply Q.le_max_l.
  - eexists. split; [apply in_or_app; right; left; reflexivity|].
    split; [apply keyWhere_new; exact Hm|]. simpl. split; [reflexivity|apply Qle_refl].
Qed.

Lemma exact_after_correction categories now store userId description description'
    merchant categoryId confidence :
  orNull merchant = merchant ->
  WellKeyed store ->
  toLowerCase description' = toLowerCase description ->
  exists c,
    findSimilarPattern categories
      (recordUserCorrection false now store userId description merchant categoryId confidence)
      userId description' merchant
    = Some (Match.mk categoryId (categoryNameOf categories categoryId) c MatchType.exact)
    /\ (confidence <= c)%Q.
Proof.
  intros Hm Hwk Hcase.
  destruct (recorded_row now store userId description merchant categoryId confidence Hm)
    as (row & Hin & Hk & Hcat & Hconf).
  pose proof (recordUserCorrection_WellKeyed false now store userId description merchant
                categoryId confidence Hm Hwk) as [_ Hkeys].
  exists (CategoryPattern.confidence row). split; [|exact Hconf].
  unfold findSimilarPattern.
  rewrite (List.filter_ext _ (keyWhere userId description merchant))
    by (intros p; apply keyWhere_same_case; exact Hcase).
  rewrite (filter_key_unique _ _ _ _ row Hkeys Hin Hk). simpl. rewrite Hcat. reflexivity.
Qed.
End StoreInvariants.

Section LearnedClassification.
Import Js LearningService LearningMaintenance OllamaService Describe Facts.
Variable rt : JsRuntime.

Lemma learned_after_correction categories now store userId description description'
    merchant categoryId confidence :
  orNull merchant = merchant ->
  WellKeyed store ->
  toLowerCase description' = toLowerCase description ->
  userId <> EmptyString ->
  (0.8 < confidence)%Q ->
  exists c,
    learnedStep categories
      (recordUserCorrection false now store userId description merchant categoryId
         confidence)
      description' merchant (Some userId)
    = Some (learnedSuggestion
              (Match.mk categoryId (categoryNameOf categories categoryId) c
                 MatchType.exact))
    /\ (confidence <= c)%Q.
Proof.
  intros Hm Hwk Hcase Hu Hc.
  destruct (exact_after_correction categories now store userId description description'
              merchant categoryId confidence Hm Hwk Hcase) as (c & Hfind & Hle).
  exists c. split; [|exact Hle].
  apply learnedStep_some. eexists. split; [|reflexivity].
  exists userId. split; [reflexivity|]. split; [exact Hu|]. split; [exact Hfind|].
  simpl. eapply Qlt_le_trans; eassumption.
Qed.

(** Once a correction is recorded, the next classification of the same
    description (in any letter case) and merchant for that user answers with
    the corrected category, as a learned exact match, whatever the keyword
    rules and the model would say: provided the table was well keyed, the
    merchant is null or non-empty, the user id is non-empty and the
    confidence recorded exceeds 0.8. *)
Theorem corrected_category_is_suggested categories llm now store userId description
    description' merchant categoryId confidence amount availableCategories :
  orNull merchant = merchant ->
  WellKeyed store ->
  toLowerCase description' = toLowerCase description ->
  userId <> EmptyString ->
  (0.8 < confidence)%Q ->
  let store' := recordUserCorrection false now store userId description merchant
                  categoryId confidence in
  let suggestion := categorizeTransaction rt categories store' llm description' merchant
                      amount availableCategories (Some userId) in
  CategorySuggestion.category suggestion = categoryNameOf categories categoryId
  /\ CategorySuggestion.reasoning suggestion
     = Json.JStr "Learned from previous exact match"
  /\ exists c, CategorySuggestion.confidence suggestion = Fin c /\ (confidence <= c)%Q.
Proof.
  intros Hm Hwk Hcase Hu Hc store' suggestion.
  destruct (learned_after_correction categories now store userId description description'
              merchant categoryId confidence Hm Hwk Hcase Hu Hc) as (c & Hstep & Hle).
  unfold suggestion, categorizeTransaction, store'. rewrite Hstep.
  unfold learnedSuggestion. cbn [CategorySuggestion.category CategorySuggestion.reasoning
    CategorySuggestion.confidence Match.categoryName Match.confidence Match.matchType
    matchTypeName].
  split; [reflexivity|]. split; [reflexivity|]. exists c. auto.
Qed.

Lemma findSimilarPattern_by_merchant categories store userId description merchant m :
  findSimilarPattern categories store userId description merchant = Some m ->
  Match.matchType m = MatchType.merchant ->
  exists p, In p store
    /\ Match.confidence m = (CategoryPattern.confidence p * 0.8)%Q.
Proof.
  unfold findSimilarPattern.
  destruct (firstByConfidenceDesc _) as [r|]; [intros [= <-]; discriminate|].
  assert (forall other : option Match.t,
            (forall d, other = Some d -> Match.matchType d = MatchType.description) ->
            match other with
            | Some d => Some d
            | None =>
                match orNull merchant with
                | Some merch =>
                    match firstByConfidenceDesc
                            (List.filter (merchantWhere userId merch) store) with
                    | Some merchantMatch =>
                        Some (Match.mk (CategoryPattern.categoryId merchantMatch)
                                (categoryNameOf categories
                                   (CategoryPattern.categoryId merchantMatch))
                                (CategoryPattern.confidence merchantMatch * 0.8)
                                MatchType.merchant)
                    | None => None
                    end
                | None => None
                end
            end = Some m ->
            Match.matchType m = MatchType.merchant ->
            exists p, In p store
              /\ Match.confidence m = (CategoryPattern.confidence p * 0.8)%Q) as Hrest.
  { intros other Hother. destruct other as [d|].
    - intros [= <-] Hty. rewrite (Hother d eq_refl) in Hty. discriminate.
    - destruct (orNull merchant) as [merch|]; [|discriminate].
      destruct (firstByConfidenceDesc _) as [r|] eqn:E; [|discriminate].
      intros [= <-] _. apply firstByConfidenceDesc_some in E as [Hin _].
      apply filter_In in Hin as [Hin _]. exists r. auto. }
  apply Hrest. intros d Hd.
  destruct (0 <? length (extractKeywords description)); [|discriminate].
  apply scanDescriptions_some in Hd as (pre & p & post & _ & _ & _ & ->). reflexivity.
Qed.

(** With no stored confidence above 1, a merchant match is never acted on:
    its confidence is the row's times 0.8, which cannot exceed the 0.8 the
    classifier asks for, so the learned step of [categorizeTransaction]
    answers only from exact and description matches. *)
Theorem merchant_match_never_trusted categories store description merchant userId m :
  Bounded store ->
  findSimilarPattern categories store userId description merchant = Some m ->
  Match.matchType m = MatchType.merchant ->
  learnedStep categories store description merchant (Some userId) = None.
Proof.
  intros Hb Hfind Hty.
  destruct (learnedStep _ _ _ _ _) as [s|] eqn:E; [|reflexivity]. exfalso.
  apply learnedStep_some in E as (m' & (uid & [= <-] & _ & Hfind' & Hgt) & _).
  rewrite Hfind in Hfind'. injection Hfind' as <-.
  destruct (findSimilarPattern_by_merchant _ _ _ _ _ _ Hfind Hty) as (p & Hin & Hconf).
  rewrite Hconf in Hgt. apply (Qlt_not_le _ _ Hgt).
  apply Qle_trans with (1 * 0.8)%Q.
  - apply Qmult_le_compat_r; [apply Hb; exact Hin|]. unfold Qle. simpl. lia.
  - unfold Qle. simpl. lia.
Qed.

End LearnedClassification.

Lemma corrected_category_is_suggested_witness :
  let suggestion :=
    OllamaService.categorizeTransaction Sample.runtime [Sample.salary; Sample.shopping]
      (LearningService.recordUserCorrection false 7 [] "u" "ACME CORP PAYMENT" None "c-salary" 1)
      Sample.llmDown "Acme Corp Payment" None 100 ["Rent"; "Salary"] (Some "u") in
  CategorySuggestion.category suggestion
    = categoryNameOf [Sample.salary; Sample.shopping] "c-salary"
  /\ CategorySuggestion.reasoning suggestion
     = Json.JStr "Learned from previous exact match"
  /\ exists c, CategorySuggestion.confidence suggestion = Js.Fin c /\ (1 <= c)%Q.
Proof.
  apply (corrected_category_is_suggested Sample.runtime [Sample.salary; Sample.shopping]
           Sample.llmDown 7 [] "u" "ACME CORP PAYMENT" "Acme Corp Payment" None
           "c-salary" 1 100 ["Rent"; "Salary"]).
  - reflexivity.
  - split; apply NoDup_nil; exact I.
  - reflexivity.
  - discriminate.
  - reflexivity.
Defined.

Lemma merchant_match_never_trusted_witness :
  OllamaService.learnedStep [Sample.salary; Sample.shopping] Sample.merchantRows
    "zzz" (Some "amaz") (Some "u") = None.
Proof.
  refine (merchant_match_never_trusted [Sample.salary; Sample.shopping]
            Sample.merchantRows "zzz" (Some "amaz") "u" _ _ _ _).
  - intros p Hp. vm_compute in Hp. 
    repeat (destruct Hp as [<-|Hp]; [vm_compute; discriminate|]). destruct Hp.
  - vm_compute. reflexivity.
  - reflexivity.
Defined.

(** ** Cleanup and statistics *)

Section MaintenanceFacts.
Import Js LearningService LearningMaintenance Facts.

Variable daysBefore : Z -> Z -> Z.

Lemma filter_length_split {A} (f : A -> bool) (l : list A) :
  (length (List.filter f l) + length (List.filter (fun x => negb (f x)) l))%nat
  = length l.
Proof.
  induction l as [|a l IH]; simpl; [reflexivity|].
  destruct (f a); simpl; lia.
Qed.

Lemma filter_filter_none {A} (f : A -> bool) (l : list A) :
  List.filter f (List.filter (fun x => negb (f x)) l) = [].
Proof.
  apply filter_none. intros x Hx. apply filter_In in Hx as [_ Hx].
  destruct (f x); [discriminate|reflexivity].
Qed.

Lemma filter_idem {A} (f : A -> bool) (l : list A) :
  List.filter f (List.filter f l) = List.filter f l.
Proof.
  induction l as [|a l IH]; simpl; [reflexivity|].
  destruct (f a) eqn:E; simpl; [rewrite E|]; congruence.
Qed.

(** [cleanupOldPatterns] deletes exactly the rows of the user that are not
    corrections and are older than the cutoff: every correction, every row
    of another user and every row updated at or after the cutoff survives,
    in the order it had; the number returned is the number of rows that
    went; and a second cleanup at the same instant finds nothing to
    delete. *)
Theorem cleanup_spares_corrections now store userId keepDays :
  let cutoffDate := daysBefore now keepDays in
  let store' := fst (cleanupOldPatterns daysBefore now store userId keepDays) in
  let count := snd (cleanupOldPatterns daysBefore now store userId keepDays) in
  (forall p, In p store' <->
     In p store /\
     (CategoryPattern.userId p <> userId
      \/ CategoryPattern.isUserCorrection p = true
      \/ (cutoffDate <= CategoryPattern.updatedAt p)%Z))
  /\ store' `sublist_of` store
  /\ (count + length store')%nat = length store
  /\ cleanupOldPatterns daysBefore now store' userId keepDays = (store', 0%nat).
Proof.
  intros cutoffDate store' count.
  unfold store', count, cleanupOldPatterns. fold cutoffDate. cbn [fst snd].
  split; [|split; [|split]].
  - intros p. rewrite filter_In. unfold cleanupWhere.
    destruct (bool_decide_reflect (CategoryPattern.userId p = userId)) as [Hu|Hu];
      destruct (CategoryPattern.isUserCorrection p);
      destruct (Z.ltb_spec (CategoryPattern.updatedAt p) cutoffDate); simpl;
      intuition (try discriminate; try lia).
  - induction store as [|a l IH]; simpl; [constructor|].
    destruct (negb _); constructor; exact IH.
  - apply filter_length_split.
  - rewrite filter_idem, filter_filter_none. reflexivity.
Qed.

Lemma filter_andb {A} (f g : A -> bool) (l : list A) :
  List.filter (fun x => f x && g x) l = List.filter g (List.filter f l).
Proof.
  induction l as [|a l IH]; simpl; [reflexivity|].
  destruct (f a); simpl; [|exact IH].
  destruct (g a); simpl; congruence.
Qed.

(** The statistics count what they say, and a cleanup moves them as it
    should: [aiPatterns] is the number of the user's rows that are not
    corrections (never negative); after a cleanup for the same user the
    number of corrections is what it was, and the totals have gone down by
    the count the cleanup returned; the figures of every other user are
    what they were. *)
Theorem stats_count_and_cleanup now store userId keepDays :
  let stats := getCategoryStats store userId in
  let store' := fst (cleanupOldPatterns daysBefore now store userId keepDays) in
  let count := Z.of_nat (snd (cleanupOldPatterns daysBefore now store userId keepDays)) in
  let stats' := getCategoryStats store' userId in
  Stats.aiPatterns stats
    = Z.of_nat (length (List.filter
                          (fun p => ofUser userId p
                                    && negb (CategoryPattern.isUserCorrection p)) store))
  /\ Stats.userCorrections stats' = Stats.userCorrections stats
  /\ Stats.totalPatterns stats' = (Stats.totalPatterns stats - count)%Z
  /\ Stats.aiPatterns stats' = (Stats.aiPatterns stats - count)%Z
  /\ (0 <= Stats.aiPatterns stats')%Z
  /\ forall other, other <> userId ->
       getCategoryStats store' other = getCategoryStats store other.
Proof.
  intros stats store' count stats'.
  assert (forall l u,
            Stats.aiPatterns (getCategoryStats l u)
            = Z.of_nat (length (List.filter
                (fun p => ofUser u p && negb (CategoryPattern.isUserCorrection p)) l)))
    as Hai.
  { intros l u. unfold getCategoryStats. cbn [Stats.aiPatterns].
    rewrite !filter_andb.
    pose proof (filter_length_split CategoryPattern.isUserCorrection
                  (List.filter (ofUser u) l)). lia. }
  remember (cleanupWhere userId (daysBefore now keepDays)) as doomed eqn:Hdoomed.
  assert (store' = List.filter (fun p => negb (doomed p)) store) as Hs
    by (rewrite Hdoomed; reflexivity).
  assert (count = Z.of_nat (length (List.filter doomed store))) as Hc
    by (rewrite Hdoomed; reflexivity).
  assert (forall p, doomed p = true ->
            ofUser userId p = true /\ CategoryPattern.isUserCorrection p = false) as Hd.
  { intros p. rewrite Hdoomed. unfold cleanupWhere, ofUser.
    rewrite !andb_true_iff, negb_true_iff. tauto. }
  clear Hdoomed.
  assert (forall l, length (List.filter (ofUser userId) l)
            = (length (List.filter doomed l)
               + length (List.filter (ofUser userId)
                           (List.filter (fun p => negb (doomed p)) l)))%nat) as Htotal.
  { induction l as [|a l IH]; simpl; [reflexivity|].
    destruct (doomed a) eqn:D; simpl.
    - destruct (Hd a D) as [-> _]. simpl. lia.
    - destruct (ofUser userId a); simpl; lia. }
  assert (forall l, List.filter (fun p => ofUser userId p && CategoryPattern.isUserCorrection p)
                      (List.filter (fun p => negb (doomed p)) l)
                    = List.filter (fun p => ofUser userId p
                                            && CategoryPattern.isUserCorrection p) l) as Hcorr.
  { induction l as [|a l IH]; simpl; [reflexivity|].
    destruct (doomed a) eqn:D; simpl.
    - destruct (Hd a D) as [_ ->]. rewrite andb_false_r. exact IH.
    - destruct (_ && _); simpl; congruence. }
  assert (Stats.userCorrections stats' = Stats.userCorrections stats) as Huc.
  { unfold stats', stats, getCategoryStats. cbn [Stats.userCorrections].
    rewrite Hs, Hcorr. reflexivity. }
  assert (Stats.totalPatterns stats' = (Stats.totalPatterns stats - count)%Z) as Htp.
  { unfold stats', stats, getCategoryStats. cbn [Stats.totalPatterns].
    rewrite Hs, Hc, (Htotal store). lia. }
  assert (Stats.aiPatterns stats' = (Stats.aiPatterns stats - count)%Z) as Hap.
  { assert (forall l u, Stats.aiPatterns (getCategoryStats l u)
              = (Stats.totalPatterns (getCategoryStats l u)
                 - Stats.userCorrections (getCategoryStats l u))%Z) as Hdef
      by reflexivity.
    unfold stats', stats. rewrite !Hdef. fold stats stats'. lia. }
  split; [apply Hai|]. split; [exact Huc|]. split; [exact Htp|]. split; [exact Hap|].
  split; [unfold stats'; rewrite Hai; lia|].
  intros other Hother.
  assert (forall g l, List.filter (fun p => ofUser other p && g p)
                        (List.filter (fun p => negb (doomed p)) l)
                      = List.filter (fun p => ofUser other p && g p) l) as Hsame.
  { intros g. induction l as [|a l IH]; simpl; [reflexivity|].
    destruct (doomed a) eqn:D; simpl.
    - destruct (Hd a D) as [Hu _]. unfold ofUser in Hu |- *.
      apply bool_decide_eq_true in Hu.
      rewrite bool_decide_eq_false_2 by congruence. simpl. exact IH.
    - rewrite IH. reflexivity. }
  unfold getCategoryStats. rewrite Hs.
  rewrite (Hsame CategoryPattern.isUserCorrection).
  assert (List.filter (ofUser other) (List.filter (fun p => negb (doomed p)) store)
          = List.filter (ofUser other) store) as ->; [|reflexivity].
  pose proof (Hsame (fun _ => true) store) as H.
  rewrite (List.filter_ext (ofUser other) (fun p => ofUser other p && true)).
  - rewrite H. apply List.filter_ext. intros p. apply andb_true_r.
  - intros p. symmetry. apply andb_true_r.
Qed.
End MaintenanceFacts.

(** ** Recategorisation of a whole table *)

Section BulkRecategorization.
Import Js RecategorizationService Verdict Facts.

Variable rt : JsRuntime.
Variable llm : Oracle.
Variable categoriesTable : list Category.t.
Variable patternStore : list CategoryPattern.t.

Local Abbreviation verdictOf := (verdict rt llm categoriesTable patternStore).
Local Abbreviation afterLoopOf := (afterLoop rt llm categoriesTable patternStore).
Local Abbreviation settleFor := (settle rt llm categoriesTable patternStore).
Local Abbreviation stepOf := (recategorizeAllStep rt llm categoriesTable patternStore).
Local Abbreviation loopOf := (recategorizeAllLoop rt llm categoriesTable patternStore).

Lemma step_verdict categories userId table t :
  stepOf categories userId table t
  = (List.map (enact t (verdictOf categories userId t)) table,
     bool_decide (is_Some (verdictOf categories userId t))).
Proof.
  unfold recategorizeAllStep, verdict.
  destruct (newCategoryFor _ _) as [c|]; cbn [enact].
  - destruct (_ && _); cbn [enact]; [reflexivity|].
    rewrite List.map_id. reflexivity.
  - rewrite List.map_id. reflexivity.
Qed.

Lemma enact_id t v r : Transaction.id (enact t v r) = Transaction.id r.
Proof.
  unfold enact, applySuggestion. destruct v as [[c conf]|]; [|reflexivity].
  destruct (bool_decide _); reflexivity.
Qed.

Lemma enact_other t v r : Transaction.id r <> Transaction.id t -> enact t v r = r.
Proof.
  intros H. unfold enact, applySuggestion. destruct v as [[c conf]|]; [|reflexivity].
  rewrite bool_decide_eq_false_2 by exact H. reflexivity.
Qed.

Lemma enact_payload t v r : payload (enact t v r) = payload r.
Proof.
  unfold enact, applySuggestion. destruct v as [[c conf]|]; [|reflexivity].
  destruct (bool_decide _); reflexivity.
Qed.

Lemma afterLoop_absent categories userId ts r :
  ~ In (Transaction.id r) (List.map Transaction.id ts) ->
  afterLoopOf categories userId ts r = r.
Proof.
  induction ts as [|t rest IH]; simpl; intros H; [reflexivity|].
  rewrite bool_decide_eq_false_2 by (intros E; apply H; auto).
  apply IH. intros Hin. apply H. auto.
Qed.

Lemma loop_rowwise categories userId ts :
  NoDup (List.map Transaction.id ts) ->
  forall table n,
    loopOf categories userId table n ts
    = (List.map (afterLoopOf categories userId ts) table,
       (n + length (List.filter
                      (fun t => bool_decide (is_Some (verdictOf categories userId t))) ts))%nat).
Proof.
  induction ts as [|t rest IH]; intros Hnd table n.
  - simpl. rewrite List.map_id. f_equal. lia.
  - simpl in Hnd. apply NoDup_cons in Hnd as [Ht Hrest].
    cbn [recategorizeAllLoop]. rewrite step_verdict.
    rewrite (IH Hrest). rewrite List.map_map. f_equal.
    + apply List.map_ext. intros r. cbn [afterLoop].
      destruct (bool_decide_reflect (Transaction.id t = Transaction.id r)) as [E|E].
      * apply afterLoop_absent. rewrite enact_id, <- E.
        intros Hin. apply Ht. apply list_elem_of_In. exact Hin.
      * rewrite enact_other by congruence. reflexivity.
    + cbn [List.filter]. destruct (bool_decide _); simpl; lia.
Qed.

Lemma afterLoop_own categories userId (f : Transaction.t -> bool) table r :
  NoDup (List.map Transaction.id table) -> In r table ->
  afterLoopOf categories userId (List.filter f table) r
  = if f r then enact r (verdictOf categories userId r) r else r.
Proof.
  intros Hnd Hin. induction table as [|a l IH]; [destruct Hin|].
  simpl in Hnd. apply NoDup_cons in Hnd as [Ha Hl].
  assert (forall x, In x l -> Transaction.id a <> Transaction.id x) as Hne.
  { intros x Hx E. apply Ha. apply list_elem_of_In. rewrite E. apply in_map. exact Hx. }
  simpl. destruct Hin as [->|Hin].
  - destruct (f r) eqn:F.
    + simpl. rewrite bool_decide_eq_true_2 by reflexivity. reflexivity.
    + apply afterLoop_absent. intros Hi. apply Ha. apply list_elem_of_In.
      apply in_map_iff in Hi as (x & Hx & Hin). apply filter_In in Hin as [Hin _].
      rewrite <- Hx. apply in_map. exact Hin.
  - destruct (f a); [|auto]. simpl.
    rewrite bool_decide_eq_false_2 by (apply Hne; exact Hin). auto.
Qed.

(** With unique transaction ids, the loop decides on each of the user's
    rows by itself. *)
Lemma all_rowwise table userId :
  NoDup (List.map Transaction.id table) ->
  recategorizeAllTransactions rt llm categoriesTable patternStore table userId
  = (List.map (settleFor userId) table,
     (length (List.filter
        (fun t => bool_decide (is_Some
           (verdictOf (List.filter (visibleTo userId) categoriesTable) userId t)))
        (List.filter (fun t => bool_decide (Transaction.userId t = userId)) table)),
      length (List.filter (fun t => bool_decide (Transaction.userId t = userId)) table))).
Proof.
  intros Hnd. unfold recategorizeAllTransactions.
  rewrite loop_rowwise.
  - f_equal. apply List.map_ext_in. intros r Hr.
    rewrite (afterLoop_own _ _ _ table r Hnd Hr). reflexivity.
  - clear -Hnd. induction table as [|a l IH]; simpl; [constructor|].
    simpl in Hnd. apply NoDup_cons in Hnd as [Ha Hl].
    destruct (bool_decide _); [|auto]. simpl. apply NoDup_cons. split; [|auto].
    intros Hin. apply Ha. apply list_elem_of_In in Hin. apply list_elem_of_In.
    apply in_map_iff in Hin as (x & Hx & Hin). apply filter_In in Hin as [Hin _].
    rewrite <- Hx. apply in_map. exact Hin.
Qed.

Lemma settle_payload userId r : payload (settleFor userId r) = payload r.
Proof. unfold settle. destruct (bool_decide _); [apply enact_payload|reflexivity]. Qed.

Lemma verdict_changes_category categories userId r c conf :
  verdictOf categories userId r = Some (c, conf) ->
  Transaction.categoryId (enact r (Some (c, conf)) r) = Some c
  /\ Transaction.categoryId r <> Some c.
Proof.
  unfold verdict. destruct (newCategoryFor _ _) as [k|]; [|discriminate].
  destruct (bool_decide_reflect (Some (Category.id k) = Transaction.categoryId r)) as [E|E];
    simpl; [discriminate|].
  destruct (gtNum _ _); [|discriminate]. intros [= <- <-]. split.
  - unfold applySuggestion. rewrite bool_decide_eq_true_2 by reflexivity. reflexivity.
  - congruence.
Qed.

Lemma settle_changed userId r :
  negb (bool_decide (Transaction.categoryId r
                     = Transaction.categoryId (settleFor userId r)))
  = bool_decide (Transaction.userId r = userId)
    && bool_decide (is_Some
         (verdictOf (List.filter (visibleTo userId) categoriesTable) userId r)).
Proof.
  unfold settle.
  destruct (bool_decide (Transaction.userId r = userId)); cbn [andb].
  - destruct (verdictOf _ userId r) as [[c conf]|] eqn:V.
    + destruct (verdict_changes_category _ _ _ _ _ V) as [Hc Hne].
      rewrite Hc. rewrite bool_decide_eq_false_2 by exact Hne.
      rewrite bool_decide_eq_true_2 by eauto. reflexivity.
    + cbn [enact]. rewrite bool_decide_eq_true_2 by reflexivity.
      rewrite bool_decide_eq_false_2 by (intros [x Hx]; discriminate). reflexivity.
  - rewrite bool_decide_eq_true_2 by reflexivity. reflexivity.
Qed.

(** With unique transaction ids, [recategorizeAllTransactions] touches
    nothing but the categorisation of the user's own rows: every row keeps
    its place, id, owner, description, merchant and amount; the rows of
    other users are left as they are; [total] is the number of the user's
    rows, and [updated] is exactly the number of rows whose category is no
    longer what it was. *)
Theorem bulk_run_touches_own_categories_only table userId :
  NoDup (List.map Transaction.id table) ->
  let table' := fst (recategorizeAllTransactions rt llm categoriesTable patternStore table userId) in
  let updated := fst (snd (recategorizeAllTransactions rt llm categoriesTable patternStore table userId)) in
  let total := snd (snd (recategorizeAllTransactions rt llm categoriesTable patternStore table userId)) in
  List.map payload table' = List.map payload table
  /\ (forall i r, table !! i = Some r -> Transaction.userId r <> userId ->
        table' !! i = Some r)
  /\ total = length (List.filter
                       (fun t => bool_decide (Transaction.userId t = userId)) table)
  /\ updated = length (recategorized table table')
  /\ (updated <= total)%nat.
Proof.
  intros Hnd table' updated total.
  unfold table', updated, total. rewrite (all_rowwise table userId Hnd). cbn [fst snd].
  split; [|split; [|split; [|split]]].
  - rewrite List.map_map. apply List.map_ext. intros r. apply settle_payload.
  - intros i r Hi Hu.
    change (List.map (settleFor userId) table) with (settleFor userId <$> table).
    rewrite list_lookup_fmap, Hi. simpl. f_equal.
    unfold settle. rewrite bool_decide_eq_false_2 by exact Hu. reflexivity.
  - reflexivity.
  - unfold recategorized. clear Hnd table' updated total.
    induction table as [|a l IH]; [reflexivity|].
    cbn [List.map List.combine List.filter].
    rewrite settle_changed.
    destruct (bool_decide (Transaction.userId a = userId)); cbn [andb]; [|exact IH].
    cbn [List.filter]. destruct (bool_decide _); cbn [length]; [f_equal|]; exact IH.
  - apply List.filter_length_le.
Qed.

Lemma verdict_settled categories userId r :
  (forall t t', payload t = payload t' -> llm t = llm t') ->
  verdictOf categories userId (enact r (verdictOf categories userId r) r) = None.
Proof.
  intros Hllm.
  destruct (verdictOf categories userId r) as [[c conf]|] eqn:V; [|exact V].
  cbn [enact]. revert V. unfold verdict, suggest.
  assert (payload (applySuggestion (Transaction.id r) c conf r) = payload r) as Hp
    by apply (enact_payload r (Some (c, conf)) r).
  rewrite (Hllm _ _ Hp).
  unfold applySuggestion. rewrite bool_decide_eq_true_2 by reflexivity.
  cbn [Transaction.description Transaction.merchant Transaction.amount
       Transaction.categoryId].
  destruct (newCategoryFor _ _) as [k|]; [|reflexivity].
  destruct (bool_decide_reflect (Some (Category.id k) = Transaction.categoryId r)) as [E|E];
    simpl; [discriminate|].
  destruct (gtNum _ _); [|discriminate]. intros [= <- <-].
  rewrite bool_decide_eq_true_2 by reflexivity. reflexivity.
Qed.

(** A second bulk run changes nothing. With unique transaction ids and a
    model that answers the same when asked again about the same
    transaction, running [recategorizeAllTransactions] on the table it has
    just produced leaves that table as it is and reports no update. *)
Theorem bulk_run_idempotent table userId :
  NoDup (List.map Transaction.id table) ->
  (forall t t', payload t = payload t' -> llm t = llm t') ->
  let first := recategorizeAllTransactions rt llm categoriesTable patternStore table userId in
  recategorizeAllTransactions rt llm categoriesTable patternStore (fst first) userId = (fst first, (0%nat, snd (snd first))).
Proof.
  intros Hnd Hllm first. unfold first.
  rewrite (all_rowwise table userId Hnd). cbn [fst snd].
  assert (forall r, Transaction.userId (settleFor userId r) = Transaction.userId r) as Hu.
  { intros r. pose proof (settle_payload userId r) as H. unfold payload in H. congruence. }
  assert (forall r, Transaction.id (settleFor userId r) = Transaction.id r) as Hi.
  { intros r. pose proof (settle_payload userId r) as H. unfold payload in H. congruence. }
  assert (forall r, Transaction.userId r = userId ->
            verdictOf (List.filter (visibleTo userId) categoriesTable) userId
              (settleFor userId r) = None) as Hv.
  { intros r Hr. unfold settle. rewrite bool_decide_eq_true_2 by exact Hr.
    apply verdict_settled. exact Hllm. }
  rewrite all_rowwise.
  - f_equal.
    + rewrite List.map_map. apply List.map_ext. intros r.
      unfold settle at 1. rewrite Hu.
      destruct (bool_decide_reflect (Transaction.userId r = userId)) as [Hr|Hr];
        [|reflexivity].
      rewrite (Hv r Hr). reflexivity.
    + f_equal.
      * rewrite filter_none; [reflexivity|].
        intros x Hx. apply filter_In in Hx as [Hx Hxu].
        apply in_map_iff in Hx as (r & <- & _).
        apply bool_decide_eq_true in Hxu. rewrite Hu in Hxu.
        rewrite (Hv r Hxu). apply bool_decide_eq_false_2. intros [y Hy]. discriminate.
      * clear -Hu. induction table as [|a l IH]; [reflexivity|].
        cbn [List.map List.filter]. rewrite Hu.
        destruct (bool_decide _); simpl; congruence.
  - rewrite List.map_map. rewrite (List.map_ext _ Transaction.id) by exact Hi. exact Hnd.
Qed.
End BulkRecategorization.

Lemma bulk_run_touches_own_categories_only_witness :
  List.map Verdict.payload
    (fst (RecategorizationService.recategorizeAllTransactions Sample.runtime
            Sample.oracleDown
            [Sample.food; Sample.dining] [] [Sample.swiggyOrder] "u"))
  = List.map Verdict.payload [Sample.swiggyOrder].
Proof.
  refine (proj1 (bulk_run_touches_own_categories_only Sample.runtime Sample.oracleDown
                   [Sample.food; Sample.dining] [] [Sample.swiggyOrder] "u" _)).
  apply NoDup_singleton.
Defined.


Lemma bulk_run_idempotent_witness :
  let first := RecategorizationService.recategorizeAllTransactions Sample.runtime
                 Sample.oracleDown [Sample.food; Sample.dining] []
                 [Sample.swiggyOrder] "u" in
  RecategorizationService.recategorizeAllTransactions Sample.runtime Sample.oracleDown
    [Sample.food; Sample.dining] [] (fst first) "u"
  = (fst first, (0%nat, snd (snd first))).
Proof.
  apply (bulk_run_idempotent Sample.runtime Sample.oracleDown
           [Sample.food; Sample.dining] [] [Sample.swiggyOrder] "u").
  - apply NoDup_singleton.
  - reflexivity.
Defined.

(** ** A manual correction and the runs that follow it *)

Section CorrectionThenRecategorization.
Import Js LearningService LearningMaintenance OllamaService RecategorizationService
  LearningRoutes Verdict Describe Facts.

Variable rt : JsRuntime.
Variable llm : Oracle.

Lemma NoDup_map_inj {A B} (f : A -> B) (l : list A) x y :
  NoDup (List.map f l) -> In x l -> In y l -> f x = f y -> x = y.
Proof.
  induction l as [|a l IH]; simpl; intros Hnd Hx Hy E; [destruct Hx|].
  apply NoDup_cons in Hnd as [Ha Hl].
  destruct Hx as [->|Hx], Hy as [->|Hy]; auto.
  - exfalso. apply Ha. apply list_elem_of_In. rewrite E. apply in_map. exact Hy.
  - exfalso. apply Ha. apply list_elem_of_In. rewrite <- E. apply in_map. exact Hx.
Qed.

(** What the classifier answers for a transaction that has just been
    corrected through PUT /:id/category. *)
Lemma suggestion_after_put now db userId id categoryId db' message row :
  NoDup (List.map Category.id (Db.categories db)) ->
  DistinctNames userId (Db.categories db) ->
  WellKeyed (Db.patterns db) ->
  userId <> EmptyString ->
  putCategory false false now db userId id (Some categoryId) = (db', Status200 message row) ->
  orNull (Transaction.merchant row) = Transaction.merchant row ->
  let categories := List.filter (visibleTo userId) (Db.categories db') in
  let suggestion := suggest rt llm (Db.categories db') (Db.patterns db') categories row
                      userId in
  In row (Db.transactions db')
  /\ Transaction.id row = id
  /\ Transaction.userId row = userId
  /\ Transaction.categoryId row = Some categoryId
  /\ Transaction.llmCategorized row = false
  /\ (exists c, CategorySuggestion.confidence suggestion = Fin c /\ (1 <= c)%Q)
  /\ exists category,
       newCategoryFor categories suggestion = Some category
       /\ Category.id category = categoryId.
Proof.
  intros Hcats Hnames Hwk Hu Hput Hm categories suggestion.
  unfold putCategory in Hput.
  destruct (orNull (Some categoryId)) as [cid|] eqn:Hcid; [|discriminate].
  apply orNull_some in Hcid as [[= <-] Hne].
  destruct (List.find _ (Db.transactions db)) as [t|] eqn:Ft; [|discriminate].
  destruct (List.find _ (Db.categories db)) as [cat|] eqn:Fc; [|discriminate].
  injection Hput as <- _ <-.
  apply List.find_some in Ft as [Ht Htk].
  apply andb_true_iff in Htk as [Hid Htu]. apply bool_decide_eq_true in Hid, Htu.
  apply List.find_some in Fc as [Hc Hck].
  apply andb_true_iff in Hck as [Hcid Hvis]. apply bool_decide_eq_true in Hcid.
  assert (manualUpdate id categoryId t
          = Transaction.mk (Transaction.id t) (Transaction.userId t)
              (Transaction.description t) (Transaction.merchant t) (Transaction.amount t)
              (Some categoryId) false None) as Hrow.
  { unfold manualUpdate. rewrite bool_decide_eq_true_2 by exact Hid. reflexivity. }
  rewrite Hrow in Hm. cbn [Transaction.merchant] in Hm.
  subst suggestion categories. cbn [Db.transactions Db.categories Db.patterns].
  split; [apply in_map; exact Ht|]. rewrite Hrow.
  cbn [Transaction.id Transaction.userId Transaction.categoryId Transaction.llmCategorized].
  split; [exact Hid|]. split; [exact Htu|]. split; [reflexivity|]. split; [reflexivity|].
  destruct (learned_after_correction (Db.categories db) now (Db.patterns db) userId
              (Transaction.description t) (Transaction.description t)
              (Transaction.merchant t) categoryId 1 Hm Hwk eq_refl Hu)
    as (c & Hstep & Hle); [reflexivity|].
  unfold suggest, categorizeTransaction.
  cbn [Transaction.description Transaction.merchant Transaction.amount].
  unfold recordUserCorrection in Hstep. cbv iota in Hstep. rewrite Hstep.
  split; [exists c; split; [reflexivity|exact Hle]|].
  unfold newCategoryFor, learnedSuggestion.
  cbn [CategorySuggestion.category Match.categoryName].
  assert (categoryNameOf (Db.categories db) categoryId = Category.name cat) as Hname.
  { unfold categoryNameOf.
    destruct (List.find _ (Db.categories db)) as [c0|] eqn:F0.
    - apply List.find_some in F0 as [Hc0 Hk0]. apply bool_decide_eq_true in Hk0.
      rewrite (NoDup_map_inj Category.id _ c0 cat Hcats Hc0 Hc); congruence.
    - pose proof (List.find_none _ _ F0 cat Hc) as Hk.
      apply bool_decide_eq_false in Hk. contradiction. }
  rewrite Hname.
  destruct (List.find _ (List.filter (visibleTo userId) (Db.categories db))) as [c1|] eqn:F1.
  - exists c1. split; [reflexivity|].
    apply List.find_some in F1 as [Hc1 Hk1]. apply bool_decide_eq_true in Hk1.
    apply filter_In in Hc1 as [Hc1 Hv1].
    rewrite (Hnames c1 cat Hc1 Hc Hv1 Hvis Hk1). exact Hcid.
  - exfalso.
    assert (In cat (List.filter (visibleTo userId) (Db.categories db))) as Hin
      by (apply filter_In; auto).
    pose proof (List.find_none _ _ F1 cat Hin) as Hk.
    apply bool_decide_eq_false in Hk. contradiction.
Qed.

(** A bulk run respects a manual correction, a single run does not keep its
    mark. After a successful PUT /:id/category, under unique transaction
    and category ids, distinct visible category names, a well-keyed pattern
    table, a non-empty user id and a merchant that is null or non-empty:
    [recategorizeAllTransactions] leaves the corrected transaction exactly
    as the correction left it, while [recategorizeTransaction] on it keeps
    the category but marks the row as categorised by the model. *)
Theorem correction_survives_bulk_run now db userId id categoryId db' message row :
  NoDup (List.map Transaction.id (Db.transactions db)) ->
  NoDup (List.map Category.id (Db.categories db)) ->
  DistinctNames userId (Db.categories db) ->
  WellKeyed (Db.patterns db) ->
  userId <> EmptyString ->
  putCategory false false now db userId id (Some categoryId) = (db', Status200 message row) ->
  orNull (Transaction.merchant row) = Transaction.merchant row ->
  let bulk := fst (recategorizeAllTransactions rt llm (Db.categories db') (Db.patterns db')
                     (Db.transactions db') userId) in
  let single := recategorizeTransaction rt llm (Db.categories db') (Db.patterns db')
                  (Db.transactions db') id in
  In row bulk
  /\ Transaction.categoryId row = Some categoryId
  /\ Transaction.llmCategorized row = false
  /\ snd single = Some true
  /\ exists row', In row' (fst single)
       /\ payload row' = payload row
       /\ Transaction.categoryId row' = Some categoryId
       /\ Transaction.llmCategorized row' = true.
Proof.
  intros Htx Hcats Hnames Hwk Hu Hput Hm bulk single.
  destruct (suggestion_after_put now db userId id categoryId db' message row
              Hcats Hnames Hwk Hu Hput Hm)
    as (Hin & Hid & Hru & Hrc & Hrl & (c & Hconf & Hc1) & (cat & Hnew & Hcat)).
  assert (NoDup (List.map Transaction.id (Db.transactions db'))) as Htx'.
  { unfold putCategory in Hput.
    destruct (orNull (Some categoryId)) as [cid|] eqn:Hcid; [|discriminate].
    destruct (List.find _ (Db.transactions db)) as [t|]; [|discriminate].
    destruct (List.find _ (Db.categories db)) as [k|]; [|discriminate].
    injection Hput as <- _ _. cbn [Db.transactions].
    rewrite List.map_map. rewrite (List.map_ext _ Transaction.id); [exact Htx|].
    intros r. unfold manualUpdate. destruct (bool_decide _); reflexivity. }
  assert (gtNum (CategorySuggestion.confidence
                   (suggest rt llm (Db.categories db') (Db.patterns db')
                      (List.filter (visibleTo userId) (Db.categories db')) row userId))
            0.7 = true) as Hgt.
  { rewrite Hconf. cbn [gtNum]. apply Qgtb_true.
    eapply Qlt_le_trans; [|exact Hc1]. reflexivity. }
  split; [|split; [exact Hrc|split; [exact Hrl|]]].
  - unfold bulk. rewrite (all_rowwise rt llm _ _ _ userId Htx'). cbn [fst].
    assert (settle rt llm (Db.categories db') (Db.patterns db') userId row = row) as <-.
    { unfold settle. rewrite bool_decide_eq_true_2 by exact Hru.
      unfold verdict. rewrite Hnew, Hcat, Hrc.
      rewrite bool_decide_eq_true_2 by reflexivity. reflexivity. }
    apply in_map. exact Hin.
  - unfold single, recategorizeTransaction.
    destruct (List.find _ (Db.transactions db')) as [t|] eqn:F.
    + apply List.find_some in F as [Ht Hk]. apply bool_decide_eq_true in Hk.
      assert (t = row) as ->.
      { apply (NoDup_map_inj Transaction.id _ t row Htx' Ht Hin). congruence. }
      rewrite Hru, Hnew, Hgt. cbn [fst snd]. split; [reflexivity|].
      exists (applySuggestion id (Category.id cat)
                (CategorySuggestion.confidence
                   (suggest rt llm (Db.categories db') (Db.patterns db')
                      (List.filter (visibleTo userId) (Db.categories db')) row userId))
                row).
      split; [apply in_map; exact Hin|].
      unfold applySuggestion. rewrite bool_decide_eq_true_2 by exact Hid.
      split; [reflexivity|]. split; [cbn; congruence|reflexivity].
    + exfalso. pose proof (List.find_none _ _ F row Hin) as Hk.
      apply bool_decide_eq_false in Hk. contradiction.
Qed.
End CorrectionThenRecategorization.

Lemma correction_survives_bulk_run_witness :
  let db' := fst (LearningRoutes.putCategory false false 5 Sample.db "u" "t1"
                    (Some "c-dining")) in
  let row := LearningRoutes.manualUpdate "t1" "c-dining" Sample.swiggyOrder in
  In row (fst (RecategorizationService.recategorizeAllTransactions Sample.runtime
                 Sample.oracleDown (LearningRoutes.Db.categories db')
                 (LearningRoutes.Db.patterns db') (LearningRoutes.Db.transactions db') "u"))
  /\ Transaction.categoryId row = Some "c-dining"
  /\ Transaction.llmCategorized row = false.
Proof.
  pose proof (correction_survives_bulk_run Sample.runtime Sample.oracleDown 5 Sample.db
                "u" "t1" "c-dining"
                (fst (LearningRoutes.putCategory false false 5 Sample.db "u" "t1"
                        (Some "c-dining")))
                "Transaction category updated and learned for future use"
                (LearningRoutes.manualUpdate "t1" "c-dining" Sample.swiggyOrder)) as H.
  cbv zeta in H.
  destruct H as (H1 & H2 & H3 & _).
  - apply NoDup_singleton.
  - apply NoDup_cons. split; [|apply NoDup_singleton].
    intros Hin. apply list_elem_of_singleton in Hin. discriminate.
  - intros c c' [<-|[<-|[]]] [<-|[<-|[]]] _ _ Hn; try reflexivity; discriminate.
  - split; apply NoDup_nil; exact I.
  - discriminate.
  - vm_compute. reflexivity.
  - reflexivity.
  - cbv zeta. split; [exact H1|]. split; [exact H2|exact H3].
Defined.

(** ** The asset table over several transactions *)

Section AssetTableFacts.
Import Js AssetHandler Views Stated Describe Facts.

Lemma sellFrom_identity rowId amount now a :
  assetIdentity (sellFrom rowId amount now a) = assetIdentity a.
Proof. unfold sellFrom. destruct (Nat.eqb _ _); reflexivity. Qed.

Lemma addTo_identity rowId amount now a :
  assetIdentity (addTo rowId amount now a) = assetIdentity a.
Proof. unfold addTo. destruct (Nat.eqb _ _); reflexivity. Qed.

(** The three shapes a call can leave the table in. *)
Lemma handle_cases fault now assets categoryName transaction userId :
  let assets' := handleAssetTransaction fault now assets categoryName transaction userId in
  assets' = assets
  \/ (exists e, In e assets /\ Asset.userId e = userId
        /\ (assets' = List.map (sellFrom (Asset.id e) (AssetTransaction.amount transaction)
                                  now) assets
            \/ assets' = List.map (addTo (Asset.id e) (AssetTransaction.amount transaction)
                                     now) assets))
  \/ (exists created, assets' = assets ++ [created]
        /\ Asset.id created = freshId assets).
Proof.
  intros assets'. unfold assets', handleAssetTransaction.
  destruct (orNull categoryName) as [name|]; [|auto].
  destruct (mappingFor name assetCategoryMapping) as [info|]; [|auto].
  destruct fault; [auto|].
  destruct (List.find _ assets) as [e|] eqn:F.
  - right. left. apply List.find_some in F as [Hin Hk]. exists e.
    split; [exact Hin|]. split.
    + unfold assetWhere in Hk. rewrite !andb_true_iff, !bool_decide_eq_true in Hk. tauto.
    + destruct (AssetInfo.isSale info); auto.
  - destruct (AssetInfo.isSale info); [auto|].
    right. right. eexists. split; reflexivity.
Qed.

(** With unique identifiers, an update by the identifier of a row of the
    user leaves the rows of the others alone. *)
Lemma update_spares_others (f : nat -> Asset.t -> Asset.t) (assets : list Asset.t) e userId :
  (forall rowId a, Asset.id a <> rowId -> f rowId a = a) ->
  NoDup (List.map Asset.id assets) -> In e assets -> Asset.userId e = userId ->
  forall i a, assets !! i = Some a -> Asset.userId a <> userId ->
    List.map (f (Asset.id e)) assets !! i = Some a.
Proof.
  intros Hf Hnd He Hu i a Hi Hau.
  change (List.map ?g assets) with (g <$> assets).
  rewrite list_lookup_fmap, Hi. simpl. f_equal. apply Hf. intros E.
  apply Hau. rewrite <- Hu. f_equal.
  apply list_elem_of_lookup_2, list_elem_of_In in Hi.
  clear -Hnd Hi He E. induction assets as [|x l IH]; [destruct Hi|].
  simpl in Hnd. apply NoDup_cons in Hnd as [Hx Hl].
  destruct Hi as [->|Hi], He as [->|He]; auto.
  - exfalso. apply Hx. apply list_elem_of_In. rewrite E. apply in_map. exact He.
  - exfalso. apply Hx. apply list_elem_of_In. rewrite <- E. apply in_map. exact Hi.
Qed.

(** A name that the mapping object only inherits is looked up all the
    same, and what is found has no category, no subcategory and no sale
    mark. *)
Lemma inherited_lookup name :
  In name objectPrototypeKeys ->
  orNull (Some name) = Some name
  /\ mappingFor name assetCategoryMapping = Some (AssetInfo.mk None None false).
Proof.
  intros H. repeat (destruct H as [<-|H]; [split; reflexivity|]). destruct H.
Qed.

(** Whatever the transaction, its category and the outcome of the database
    calls, [handleAssetTransaction] keeps the table in shape: no asset is
    deleted or moved, at most one is appended; every asset keeps its id,
    owner, name, category, subcategory, purchase value and description (a
    later purchase never raises the purchase value); ids stay unique; and
    with unique ids the assets of other users are left exactly as they
    were.  A category whose name is no key of the mapping table but a
    member every object inherits, such as [constructor], is not skipped:
    it is handled as a purchase on the first asset of the user with the
    derived name, whatever the category of that asset. *)
Theorem asset_table_shape_kept fault now assets categoryName transaction userId :
  let assets' := handleAssetTransaction fault now assets categoryName transaction userId in
  (exists added, List.map assetIdentity assets' = List.map assetIdentity assets ++ added
                 /\ (length added <= 1)%nat)
  /\ (NoDup (List.map Asset.id assets) -> NoDup (List.map Asset.id assets'))
  /\ (NoDup (List.map Asset.id assets) ->
      forall i a, assets !! i = Some a -> Asset.userId a <> userId ->
        assets' !! i = Some a)
  /\ (forall name pre e post,
        categoryName = Some name -> In name objectPrototypeKeys -> fault = false ->
        assets = pre ++ e :: post ->
        Asset.userId e = userId /\ Asset.name e = assetNameOf transaction ->
        (forall a, In a pre ->
           ~ (Asset.userId a = userId /\ Asset.name a = assetNameOf transaction)) ->
        exists e', assets' !! length pre = Some e'
          /\ purchased (AssetTransaction.amount transaction) e e').
Proof.
  intros assets'.
  assert (forall rowId a, Asset.id a <> rowId ->
            sellFrom rowId (AssetTransaction.amount transaction) now a = a) as Hsell.
  { intros rowId a Hne. unfold sellFrom. apply Nat.eqb_neq in Hne. rewrite Hne. reflexivity. }
  assert (forall rowId a, Asset.id a <> rowId ->
            addTo rowId (AssetTransaction.amount transaction) now a = a) as Hadd.
  { intros rowId a Hne. unfold addTo. apply Nat.eqb_neq in Hne. rewrite Hne. reflexivity. }
  split; [|split; [|split]].
  - destruct (handle_cases fault now assets categoryName transaction userId)
      as [H|[(e & He & Hu & [H|H])|(created & H & Hid)]];
      fold assets' in H; rewrite H; clear H.
    + exists []. rewrite app_nil_r. split; [reflexivity|simpl; lia].
    + exists []. rewrite app_nil_r, List.map_map. split; [|simpl; lia].
      apply List.map_ext. intros a. apply sellFrom_identity.
    + exists []. rewrite app_nil_r, List.map_map. split; [|simpl; lia].
      apply List.map_ext. intros a. apply addTo_identity.
    + exists [assetIdentity created]. rewrite List.map_app. split; [reflexivity|simpl; lia].
  - intros Hnd.
    destruct (handle_cases fault now assets categoryName transaction userId)
      as [H|[(e & He & Hu & [H|H])|(created & H & Hid)]];
      fold assets' in H; rewrite H; clear H.
    + exact Hnd.
    + rewrite List.map_map. rewrite (List.map_ext _ Asset.id); [exact Hnd|].
      intros a. unfold sellFrom. destruct (Nat.eqb _ _); reflexivity.
    + rewrite List.map_map. rewrite (List.map_ext _ Asset.id); [exact Hnd|].
      intros a. unfold addTo. destruct (Nat.eqb _ _); reflexivity.
    + rewrite List.map_app. simpl. apply NoDup_app. split; [exact Hnd|].
      split; [|apply NoDup_singleton].
      intros x Hx Hx'. apply list_elem_of_singleton in Hx'. subst x.
      apply list_elem_of_In, in_map_iff in Hx as (a & Ha & Hin).
      pose proof (asset_id_below_fresh assets a Hin). lia.
  - intros Hnd i a Hi Hau.
    destruct (handle_cases fault now assets categoryName transaction userId)
      as [H|[(e & He & Hu & [H|H])|(created & H & Hid)]];
      fold assets' in H; rewrite H; clear H.
    + exact Hi.
    + apply (update_spares_others
               (fun rowId => sellFrom rowId (AssetTransaction.amount transaction) now)
               assets e userId); assumption.
    + apply (update_spares_others
               (fun rowId => addTo rowId (AssetTransaction.amount transaction) now)
               assets e userId); assumption.
    + apply lookup_app_l_Some. exact Hi.
  - intros name pre e post -> Hin -> Hsplit [Hu Hn] Hpre.
    destruct (inherited_lookup name Hin) as [Hkey Hlook].
    assert (forall a, assetWhere userId (assetNameOf transaction)
                        (AssetInfo.mk None None false) a = true
                      <-> Asset.userId a = userId /\ Asset.name a = assetNameOf transaction)
      as Hwhere.
    { intros a. unfold assetWhere, fieldIs. cbn [AssetInfo.category AssetInfo.subCategory].
      rewrite !andb_true_r, andb_true_iff, !bool_decide_eq_true. tauto. }
    assert (assets' = List.map (addTo (Asset.id e) (AssetTransaction.amount transaction) now)
                        assets) as ->.
    { unfold assets', handleAssetTransaction. rewrite Hkey, Hlook.
      fold (assetNameOf transaction).
      rewrite (find_first _ assets pre e post Hsplit).
      - reflexivity.
      - apply Hwhere. split; assumption.
      - intros y Hy. destruct (assetWhere _ _ _ y) eqn:E; [|reflexivity].
        exfalso. apply (Hpre y Hy). apply Hwhere. exact E. }
    exists (addTo (Asset.id e) (AssetTransaction.amount transaction) now e). split.
    + change (List.map ?g assets) with (g <$> assets).
      rewrite list_lookup_fmap, Hsplit, list_lookup_middle by reflexivity. reflexivity.
    + apply addTo_purchased. reflexivity.
Qed.
End AssetTableFacts.

Section AssetSequences.
Import Js AssetHandler Views Stated Describe Facts.

Lemma find_map_same {A} (p : A -> bool) (f : A -> A) (l : list A) :
  (forall x, p (f x) = p x) ->
  List.find p (List.map f l) = option_map f (List.find p l).
Proof.
  intros H. induction l as [|a l IH]; simpl; [reflexivity|].
  rewrite H. destruct (p a); [reflexivity|exact IH].
Qed.

Lemma find_ext {A} (p q : A -> bool) (l : list A) :
  (forall x, p x = q x) -> List.find p l = List.find q l.
Proof.
  intros H. induction l as [|a l IH]; simpl; [reflexivity|].
  rewrite H, IH. reflexivity.
Qed.

Lemma assetWhere_sellFrom userId name info rowId amount now a :
  assetWhere userId name info (sellFrom rowId amount now a) = assetWhere userId name info a.
Proof. unfold sellFrom. destruct (Nat.eqb _ _); reflexivity. Qed.

Lemma assetWhere_addTo userId name info rowId amount now a :
  assetWhere userId name info (addTo rowId amount now a) = assetWhere userId name info a.
Proof. unfold addTo. destruct (Nat.eqb _ _); reflexivity. Qed.

Lemma assetWhere_same_key userId name info info' :
  AssetInfo.category info = AssetInfo.category info' ->
  AssetInfo.subCategory info = AssetInfo.subCategory info' ->
  forall a, assetWhere userId name info a = assetWhere userId name info' a.
Proof. intros Hc Hs a. unfold assetWhere. rewrite Hc, Hs. reflexivity. Qed.

(** A sale followed by a purchase, and a purchase followed by a sale, on
    the asset both bear on: the purchase and the sale category map to the
    same asset category and subcategory and both transactions derive the
    same asset name.  After sale then purchase the asset holds what the
    sale left plus the purchase, but its active flag is the one the sale
    set: an asset sold down to zero and bought again holds the amount
    bought and is still inactive.  After purchase then sale the asset is
    what the sale makes of what the purchase made: the sum less the sale,
    not below zero, the purchase counter up by one.  The sums are rounded
    as binary64 numbers are, so a
    sale need not undo a purchase of the same amount: buying 0.1 and 0.2
    and selling 0.3 leaves 2^-54, on an asset that stays active. *)
Theorem asset_sale_and_purchase_in_sequence
    now1 now2 assets buy sell ibuy isell tb ts userId pre e post :
  ownProperty buy assetCategoryMapping = Some ibuy -> AssetInfo.isSale ibuy = false ->
  ownProperty sell assetCategoryMapping = Some isell -> AssetInfo.isSale isell = true ->
  AssetInfo.category ibuy = AssetInfo.category isell ->
  AssetInfo.subCategory ibuy = AssetInfo.subCategory isell ->
  assetNameOf tb = assetNameOf ts ->
  matchingAsset userId (assetNameOf ts) isell assets pre e post ->
  let value := Asset.currentValue e in
  let sale := abs (AssetTransaction.amount ts) in
  let purchase := abs (AssetTransaction.amount tb) in
  let saleFirst :=
    handleAssetTransaction false now2
      (handleAssetTransaction false now1 assets (Some sell) ts userId)
      (Some buy) tb userId in
  let purchaseFirst :=
    handleAssetTransaction false now2
      (handleAssetTransaction false now1 assets (Some buy) tb userId)
      (Some sell) ts userId in
  (exists mid r, saleFirst !! length pre = Some r
     /\ sold (AssetTransaction.amount ts) e mid
     /\ purchased (AssetTransaction.amount tb) mid r
     /\ ((0 <? value - sale)%float = false ->
         Asset.isActive r = false
         /\ (is_nan (value - sale) = false -> Asset.currentValue r = purchase)))
  /\ (exists mid r, purchaseFirst !! length pre = Some r
        /\ purchased (AssetTransaction.amount tb) e mid
        /\ sold (AssetTransaction.amount ts) mid r)
  /\ List.map ledgerView Sample.afterSmallTrades = [(0x1p-54, Some 2, true)]%float.
Proof.
  intros Hb Hbs Hs Hss Hcat Hsub Hname (Hsplit & Hkey & Hpre)
    value sale purchase saleFirst purchaseFirst.
  assert (List.find (assetWhere userId (assetNameOf ts) isell) assets = Some e) as Hfind.
  { apply (find_first _ assets pre e post Hsplit).
    - eapply assetWhere_keyedBy; eauto.
    - intros y Hy. eapply assetWhere_not_keyedBy; eauto. }
  assert (List.find (assetWhere userId (assetNameOf tb) ibuy) assets = Some e) as Hfind'.
  { rewrite Hname. rewrite <- Hfind. apply find_ext.
    apply assetWhere_same_key; assumption. }
  assert (forall (f g : Asset.t -> Asset.t),
            List.map g (List.map f assets) !! length pre = Some (g (f e))) as Hat.
  { intros f g. rewrite List.map_map.
    change (List.map ?h assets) with (h <$> assets).
    rewrite list_lookup_fmap, Hsplit, list_lookup_middle by reflexivity. reflexivity. }
  split; [|split].
  - set (f := sellFrom (Asset.id e) (AssetTransaction.amount ts) now1).
    set (g := addTo (Asset.id e) (AssetTransaction.amount tb) now2).
    assert (Asset.id (f e) = Asset.id e) as Hid.
    { unfold f, sellFrom. rewrite Nat.eqb_refl. reflexivity. }
    assert (saleFirst = List.map g (List.map f assets)) as Heq.
    { unfold saleFirst.
      rewrite (handle_mapped now1 assets sell isell ts userId Hs). cbv zeta.
      fold (assetNameOf ts). rewrite Hfind, Hss. fold f.
      rewrite (handle_mapped now2 (List.map f assets) buy ibuy tb userId Hb). cbv zeta.
      fold (assetNameOf tb).
      rewrite find_map_same by (intros x; apply assetWhere_sellFrom).
      rewrite Hfind'. cbn [option_map]. rewrite Hbs, Hid. reflexivity. }
    pose proof (sellFrom_sold (Asset.id e) (AssetTransaction.amount ts) now1 e eq_refl)
      as Hsold.
    pose proof (addTo_purchased (Asset.id e) (AssetTransaction.amount tb) now2 (f e) Hid)
      as Hbought.
    fold f in Hsold. fold g in Hbought.
    exists (f e), (g (f e)). split; [rewrite Heq; apply Hat|].
    split; [exact Hsold|]. split; [exact Hbought|].
    intros Hall.
    destruct Hsold as (_ & _ & _ & Hnum & Hnan). cbv zeta in Hnum, Hnan.
    fold value sale in Hnum, Hnan.
    destruct Hbought as (_ & Hv & Hi & _). fold purchase in Hv. rewrite Hi, Hv.
    destruct (is_nan (value - sale)%float) eqn:N.
    + destruct (Hnan eq_refl) as [_ Hoff]. split; [exact Hoff|discriminate].
    + destruct (Hnum eq_refl) as [Hleft Hoff]. rewrite Hall in Hleft.
      split; [apply Hoff; exact Hleft|].
      intros _. rewrite Hleft. apply zero_plus_abs.
  - set (f := addTo (Asset.id e) (AssetTransaction.amount tb) now1).
    set (g := sellFrom (Asset.id e) (AssetTransaction.amount ts) now2).
    assert (Asset.id (f e) = Asset.id e) as Hid.
    { unfold f, addTo. rewrite Nat.eqb_refl. reflexivity. }
    assert (purchaseFirst = List.map g (List.map f assets)) as Heq.
    { unfold purchaseFirst.
      rewrite (handle_mapped now1 assets buy ibuy tb userId Hb). cbv zeta.
      fold (assetNameOf tb). rewrite Hfind', Hbs. fold f.
      rewrite (handle_mapped now2 (List.map f assets) sell isell ts userId Hs). cbv zeta.
      fold (assetNameOf ts).
      rewrite find_map_same by (intros x; apply assetWhere_addTo).
      rewrite Hfind. cbn [option_map]. rewrite Hss, Hid. reflexivity. }
    exists (f e), (g (f e)). split; [rewrite Heq; apply Hat|]. split.
    + apply addTo_purchased. reflexivity.
    + apply sellFrom_sold. exact Hid.
  - vm_compute. reflexivity.
Qed.

Lemma asset_sale_and_purchase_in_sequence_witness :
  exists r,
    handleAssetTransaction false 4
      (handleAssetTransaction false 3 Sample.afterFirstSale (Some "Stock Sale")
         Sample.stockSell6000 "u")
      (Some "Stock Purchase") Sample.stockBuy "u" !! 0%nat = Some r
    /\ Asset.isActive r = false /\ Asset.currentValue r = 10000%float.
Proof.
  destruct (asset_sale_and_purchase_in_sequence 3 4 Sample.afterFirstSale
              "Stock Purchase" "Stock Sale"
              (entry "Stocks" "Individual Stocks" false)
              (entry "Stocks" "Individual Stocks" true)
              Sample.stockBuy Sample.stockSell6000 "u" []
              (Asset.mk 1 "u" "Zerodha" (Some "Stocks") (Some "Individual Stocks") 6000
                 (Some 10000%float) (Some 1%float)
                 (Some "Auto-created from transaction: ZERODHA INFY BUY") true 2)
              []
              eq_refl eq_refl eq_refl eq_refl eq_refl eq_refl eq_refl)
    as [(mid & r & Hat & _ & _ & Hmore) _].
  - split; [vm_compute; reflexivity|]. split; [repeat split|]. intros a [].
  - exists r. split; [exact Hat|].
    destruct Hmore as [Hi Hv]; [vm_compute; reflexivity|].
    split; [exact Hi|]. apply Hv. vm_compute. reflexivity.
Defined.
End AssetSequences.

(** ** Deleting a category *)

Section CategoryRouteFacts.
Import Js CategoryRoutes Facts.

Lemma count_zero {A} (f : A -> bool) (l : list A) :
  (0 <? length (List.filter f l))%nat = false -> forall x, In x l -> f x = false.
Proof.
  intros H x Hx. destruct (f x) eqn:E; [|reflexivity].
  assert (In x (List.filter f l)) as Hin by (apply filter_In; auto).
  destruct (List.filter f l); [destruct Hin|]. simpl in H. discriminate.
Qed.

(** DELETE /:id never leaves a dangling reference and never removes what it
    should not. If every category that a transaction or a subcategory points
    to was in the table, the same holds afterwards. The table changes only
    with the answer 200; then the rows with the requested id are gone and
    every other row is kept, and, ids being unique, every default category
    and every category of another user is still there. *)
Theorem delete_keeps_references fault db reqUserId id :
  let db' := fst (deleteCategory fault db reqUserId id) in
  let response := snd (deleteCategory fault db reqUserId id) in
  (Referenced db -> Referenced db')
  /\ ((forall message, response <> Status200 message) -> db' = db)
  /\ Db.transactions db' = Db.transactions db
  /\ (forall c, In c (Db.categories db') ->  In c (Db.categories db))
  /\ (forall c, In c (Db.categories db) -> CategoryRow.id c <> id ->
        In c (Db.categories db'))
  /\ (NoDup (List.map CategoryRow.id (Db.categories db)) ->
      forall c, In c (Db.categories db) ->
        CategoryRow.isDefault c = true \/ CategoryRow.userId c <> Some reqUserId ->
        In c (Db.categories db')).
Proof.
  intros db' response. unfold db', response, deleteCategory.
  destruct (List.find _ (Db.categories db)) as [category|] eqn:F;
    [|cbn [fst snd]; repeat (split; [solve [auto]|]); auto].
  destruct (CategoryRow.isDefault category) eqn:Hdef;
    [cbn [fst snd]; repeat (split; [solve [auto]|]); auto|].
  destruct (0 <? transactionCount db id)%nat eqn:Ht;
    [cbn [fst snd]; repeat (split; [solve [auto]|]); auto|].
  destruct (0 <? childrenCount db id)%nat eqn:Hc;
    [cbn [fst snd]; repeat (split; [solve [auto]|]); auto|].
  destruct fault; [cbn [fst snd]; repeat (split; [solve [auto]|]); auto|].
  cbn [fst snd Db.categories Db.transactions].
  apply List.find_some in F as [Hin Hk].
  apply andb_true_iff in Hk as [Hid Hu]. apply bool_decide_eq_true in Hid, Hu.
  pose proof (count_zero _ _ Ht) as Hnot. pose proof (count_zero _ _ Hc) as Hnoc.
  assert (forall c, In c (Db.categories db) -> CategoryRow.id c <> id ->
            In c (List.filter (fun c => negb (bool_decide (CategoryRow.id c = id)))
                    (Db.categories db))) as Hkeep.
  { intros c Hc' Hne. apply filter_In. split; [exact Hc'|].
    rewrite bool_decide_eq_false_2 by exact Hne. reflexivity. }
  split; [|split; [|split; [|split; [|split]]]].
  - intros [Htx Hpar]. split; cbn [Db.categories Db.transactions].
    + intros t cid Hin' Hcid. destruct (Htx t cid Hin' Hcid) as (c & Hc' & Hcid').
      exists c. split; [|exact Hcid']. apply Hkeep; [exact Hc'|].
      intros E. pose proof (Hnot t Hin') as Hf. cbv beta in Hf.
      apply bool_decide_eq_false in Hf. apply Hf. congruence.
    + intros k pid Hk Hpid. apply filter_In in Hk as [Hk _].
      destruct (Hpar k pid Hk Hpid) as (c & Hc' & Hcid').
      exists c. split; [|exact Hcid']. apply Hkeep; [exact Hc'|].
      intros E. pose proof (Hnoc k Hk) as Hf. cbv beta in Hf.
      apply bool_decide_eq_false in Hf. apply Hf. congruence.
  - intros Hno. destruct (Hno _ eq_refl).
  - reflexivity.
  - intros c Hc'. apply filter_In in Hc'. tauto.
  - exact Hkeep.
  - intros Hnd c Hc' Hwhy. apply Hkeep; [exact Hc'|]. intros E.
    assert (c = category) as ->.
    { clear -Hnd Hc' Hin E Hid. revert Hnd Hc' Hin.
      induction (Db.categories db) as [|x l IH]; simpl; intros Hnd Hc Hin; [destruct Hc|].
      apply NoDup_cons in Hnd as [Hx Hl].
      destruct Hc as [->|Hc], Hin as [->|Hin]; auto.
      - exfalso. apply Hx. apply list_elem_of_In. rewrite E, <- Hid. apply in_map. exact Hin.
      - exfalso. apply Hx. apply list_elem_of_In. rewrite Hid, <- E. apply in_map. exact Hc. }
    destruct Hwhy as [Hd|Hd]; congruence.
Qed.
End CategoryRouteFacts.

(** ** The category a classification names *)

Section AvailableNames.
Import Js LearningService OllamaService Describe Facts.
Variable rt : JsRuntime.

Lemma firstOrUncategorized_in available :
  In (firstOrUncategorized available) available
  \/ (firstOrUncategorized available = "Uncategorized" /\ orNull (head available) = None).
Proof.
  unfold firstOrUncategorized, orElse, orNull.
  destruct available as [|c rest]; simpl; [auto|].
  destruct (truthy c); simpl; auto.
Qed.

Lemma orNull_find_in (f : string -> bool) available cat :
  orNull (List.find f available) = Some cat -> In cat available.
Proof.
  intros H. apply orNull_some in H as [H _]. apply List.find_some in H. tauto.
Qed.

Lemma findClosestCategory_in suggested available :
  In (findClosestCategory suggested available) available
  \/ (findClosestCategory suggested available = "Uncategorized"
      /\ orNull (head available) = None).
Proof.
  unfold findClosestCategory. cbv zeta.
  match goal with
  | |- context [orNull (List.find ?f available)] =>
      destruct (orNull (List.find f available)) as [cat|] eqn:E1
  end.
  { left. eapply orNull_find_in. exact E1. }
  match goal with
  | |- context [orNull (List.find ?f available)] =>
      destruct (orNull (List.find f available)) as [cat|] eqn:E2
  end.
  { left. eapply orNull_find_in. exact E2. }
  apply firstOrUncategorized_in.
Qed.

Lemma quickScan_in desc merch available rules s :
  quickScan desc merch available rules = Some s ->
  In (CategorySuggestion.category s) available.
Proof.
  induction rules as [|r rest IH]; simpl; [discriminate|].
  destruct (hasMatch desc merch r); [|exact IH].
  unfold resolveCategory.
  destruct (List.find _ available) as [c|] eqn:F; [|exact IH].
  destruct (truthy c); [|exact IH].
  intros [= <-]. simpl. apply List.find_some in F. tauto.
Qed.

(** The classifier does not invent categories. Unless the answer is a
    trusted learned match (whose category name comes from the pattern
    table), the category of [categorizeTransaction] is one of the names it
    was given, or "Uncategorized" when the list of names is empty or starts
    with the empty name: whatever the model answers. *)
Theorem classifier_names_an_available_category categories store llm description merchant
    amount available userId :
  let result := categorizeTransaction rt categories store llm description merchant
                  amount available userId in
  (exists m, trustedMatch categories store description merchant userId m
             /\ result = learnedSuggestion m)
  \/ In (CategorySuggestion.category result) available
  \/ (CategorySuggestion.category result = "Uncategorized"
      /\ orNull (head available) = None).
Proof.
  intros result. unfold result, categorizeTransaction.
  destruct (learnedStep _ _ _ _ _) as [s|] eqn:L.
  { left. apply learnedStep_some in L. exact L. }
  right. unfold quickCategorize.
  destruct (quickScan _ _ _ _) as [q|] eqn:Q.
  { left. eapply quickScan_in. exact Q. }
  unfold llmFallback.
  destruct (llm description merchant amount available) as [|response].
  { apply firstOrUncategorized_in. }
  unfold parseCategorizationResponse.
  destruct (tryParse rt response available) as [s|] eqn:T;
    [|apply firstOrUncategorized_in].
  unfold tryParse in T.
  destruct response as [text|]; [|discriminate].
  destruct (matchBraces text) as [jsonMatch|]; [|discriminate].
  destruct (JSON_parse rt jsonMatch) as [parsed|]; [|discriminate].
  destruct (Json.prop parsed "category") as [| |v]; try discriminate.
  destruct v; try discriminate. injection T as <-.
  cbn [CategorySuggestion.category]. apply findClosestCategory_in.
Qed.
End AvailableNames.

(** ** Statement formats *)

Section FormatFacts.
Import Js JsMore CSVParserService StatementParser Facts.

Lemma detectFormat_is_some headers : is_Some (detectFormat headers).
Proof.
  unfold detectFormat.
  destruct (List.find _ BANK_FORMATS) as [format|] eqn:F; [eauto|].
  pose proof (List.find_none _ _ F Generic) as H.
  assert (In Generic BANK_FORMATS) as Hin by (unfold BANK_FORMATS; simpl; tauto).
  specialize (H Hin). discriminate.
Qed.

(** [detectFormat] always settles on a format, since the generic one accepts
    every header row, and the order of [BANK_FORMATS] decides between
    formats that both accept: the answer is the first format of the table
    that accepts the headers; a header row that passes the SBI test is SBI;
    and because the Kotak test accepts any header that contains "Balance",
    no statement with such a header is ever read as PNB, Bank of Baroda or
    generic. *)
Theorem detectFormat_first_of_table headers :
  exists format,
    detectFormat headers = Some format
    /\ (exists before after,
          BANK_FORMATS = before ++ format :: after
          /\ CSVFormat.detectPattern format headers = true
          /\ forall f, In f before -> CSVFormat.detectPattern f headers = false)
    /\ (detectSBI headers = true -> format = SBI)
    /\ (someIncludes "Balance" headers = true ->
        In (CSVFormat.name format)
          ["SBI"; "HDFC Bank"; "ICICI Bank"; "Axis Bank"; "Kotak Bank"]).
Proof.
  unfold detectFormat.
  destruct (List.find _ BANK_FORMATS) as [format|] eqn:F.
  - exists format. split; [reflexivity|].
    assert (forall l, List.find (fun f => CSVFormat.detectPattern f headers) l = Some format ->
              exists before after, l = before ++ format :: after
                /\ CSVFormat.detectPattern format headers = true
                /\ forall f, In f before -> CSVFormat.detectPattern f headers = false)
      as Hsplit.
    { induction l as [|a l IH]; simpl; [discriminate|].
      destruct (CSVFormat.detectPattern a headers) eqn:E.
      - intros [= ->]. exists [], l. split; [reflexivity|]. split; [exact E|]. intros f [].
      - intros H. destruct (IH H) as (before & after & -> & Hp & Hb).
        exists (a :: before), after. split; [reflexivity|]. split; [exact Hp|].
        intros f [<-|Hf]; auto. }
    split; [apply Hsplit; exact F|]. split.
    + intros Hs. unfold BANK_FORMATS in F. cbn [List.find] in F.
      change (CSVFormat.detectPattern SBI headers) with (detectSBI headers) in F.
      rewrite Hs in F. congruence.
    + intros Hb. unfold BANK_FORMATS in F. cbn [List.find] in F.
      destruct (CSVFormat.detectPattern SBI headers);
        [injection F as <-; simpl; tauto|].
      destruct (CSVFormat.detectPattern HDFC headers);
        [injection F as <-; simpl; tauto|].
      destruct (CSVFormat.detectPattern ICICI headers);
        [injection F as <-; simpl; tauto|].
      destruct (CSVFormat.detectPattern Axis headers);
        [injection F as <-; simpl; tauto|].
      assert (CSVFormat.detectPattern Kotak headers = true) as HK.
      { cbn [CSVFormat.detectPattern Kotak]. rewrite Hb. apply orb_true_r. }
      rewrite HK in F. injection F as <-. simpl. tauto.
  - exfalso. pose proof (List.find_none _ _ F Generic) as H.
    assert (In Generic BANK_FORMATS) as Hin by (unfold BANK_FORMATS; simpl; tauto).
    specialize (H Hin). discriminate.
Qed.
End FormatFacts.

(** ** Income, expense or asset *)

Section TypeFacts.
Import Js JsMore CSVParserService StatementParser Facts.

Lemma lowerChar_upperChar c : lowerChar (upperChar c) = lowerChar c.
Proof. destruct c as [[] [] [] [] [] [] [] []]; reflexivity. Qed.

Lemma toLowerCase_toUpperCase s : toLowerCase (toUpperCase s) = toLowerCase s.
Proof.
  induction s as [|c r IH]; simpl; [reflexivity|].
  rewrite lowerChar_upperChar, IH. reflexivity.
Qed.

Lemma toLowerCase_app a b : toLowerCase (a +:+ b) = toLowerCase a +:+ toLowerCase b.
Proof. induction a as [|c r IH]; simpl; [reflexivity|]. rewrite IH. reflexivity. Qed.

Lemma prefix_app p s t : String.prefix p s = true -> String.prefix p (s +:+ t) = true.
Proof.
  revert p. induction s as [|d s IH]; intros p; destruct p as [|c p]; simpl.
  - intros _. destruct t; reflexivity.
  - discriminate.
  - reflexivity.
  - destruct (ascii_dec c d); [apply IH|discriminate].
Qed.

Lemma includes_app_r s t p : includes s p = true -> includes (s +:+ t) p = true.
Proof.
  induction s as [|c s IH]; simpl.
  - rewrite orb_false_r. intros H.
    destruct p; [|discriminate]. destruct t; reflexivity.
  - intros H. apply orb_true_iff in H as [H|H].
    + apply (prefix_app _ (String c s) t) in H. simpl in H. rewrite H. reflexivity.
    + rewrite (IH H). apply orb_true_r.
Qed.

Lemma includes_app_l s t p : includes s p = true -> includes (t +:+ s) p = true.
Proof.
  intros H. induction t as [|c t IH]; simpl; [exact H|].
  rewrite IH. apply orb_true_r.
Qed.

Lemma existsb_impl {A} (f g : A -> bool) (l : list A) :
  (forall x, f x = true -> g x = true) -> existsb f l = true -> existsb g l = true.
Proof.
  intros H. induction l as [|a l IH]; simpl; [auto|].
  intros E. apply orb_true_iff in E as [E|E].
  - rewrite (H a E). reflexivity.
  - rewrite (IH E). apply orb_true_r.
Qed.

(** The keyword lists outrank the sign of the amount, and a keyword is
    looked for anywhere in the description, in any letter case. So: a
    transaction is typed expense only if its amount is below zero; the
    type does not depend on the letter case of the description; and once a
    description is typed asset, so is every description that contains it,
    whatever the amount. *)
Theorem type_follows_keywords_before_sign description amount :
  (determineTransactionType description amount = TransactionType.expense ->
   geZero amount = false)
  /\ determineTransactionType (toUpperCase description) amount
     = determineTransactionType description amount
  /\ (determineTransactionType description amount = TransactionType.asset ->
      forall before after amount',
        determineTransactionType (before +:+ description +:+ after) amount'
        = TransactionType.asset).
Proof.
  split; [|split].
  - unfold determineTransactionType.
    repeat (destruct (existsb _ _); [discriminate|]).
    destruct (geZero amount); [discriminate|reflexivity].
  - unfold determineTransactionType. rewrite toLowerCase_toUpperCase. reflexivity.
  - intros H before after amount'.
    assert (forall p, includes (toLowerCase description) p = true ->
              includes (toLowerCase (before +:+ description +:+ after)) p = true) as Hinc.
    { intros p Hp. rewrite !toLowerCase_app. apply includes_app_l, includes_app_r. exact Hp. }
    assert (existsb (fun p => includes (toLowerCase description) p) assetPurchasePatterns
              = true
            \/ existsb (fun p => includes (toLowerCase description) p) assetSalePatterns
               = true) as [E|E].
    { unfold determineTransactionType in H.
      destruct (existsb _ assetPurchasePatterns); [auto|].
      destruct (existsb _ assetSalePatterns); [auto|].
      destruct (existsb _ incomePatterns); [discriminate|].
      destruct (geZero amount); discriminate. }
    + unfold determineTransactionType.
      rewrite (existsb_impl (fun p => includes (toLowerCase description) p)
                 (fun p => includes (toLowerCase (before +:+ description +:+ after)) p)
                 _ Hinc E). reflexivity.
    + unfold determineTransactionType.
      rewrite (existsb_impl (fun p => includes (toLowerCase description) p)
                 (fun p => includes (toLowerCase (before +:+ description +:+ after)) p)
                 _ Hinc E).
      destruct (existsb _ assetPurchasePatterns); reflexivity.
Qed.
End TypeFacts.

(** ** The merchant guessed from a description *)

Section MerchantFacts.
Import Js JsMore CSVParserService StatementParser Facts.

(** A text that begins with no white-space character still begins with
    none when it is cut short. *)
Lemma spaceWidth_cut c w rest :
  spaceWidth (String c (w +:+ rest)) = 0%nat -> spaceWidth (String c w) = 0%nat.
Proof.
  unfold spaceWidth. destruct (isSpace c); [discriminate|].
  destruct (code c =? 194)%nat.
  - destruct w as [|c2 w]; [reflexivity|]. cbn [String.append]. auto.
  - destruct (_ || _); [|reflexivity].
    destruct w as [|c2 [|c3 w]]; try reflexivity. cbn [String.append]. auto.
Qed.

Lemma splitSpacesFrom_words s :
  (forall skip inRun,
     List.Forall (fun w => spaceless w = true) (splitSpacesFrom skip inRun s))
  /\ exists w ws rest, splitSpacesFrom 0 false s = w :: ws /\ s = w +:+ rest.
Proof.
  induction s as [|c r [IHall (w & ws & rest & IHeq & IHcut)]].
  - split; [intros [|k] b; repeat constructor|].
    exists EmptyString, [], EmptyString. split; reflexivity.
  - assert (spaceWidth (String c r) = 0%nat ->
            splitSpacesFrom 0 false (String c r) = String c w :: ws
            /\ spaceless (String c w) = true) as Hword.
    { intros H0. cbn [splitSpacesFrom]. rewrite H0, IHeq. split; [reflexivity|].
      cbn [spaceless]. rewrite IHcut in H0. rewrite (spaceWidth_cut _ _ _ H0).
      specialize (IHall 0%nat false). rewrite IHeq in IHall.
      inversion IHall; subst. assumption. }
    split.
    + intros [|k] b; [|cbn [splitSpacesFrom]; apply IHall].
      destruct (spaceWidth (String c r)) as [|j] eqn:Hw.
      * destruct (Hword eq_refl) as [Heq Hs].
        assert (splitSpacesFrom 0 b (String c r) = String c w :: ws) as ->.
        { rewrite <- Heq. cbn [splitSpacesFrom]. rewrite Hw. reflexivity. }
        constructor; [exact Hs|].
        specialize (IHall 0%nat false). rewrite IHeq in IHall.
        inversion IHall; subst. assumption.
      * cbn [splitSpacesFrom]. rewrite Hw.
        destruct b; [apply IHall|]. constructor; [reflexivity|apply IHall].
    + destruct (spaceWidth (String c r)) as [|j] eqn:Hw.
      * destruct (Hword eq_refl) as [Heq _].
        exists (String c w), ws, rest. split; [exact Heq|]. rewrite IHcut. reflexivity.
      * exists EmptyString, (splitSpacesFrom j true r), (String c r).
        split; [|reflexivity]. cbn [splitSpacesFrom]. rewrite Hw. reflexivity.
Qed.

Lemma splitSpaces_spaceless s : List.Forall (fun w => spaceless w = true) (splitSpaces s).
Proof. apply (proj1 (splitSpacesFrom_words s)). Qed.

Lemma Forall_filter_both {A} (P : A -> Prop) (f : A -> bool) (l : list A) :
  List.Forall P l -> List.Forall (fun x => P x /\ f x = true) (List.filter f l).
Proof.
  induction 1 as [|x l Hx Hl IH]; simpl; [constructor|].
  destruct (f x) eqn:E; [constructor; auto|exact IH].
Qed.

Lemma Forall_take_keep {A} (P : A -> Prop) n (l : list A) :
  List.Forall P l -> List.Forall P (take n l).
Proof.
  intros H. revert n. induction H as [|x l Hx Hl IH]; intros [|n]; simpl; constructor; auto.
Qed.

(** A merchant, when one is guessed, is made of one to three words joined
    by single spaces; each word has a length of at least three (as
    [word.length] counts it, in UTF-16 units), is not a bare number and
    holds no white-space character. *)
Theorem merchant_guess_shape description merchant :
  extractMerchantFromDescription description = Some merchant ->
  exists words,
    merchant = join " " words
    /\ (1 <= length words <= 3)%nat
    /\ List.Forall (fun w => (2 < utf16Length w)%nat
                             /\ allDigits w = false
                             /\ spaceless w = true) words.
Proof.
  unfold extractMerchantFromDescription. cbv zeta.
  set (tokens := splitSpaces _).
  destruct (Nat.leb_spec 1 (length (List.filter merchantWord tokens))) as [Hlen|Hlen];
    [|discriminate].
  intros [= <-]. eexists. split; [reflexivity|]. split.
  - rewrite length_take.
    destruct (length (List.filter merchantWord tokens)) as [|[|[|k]]]; simpl; lia.
  - apply Forall_take_keep.
    eapply List.Forall_impl;
      [|apply Forall_filter_both; apply (splitSpaces_spaceless _)].
    intros w [Hs Hw]. unfold merchantWord in Hw.
    apply andb_true_iff in Hw as [Hl Hd].
    apply Nat.ltb_lt in Hl. apply negb_true_iff in Hd. auto.
Qed.

Lemma merchant_guess_shape_witness :
  exists words,
    "AMAZON PAY INDIA" = join " " words
    /\ (1 <= length words <= 3)%nat
    /\ List.Forall (fun w => (2 < utf16Length w)%nat
                             /\ allDigits w = false
                             /\ spaceless w = true) words.
Proof.
  apply (merchant_guess_shape "POS 1234567890123 AMAZON PAY INDIA LTD").
  vm_compute. reflexivity.
Defined.
End MerchantFacts.

(** ** Looking a column up *)

Section ColumnFacts.
Import Js JsMore CSVParserService StatementParser Facts.
Variable nr : NumberRuntime.

Lemma orNull_nonempty v s : orNull v = Some s -> s <> EmptyString.
Proof. intros H. apply orNull_some in H. tauto. Qed.

Lemma viaKey_nonempty row key v : viaKey row key = Some v -> v <> EmptyString.
Proof.
  unfold viaKey. destruct (orNull key); [|discriminate]. apply orNull_nonempty.
Qed.

Lemma lookupColumn_nonempty row name v : lookupColumn row name = Some v -> v <> EmptyString.
Proof.
  unfold lookupColumn.
  destruct (orNull (rowGet row name)) as [x|] eqn:E1.
  { intros [= <-]. eapply orNull_nonempty. exact E1. }
  cbv zeta.
  repeat match goal with
         | |- match viaKey row ?k with _ => _ end = Some v -> _ =>
             let E := fresh "E" in
             destruct (viaKey row k) as [x|] eqn:E;
             [intros [= <-]; eapply viaKey_nonempty; exact E|]
         end.
  apply viaKey_nonempty.
Qed.

Lemma lookupColumn_exact row name :
  lookupColumn row name = None -> orNull (rowGet row name) = None.
Proof.
  unfold lookupColumn. destruct (orNull (rowGet row name)); [discriminate|reflexivity].
Qed.

Lemma lookupColumns_none row names :
  lookupColumns row names = None ->
  forall name, In name names -> lookupColumn row name = None.
Proof.
  induction names as [|n rest IH]; simpl; intros H name Hin; [destruct Hin|].
  destruct (lookupColumn row n) eqn:E; [discriminate|].
  destruct Hin as [<-|Hin]; auto.
Qed.

Lemma arrayIncludes_In name names : arrayIncludes name names = true -> In name names.
Proof.
  unfold arrayIncludes. intros H. apply existsb_exists in H as (x & Hx & Hk).
  apply bool_decide_eq_true in Hk. subst. exact Hx.
Qed.

Lemma append_nonempty a b : a <> EmptyString -> a +:+ b <> EmptyString.
Proof. destruct a; [congruence|discriminate]. Qed.

Lemma markedIfPositive_nonempty marker text v :
  marker <> EmptyString -> markedIfPositive nr marker text = Some v -> v <> EmptyString.
Proof.
  intros Hm. unfold markedIfPositive. destruct (_ && _); [|discriminate].
  intros [= <-]. apply append_nonempty. exact Hm.
Qed.

(** What [findColumnValue] finds is never the empty text, and the two
    fallbacks for the columns "" and "_1" of a malformed file never fire:
    when the loop over the candidate names found nothing, the cells under
    those names are empty, so the only fallback that can answer is the
    marked amount from "_12" and "_14". *)
Theorem findColumnValue_fallbacks row columnNames :
  findColumnValue nr row columnNames
  = match lookupColumns row columnNames with
    | Some v => Some v
    | None => markedAmount nr row columnNames
    end
  /\ (lookupColumns row columnNames = None ->
      firstColumnDate row columnNames = None /\ secondColumnText row columnNames = None)
  /\ forall v, findColumnValue nr row columnNames = Some v -> v <> EmptyString.
Proof.
  assert (lookupColumns row columnNames = None ->
          firstColumnDate row columnNames = None
          /\ secondColumnText row columnNames = None) as Hdead.
  { intros Hnone. pose proof (lookupColumns_none row columnNames Hnone) as Hall. split.
    - unfold firstColumnDate. destruct (arrayIncludes "" columnNames) eqn:E; [|reflexivity].
      rewrite (lookupColumn_exact row "" (Hall _ (arrayIncludes_In _ _ E))). reflexivity.
    - unfold secondColumnText. destruct (arrayIncludes "_1" columnNames) eqn:E; [|reflexivity].
      rewrite (lookupColumn_exact row "_1" (Hall _ (arrayIncludes_In _ _ E))). reflexivity. }
  assert (findColumnValue nr row columnNames
          = match lookupColumns row columnNames with
            | Some v => Some v
            | None => markedAmount nr row columnNames
            end) as Heq.
  { unfold findColumnValue, malformedColumns.
    destruct (lookupColumns row columnNames) eqn:E; [reflexivity|].
    destruct (Hdead eq_refl) as [-> ->]. reflexivity. }
  split; [exact Heq|]. split; [exact Hdead|].
  intros v. rewrite Heq.
  destruct (lookupColumns row columnNames) as [x|] eqn:E.
  - intros [= <-]. clear -E. induction columnNames as [|n rest IH]; simpl in E; [discriminate|].
    destruct (lookupColumn row n) eqn:L; [|auto].
    injection E as <-. eapply lookupColumn_nonempty. exact L.
  - unfold markedAmount. destruct (_ || _); [|discriminate].
    destruct (orNull (rowGet row "_12")) as [debitCol|].
    + destruct (truthy (trim debitCol)).
      * destruct (markedIfPositive nr "DEBIT:" _) eqn:M.
        -- intros [= <-]. eapply markedIfPositive_nonempty; [|exact M]. discriminate.
        -- destruct (orNull (rowGet row "_14")) as [creditCol|]; [|discriminate].
           destruct (truthy (trim creditCol)); [|discriminate].
           apply markedIfPositive_nonempty. discriminate.
      * destruct (orNull (rowGet row "_14")) as [creditCol|]; [|discriminate].
        destruct (truthy (trim creditCol)); [|discriminate].
        apply markedIfPositive_nonempty. discriminate.
    + destruct (orNull (rowGet row "_14")) as [creditCol|]; [|discriminate].
      destruct (truthy (trim creditCol)); [|discriminate].
      apply markedIfPositive_nonempty. discriminate.
Qed.
End ColumnFacts.

(** ** Rows of a statement *)

Section RowFacts.
Import Js JsMore CSVParserService StatementParser Facts.
Variable nr : NumberRuntime.
Variable minutesAhead : Z -> Z.

(** What a row that [parseRow] accepts went through. *)
Lemma parseRow_some row format userSource t :
  parseRow nr minutesAhead row format userSource = Some t ->
  exists fmt dateValue d amountText,
    format = Some fmt
    /\ orNull (findColumnValue nr row (CSVFormat.dateColumn fmt)) = Some dateValue
    /\ parseDate dateValue = Some (JsDate.LocalDay d)
    /\ isNaN (parseAmount nr amountText) = false
    /\ ParsedTransaction.amount t = Math_abs (parseAmount nr amountText)
    /\ ParsedTransaction.date t = ((d * 1440 - minutesAhead d) / 1440)%Z
    /\ ParsedTransaction.originalData t = row.
Proof.
  unfold parseRow. destruct format as [fmt|]; [|discriminate].
  destruct (orNull (findColumnValue nr row (CSVFormat.dateColumn fmt))) as [dateValue|] eqn:Hd;
    [|discriminate].
  destruct (parseDate dateValue) as [date|] eqn:Hp; [|discriminate].
  unfold finishRow. cbv zeta.
  match goal with
  | |- match orNull ?a with _ => _ end = _ -> _ =>
      destruct (orNull a) as [amountText|]; [|discriminate]
  end.
  destruct (isNaN (parseAmount nr amountText)) eqn:Hn; [discriminate|].
  destruct date as [|d]; cbn [isoDay]; [discriminate|].
  intros [= <-]. exists fmt, dateValue, d, amountText.
  repeat (split; [first [reflexivity | assumption]|]). reflexivity.
Qed.

(** The amount of a parsed transaction is a magnitude: never NaN and never
    below zero (the sign of what the file said only decides the type). It
    can be infinite, since only NaN is turned away. *)
Theorem parsed_amount_is_a_magnitude row format userSource t :
  parseRow nr minutesAhead row format userSource = Some t ->
  ParsedTransaction.amount t = PosInf
  \/ exists q, ParsedTransaction.amount t = Fin q /\ (0 <= q)%Q.
Proof.
  intros H. apply parseRow_some in H
    as (fmt & dateValue & d & amountText & _ & _ & _ & Hn & Ha & _).
  rewrite Ha. destruct (parseAmount nr amountText) as [| |q|]; simpl; auto.
  - discriminate.
  - right. exists (Qabs q). split; [reflexivity|apply Qabs_nonneg].
Qed.

(** The date of a parsed transaction is read off the UTC form of a local
    midnight. On a server whose zone is ahead of UTC the transaction is
    dated one day before the day the parser read from the file; on a
    server at UTC or behind it, the same day. *)
Theorem parsed_date_depends_on_time_zone row format userSource t :
  parseRow nr minutesAhead row format userSource = Some t ->
  exists fmt dateValue d,
    format = Some fmt
    /\ orNull (findColumnValue nr row (CSVFormat.dateColumn fmt)) = Some dateValue
    /\ parseDate dateValue = Some (JsDate.LocalDay d)
    /\ ((0 < minutesAhead d <= 1440)%Z -> ParsedTransaction.date t = (d - 1)%Z)
    /\ ((-1440 < minutesAhead d <= 0)%Z -> ParsedTransaction.date t = d).
Proof.
  intros H. apply parseRow_some in H
    as (fmt & dateValue & d & amountText & Hf & Hv & Hp & _ & _ & Hd & _).
  exists fmt, dateValue, d. split; [exact Hf|]. split; [exact Hv|]. split; [exact Hp|].
  rewrite Hd. split; intros Hz.
  - symmetry. apply (Z.div_unique_pos _ _ _ (1440 - minutesAhead d)); lia.
  - symmetry. apply (Z.div_unique_pos _ _ _ (- minutesAhead d)); lia.
Qed.

(** The parser of rows is the one whose date step was described before:
    [CSVParserService.parseRow] with this lookup of columns and this way of
    finishing a row. *)
Lemma parseRow_refines row format userSource :
  parseRow nr minutesAhead row format userSource
  = CSVParserService.parseRow CSVFormat.t CSVFormat.dateColumn (findColumnValue nr)
      ParsedTransaction.t (finishRow nr minutesAhead userSource) row format.
Proof. reflexivity. Qed.

(** [parseCSV] on the rows of a file. A format is always reported. The
    transactions come from the rows in their order, each carrying its row,
    so there are at most as many as rows; the preview is the first five
    rows; the headers are the keys of the first row alone; and a row whose
    date cannot be found or read yields no transaction. *)
Theorem parseCSV_shape data userSource :
  let result := parseCSV nr minutesAhead data userSource in
  is_Some (Parsed.format result)
  /\ List.map ParsedTransaction.originalData (Parsed.transactions result) `sublist_of` data
  /\ (length (Parsed.transactions result) <= length data)%nat
  /\ Parsed.preview result = take 5 data
  /\ Parsed.headers result = match data with
                             | first :: _ => keysOf first
                             | [] => []
                             end
  /\ Parsed.transactions result
     = CSVParserService.parseRows CSVFormat.t CSVFormat.dateColumn (findColumnValue nr)
         ParsedTransaction.t (finishRow nr minutesAhead userSource) data
         (Parsed.format result).
Proof.
  intros result. unfold result, parseCSV. cbn [Parsed.format Parsed.transactions
    Parsed.preview Parsed.headers].
  set (headers := match data with first :: _ => keysOf first | [] => [] end).
  assert (forall format,
            List.map ParsedTransaction.originalData
              (omap (fun row => parseRow nr minutesAhead row format userSource) data)
            `sublist_of` data) as Hsub.
  { intros format. induction data as [|row rest IH]; [constructor|].
    cbn [omap list_omap].
    destruct (parseRow nr minutesAhead row format userSource) as [t|] eqn:E.
    - apply parseRow_some in E as (_ & _ & _ & _ & _ & _ & _ & _ & _ & _ & Ho).
      cbn [List.map]. rewrite Ho. constructor. apply IH.
    - constructor. apply IH. }
  split; [|split; [|split; [|split; [|split]]]].
  - apply detectFormat_is_some.
  - apply Hsub.
  - rewrite <- (length_map ParsedTransaction.originalData).
    apply sublist_length, Hsub.
  - reflexivity.
  - reflexivity.
  - reflexivity.
Qed.

Lemma startsWith_append p s : startsWith (p +:+ s) p = true.
Proof.
  unfold startsWith. induction p as [|c p IH]; simpl; [destruct s; reflexivity|].
  destruct (ascii_dec c c); [exact IH|congruence].
Qed.

Lemma dropChars_append p s : dropChars (String.length p) (p +:+ s) = s.
Proof. induction p as [|c p IH]; simpl; [destruct s; reflexivity|exact IH]. Qed.

(** In an SBI statement a positive debit decides the row, whatever the
    credit and amount columns hold: the amount is the debit and the type is
    worked out from the description and the debit taken below zero, so the
    row is typed income only if an income keyword says so. The runtime is
    taken to read back the number it prints. *)
Theorem sbi_debit_decides row userSource dateValue d debit x :
  orNull (findColumnValue nr row (CSVFormat.dateColumn SBI)) = Some dateValue ->
  parseDate dateValue = Some (JsDate.LocalDay d) ->
  findColumnValue nr row ["Debit"; "        Debit"] = Some debit ->
  notBlank debit = true ->
  parseFloat nr (removeChars isCommaSpaceOrQuote debit) = Fin x ->
  (0 < x)%Q ->
  parseFloat nr (numberToString nr (Fin x)) = Fin x ->
  let description :=
    orElse (findColumnValue nr row (CSVFormat.descriptionColumn SBI))
      "Unknown Transaction" in
  exists t,
    parseRow nr minutesAhead row (Some SBI) userSource = Some t
    /\ ParsedTransaction.amount t = Fin (Qabs (- x))
    /\ ParsedTransaction.type t = determineTransactionType description (Fin (- x))
    /\ (ParsedTransaction.type t = TransactionType.income ->
        existsb (fun pattern => includes (toLowerCase description) pattern) incomePatterns
        = true).
Proof.
  intros Hdate Hparse Hdebit Hblank Hnum Hpos Hback description.
  assert (debit <> EmptyString) as Hne.
  { intros ->. vm_compute in Hblank. discriminate. }
  assert (orNull (Some debit) = Some debit) as Hsome by (apply orNull_some; auto).
  assert (sbiAmountValue nr row
            (findColumnValue nr row (CSVFormat.amountColumn SBI))
          = Some ("DEBIT:" +:+ numberToString nr (Fin x))) as Hamount.
  { unfold sbiAmountValue. rewrite Hdebit, Hsome, Hblank.
    unfold markedIfPositive. rewrite Hnum. cbn [isNaN negb andb gtNum].
    assert (Qgtb x 0 = true) as -> by (apply Qgtb_true; exact Hpos). reflexivity. }
  assert (parseAmount nr ("DEBIT:" +:+ numberToString nr (Fin x)) = Fin (- x)) as Hparsed.
  { unfold parseAmount.
    rewrite startsWith_append.
    change 6%nat with (String.length "DEBIT:"). rewrite dropChars_append.
    rewrite Hback. reflexivity. }
  eexists. split.
  - unfold parseRow. rewrite Hdate, Hparse. unfold finishRow.
    rewrite bool_decide_eq_true_2 by reflexivity.
    rewrite Hamount.
    assert (orNull (Some ("DEBIT:" +:+ numberToString nr (Fin x)))
            = Some ("DEBIT:" +:+ numberToString nr (Fin x))) as ->.
    { apply orNull_some. split; [reflexivity|discriminate]. }
    rewrite Hparsed. cbn [isNaN isoDay]. reflexivity.
  - cbn [ParsedTransaction.amount ParsedTransaction.type Math_abs].
    split; [reflexivity|]. split; [reflexivity|].
    fold description. unfold determineTransactionType.
    destruct (existsb _ assetPurchasePatterns); [discriminate|].
    destruct (existsb _ assetSalePatterns); [discriminate|].
    destruct (existsb _ incomePatterns); [reflexivity|].
    assert (geZero (Fin (- x)) = false) as ->; [|discriminate].
    cbn [geZero]. apply negb_false_iff. apply Qgtb_true.
    rewrite <- (Qplus_lt_l _ _ x). ring_simplify. exact Hpos.
Qed.
End RowFacts.

Lemma parsed_amount_is_a_magnitude_witness :
  exists t,
    StatementParser.parseRow Fixtures.numbers Fixtures.ist Fixtures.sbiDebitRow
      (Some StatementParser.SBI) None = Some t
    /\ (StatementParser.ParsedTransaction.amount t = Js.PosInf
        \/ exists q, StatementParser.ParsedTransaction.amount t = Js.Fin q /\ (0 <= q)%Q).
Proof.
  eexists. split; [vm_compute; reflexivity|].
  apply (parsed_amount_is_a_magnitude Fixtures.numbers Fixtures.ist Fixtures.sbiDebitRow
           (Some StatementParser.SBI) None).
  vm_compute. reflexivity.
Defined.

Lemma parsed_date_depends_on_time_zone_witness :
  exists t,
    StatementParser.parseRow Fixtures.numbers Fixtures.ist Fixtures.sbiDebitRow
      (Some StatementParser.SBI) None = Some t
    /\ StatementParser.ParsedTransaction.date t
       = (JsDate.daysFromCivil 2023 1 15 - 1)%Z.
Proof.
  eexists. split; [vm_compute; reflexivity|].
  destruct (parsed_date_depends_on_time_zone Fixtures.numbers Fixtures.ist
              Fixtures.sbiDebitRow (Some StatementParser.SBI) None _ eq_refl)
    as (fmt & dateValue & d & Hf & Hv & Hp & Hahead & _).
  injection Hf as <-.
  vm_compute in Hv. injection Hv as <-.
  vm_compute in Hp. injection Hp as <-.
  apply Hahead. vm_compute. split; [reflexivity|discriminate].
Defined.

Lemma sbi_debit_decides_witness :
  exists t,
    StatementParser.parseRow Fixtures.numbers Fixtures.ist Fixtures.sbiDebitRow
      (Some StatementParser.SBI) None = Some t
    /\ StatementParser.ParsedTransaction.amount t = Js.Fin (Qabs (- 250))
    /\ StatementParser.ParsedTransaction.type t = StatementParser.TransactionType.expense.
Proof.
  destruct (sbi_debit_decides Fixtures.numbers Fixtures.ist Fixtures.sbiDebitRow None
              "15 Jan 2023" (JsDate.daysFromCivil 2023 1 15) "250" 250)
    as (t & Ht & Ha & Hty & _).
  - vm_compute. reflexivity.
  - vm_compute. reflexivity.
  - vm_compute. reflexivity.
  - vm_compute. reflexivity.
  - vm_compute. reflexivity.
  - reflexivity.
  - vm_compute. reflexivity.
  - exists t. split; [exact Ht|]. split; [exact Ha|]. rewrite Hty. vm_compute. reflexivity.
Defined.

(** ** The sign of an amount *)

Section AmountFacts.
Import Js JsMore CSVParserService StatementParser Facts.
Variable nr : NumberRuntime.

Lemma neg_abs_notPositive x : notPositive (neg (Math_abs x)).
Proof.
  destruct x as [| |q|]; simpl; auto.
  rewrite <- (Qplus_le_l _ _ (Qabs q)). ring_simplify. apply Qabs_nonneg.
Qed.

Lemma abs_notNegative x : notNegative (Math_abs x).
Proof. destruct x as [| |q|]; simpl; auto. apply Qabs_nonneg. Qed.

(** The sign conventions of [parseAmount]. A text marked DEBIT: is read as
    the opposite of the same text marked CREDIT:. An unmarked text is read
    from its cleaned form: wrapped in parentheses it is the opposite of what
    stands between them; otherwise, if it contains "dr" in any letter case
    the amount is never above zero, also when it contains "cr" as well; and
    if it contains "cr" but not "dr" the amount is never below zero. *)
Theorem parseAmount_sign_conventions text :
  parseAmount nr ("DEBIT:" +:+ text) = neg (parseAmount nr ("CREDIT:" +:+ text))
  /\ (startsWith text "DEBIT:" = false -> startsWith text "CREDIT:" = false ->
      let cleaned := cleanAmount text in
      let bracketed := startsWith cleaned "(" && endsWith cleaned ")" in
      (bracketed = true ->
       parseAmount nr text = neg (parseFloat nr (sliceInner cleaned)))
      /\ (bracketed = false -> includes (toLowerCase cleaned) "dr" = true ->
          notPositive (parseAmount nr text))
      /\ (bracketed = false -> includes (toLowerCase cleaned) "dr" = false ->
          includes (toLowerCase cleaned) "cr" = true ->
          notNegative (parseAmount nr text))).
Proof.
  split.
  - unfold parseAmount.
    rewrite (startsWith_append "DEBIT:" text).
    change (startsWith ("CREDIT:" +:+ text) "DEBIT:") with false. cbv iota.
    rewrite (startsWith_append "CREDIT:" text).
    change (dropChars 6 ("DEBIT:" +:+ text))
      with (dropChars (String.length "DEBIT:") ("DEBIT:" +:+ text)).
    change (dropChars 7 ("CREDIT:" +:+ text))
      with (dropChars (String.length "CREDIT:") ("CREDIT:" +:+ text)).
    rewrite (dropChars_append "DEBIT:" text), (dropChars_append "CREDIT:" text).
    reflexivity.
  - intros Hd Hc cleaned bracketed. unfold parseAmount. rewrite Hd, Hc.
    fold cleaned. fold bracketed.
    split; [|split].
    + intros ->. reflexivity.
    + intros -> ->. apply neg_abs_notPositive.
    + intros -> -> ->. apply abs_notNegative.
Qed.

End AmountFacts.

Lemma parseAmount_sign_conventions_witness :
  JsMore.notPositive (StatementParser.parseAmount Fixtures.numbers "Rs. 500 Dr").
Proof.
  refine (proj1 (proj2 (proj2 (parseAmount_sign_conventions Fixtures.numbers "Rs. 500 Dr")
                          eq_refl eq_refl)) eq_refl eq_refl).
Defined.

(** ** Importing a statement *)

Section ImportFacts.
Import Js JsMore StatementParser Ledger Facts.

Variable rt : JsRuntime.
Variable llm : nat -> string -> option string -> Q -> list string -> LlmOutcome.
Variable categories : list CategoryRoutes.CategoryRow.t.
Variable patternStore : list CategoryPattern.t.
Variable toFixed2 : Q -> string.
Variable newId : nat -> string.
Variable classifyFails : nat -> bool.
Variable createFails : nat -> bool.

Local Abbreviation importOneOf :=
  (importOne rt llm categories patternStore toFixed2 newId classifyFails createFails).
Local Abbreviation importFromOf :=
  (importFrom rt llm categories patternStore toFixed2 newId classifyFails createFails).
Local Abbreviation categoriseOf := (categorise rt llm categories patternStore classifyFails).

Lemma categorise_cases k userId userCategories description merchant amount type :
  let '(categoryId, llmCategorized, llmConfidence) :=
    categoriseOf k userId userCategories description merchant amount type in
  (llmCategorized = true <-> is_Some categoryId)
  /\ forall c, categoryId = Some c ->
       exists category,
         In category userCategories
         /\ CategoryRoutes.CategoryRow.id category = c
         /\ sameType (CategoryRoutes.CategoryRow.type category) type = true.
Proof.
  unfold categorise. cbv zeta.
  assert ((false = true <-> is_Some (@None string))
          /\ forall c, @None string = Some c ->
               exists category, In category userCategories
                 /\ CategoryRoutes.CategoryRow.id category = c
                 /\ sameType (CategoryRoutes.CategoryRow.type category) type = true) as Hnone.
  { split; [|discriminate]. split; [discriminate|]. intros [x Hx]. discriminate. }
  destruct (0 <? length (categoriesForType userCategories type))%nat; [|exact Hnone].
  destruct (classifyFails k); [exact Hnone|].
  destruct (selectCategory _ _) as [selected|] eqn:S; [|exact Hnone].
  split; [split; eauto|].
  intros c [= <-]. exists selected. apply List.find_some in S as [Hin _].
  apply filter_In in Hin as [Hin Hty]. auto.
Qed.

(** What one pass of the loop does to the table and the counters. *)
Lemma importFrom_accounts skipDuplicates userId userCategories seen transactions :
  forall k ledger results,
    let '(ledger', results') :=
      importFromOf skipDuplicates userId userCategories seen k transactions
        (ledger, results) in
    exists added,
      ledger' = ledger ++ added
      /\ (Results.imported results' = Results.imported results + length added)%nat
      /\ (Results.imported results' + Results.skipped results' + Results.failed results'
          = Results.imported results + Results.skipped results + Results.failed results
            + length transactions)%nat
      /\ (Results.categorized results' - Results.categorized results
          <= (Results.imported results' - Results.imported results)
             + (Results.failed results' - Results.failed results))%nat
      /\ (Results.categorized results <= Results.categorized results')%nat
      /\ (Results.failed results <= Results.failed results')%nat
      /\ (skipDuplicates = false -> Results.skipped results' = Results.skipped results)
      /\ List.Forall (wellFiled userId userCategories) added.
Proof.
  induction transactions as [|t rest IH]; intros k ledger results.
  - cbn [importFrom]. exists []. rewrite app_nil_r. cbn [length].
    repeat (split; [lia || reflexivity|]). constructor.
  - cbn [importFrom]. unfold importOne at 1.
    destruct (skipDuplicates && bool_decide _) eqn:Hskip.
    + specialize (IH (S k) ledger
                   (Results.mk (Results.imported results) (S (Results.skipped results))
                      (Results.failed results) (Results.categorized results))).
      destruct (importFromOf _ _ _ _ _ rest _) as [ledger' results'].
      destruct IH as (added & -> & Hi & Hsum & Hc & Hc' & Hf & Hs & Hw).
      cbn [Results.imported Results.skipped Results.failed Results.categorized] in *.
      exists added. split; [reflexivity|]. split; [exact Hi|]. split; [cbn [length]; lia|].
      split; [exact Hc|]. split; [exact Hc'|]. split; [exact Hf|]. split; [|exact Hw].
      intros ->. discriminate.
    + pose proof (categorise_cases k (Some userId) userCategories (Incoming.description t)
                    (Incoming.merchant t) (Incoming.amount t) (Incoming.type t)) as Hcat.
      destruct (categoriseOf k (Some userId) userCategories _ _ _ _)
        as [[categoryId llmCategorized] llmConfidence].
      destruct Hcat as [Hflag Hown].
      destruct (createFails k).
      * specialize (IH (S k) ledger
                     (Results.mk (Results.imported results) (Results.skipped results)
                        (S (Results.failed results))
                        (bump llmCategorized (Results.categorized results)))).
        destruct (importFromOf _ _ _ _ _ rest _) as [ledger' results'].
        destruct IH as (added & -> & Hi & Hsum & Hc & Hc' & Hf & Hs & Hw).
        cbn [Results.imported Results.skipped Results.failed Results.categorized] in *.
        exists added. split; [reflexivity|]. split; [exact Hi|].
        split; [cbn [length]; lia|].
        unfold bump in *. destruct llmCategorized;
          (split; [lia|]; split; [lia|]; split; [lia|]; split; [exact Hs|exact Hw]).
      * match goal with
        | |- context [importFromOf _ _ _ _ _ rest (?l, ?r)] =>
            specialize (IH (S k) l r)
        end.
        destruct (importFromOf _ _ _ _ _ rest _) as [ledger' results'].
        destruct IH as (added & -> & Hi & Hsum & Hc & Hc' & Hf & Hs & Hw).
        cbn [Results.imported Results.skipped Results.failed Results.categorized] in *.
        eexists (_ :: added). split; [rewrite <- app_assoc; reflexivity|].
        split; [cbn [length]; lia|]. split; [cbn [length]; lia|].
        unfold bump in *. 
        assert (wellFiled userId userCategories
                  (Row.mk (newId k) userId (midnight (Incoming.date t))
                     (Incoming.description t) (Incoming.amount t) (Incoming.merchant t)
                     (Incoming.type t) categoryId llmCategorized llmConfidence
                     (Some (Incoming.source t)))) as Hrow.
        { split; [reflexivity|]. split; [exact Hflag|exact Hown]. }
        destruct llmCategorized;
          (split; [lia|]; split; [lia|]; split; [lia|]; split; [exact Hs|]; constructor;
           [exact Hrow|exact Hw]).
Qed.

(** POST /import accounts for every transaction of the file exactly once:
    imported + skipped + failed is the number of transactions. The table
    keeps its rows and gains one row per imported transaction; without
    duplicate check nothing is skipped; [categorized] never exceeds imported
    + failed; and every row written belongs to the user, is flagged as
    categorised by the model exactly when it has a category, and any
    category it has is one of the user's own categories of the same type as
    the transaction. *)
Theorem import_accounts_for_every_transaction skipDuplicates userId ledger transactions
    ledger' results :
  importTransactions rt llm categories patternStore toFixed2 newId classifyFails
    createFails skipDuplicates userId ledger transactions = (ledger', Some results) ->
  (Results.imported results + Results.skipped results + Results.failed results
   = length transactions)%nat
  /\ (Results.categorized results <= Results.imported results + Results.failed results)%nat
  /\ (skipDuplicates = false -> Results.skipped results = 0%nat)
  /\ exists added,
       ledger' = ledger ++ added
       /\ length added = Results.imported results
       /\ List.Forall (wellFiled userId (userCategoriesOf categories userId)) added.
Proof.
  unfold importTransactions. destruct transactions as [|t rest]; [discriminate|].
  cbv zeta.
  pose proof (importFrom_accounts skipDuplicates userId (userCategoriesOf categories userId)
                (if skipDuplicates then duplicateCheckSet toFixed2 ledger userId (t :: rest) else [])
                (t :: rest) 0%nat ledger (Results.mk 0 0 0 0)) as H.
  destruct (importFromOf _ _ _ _ _ (t :: rest) _) as [l r].
  intros [= <- <-].
  destruct H as (added & -> & Hi & Hsum & Hc & _ & _ & Hs & Hw).
  cbn [Results.imported Results.skipped Results.failed Results.categorized] in *.
  split; [lia|]. split; [lia|]. split; [exact Hs|].
  exists added. split; [reflexivity|]. split; [lia|exact Hw].
Qed.

Lemma dayOf_midnight d : dayOf (midnight d) = d.
Proof. unfold dayOf, midnight. apply Z.div_mul. discriminate. Qed.

(** The loop when every transaction is in the set. *)
Lemma importFrom_all_seen userId userCategories seen transactions :
  (forall t, In t transactions ->
     hashOf toFixed2 (Incoming.date t) (Incoming.description t) (Incoming.amount t) ∈ seen) ->
  forall k ledger results,
    importFromOf true userId userCategories seen k transactions (ledger, results)
    = (ledger, Results.mk (Results.imported results)
                 (Results.skipped results + length transactions)
                 (Results.failed results) (Results.categorized results)).
Proof.
  induction transactions as [|t rest IH]; intros Hall k ledger results.
  - cbn [importFrom length]. rewrite Nat.add_0_r. destruct results; reflexivity.
  - cbn [importFrom]. unfold importOne at 1.
    rewrite bool_decide_eq_true_2 by (apply Hall; left; reflexivity). cbn [andb].
    rewrite IH by (intros x Hx; apply Hall; right; exact Hx).
    cbn [Results.imported Results.skipped Results.failed Results.categorized length].
    f_equal. f_equal. lia.
Qed.

(** The loop when no transaction is in the set and no [create] fails. *)
Lemma importFrom_none_seen skipDuplicates userId userCategories seen transactions :
  (forall t, In t transactions ->
     hashOf toFixed2 (Incoming.date t) (Incoming.description t) (Incoming.amount t) ∉ seen) ->
  (forall k, createFails k = false) ->
  forall k ledger results,
    let '(ledger', results') :=
      importFromOf skipDuplicates userId userCategories seen k transactions
        (ledger, results) in
    Results.imported results' = (Results.imported results + length transactions)%nat
    /\ Results.skipped results' = Results.skipped results
    /\ Results.failed results' = Results.failed results
    /\ (forall t, In t transactions ->
          exists r, In r ledger' /\ Row.userId r = userId
            /\ Row.instant r = midnight (Incoming.date t)
            /\ Row.description r = Incoming.description t
            /\ Row.amount r = Incoming.amount t)
    /\ forall r, In r ledger -> In r ledger'.
Proof.
  intros Hnone Hok. induction transactions as [|t rest IH]; intros k ledger results.
  - cbn [importFrom length]. rewrite Nat.add_0_r.
    split; [reflexivity|]. split; [reflexivity|]. split; [reflexivity|].
    split; [intros t []|auto].
  - cbn [importFrom]. unfold importOne at 1.
    rewrite (bool_decide_eq_false_2 _ (Hnone t (or_introl eq_refl))), andb_false_r.
    destruct (categoriseOf k (Some userId) userCategories _ _ _ _)
      as [[categoryId llmCategorized] llmConfidence].
    rewrite Hok.
    match goal with
    | |- context [importFromOf _ _ _ _ _ rest (?l, ?r)] =>
        specialize (IH (fun x Hx => Hnone x (or_intror Hx)) (S k) l r)
    end.
    destruct (importFromOf _ _ _ _ _ rest _) as [ledger' results'].
    destruct IH as (Hi & Hs & Hf & Hrows & Hkeep).
    cbn [Results.imported Results.skipped Results.failed Results.categorized length] in *.
    split; [lia|]. split; [exact Hs|]. split; [exact Hf|]. split.
    + intros x [<-|Hx]; [|apply Hrows; exact Hx].
      eexists. split; [apply Hkeep; apply in_or_app; right; left; reflexivity|].
      cbn. auto.
    + intros r Hr. apply Hkeep. apply in_or_app. left. exact Hr.
Qed.

Lemma seen_of_row ledger userId transactions r t :
  In r ledger -> In t transactions -> Row.userId r = userId ->
  Row.instant r = midnight (Incoming.date t) ->
  Row.description r = Incoming.description t ->
  Row.amount r = Incoming.amount t ->
  hashOf toFixed2 (Incoming.date t) (Incoming.description t) (Incoming.amount t)
  ∈ duplicateCheckSet toFixed2 ledger userId transactions.
Proof.
  intros Hr Ht Hu Hi Hd Ha. unfold duplicateCheckSet.
  apply list_elem_of_In. apply in_map_iff. exists r. split.
  - rewrite Hi, dayOf_midnight, Hd, Ha. reflexivity.
  - apply filter_In. split; [exact Hr|].
    rewrite bool_decide_eq_true_2 by exact Hu. cbn [andb].
    apply bool_decide_eq_true_2. rewrite Hi. apply list_elem_of_In.
    apply (in_map (fun i => midnight (Incoming.date i))). exact Ht.
Qed.

Lemma seen_grows ledger ledger' userId transactions h :
  (forall r, In r ledger -> In r ledger') ->
  h ∈ duplicateCheckSet toFixed2 ledger userId transactions -> h ∈ duplicateCheckSet toFixed2 ledger' userId transactions.
Proof.
  intros Hsub Hh. unfold duplicateCheckSet in *.
  apply list_elem_of_In in Hh. apply in_map_iff in Hh as (r & Hr & Hin).
  apply filter_In in Hin as [Hin Hk].
  apply list_elem_of_In. apply in_map_iff. exists r. split; [exact Hr|].
  apply filter_In. auto.
Qed.

(** The trace of a first import without failing [create]: every
    transaction ends up in the set of the next import. *)
Lemma importFrom_leaves_trace userId userCategories seen transactions :
  (forall k, createFails k = false) ->
  forall k ledger results,
    let '(ledger', _) :=
      importFromOf true userId userCategories seen k transactions (ledger, results) in
    (forall r, In r ledger -> In r ledger')
    /\ forall t, In t transactions ->
         hashOf toFixed2 (Incoming.date t) (Incoming.description t) (Incoming.amount t)
         ∈ seen
         \/ exists r, In r ledger' /\ Row.userId r = userId
              /\ Row.instant r = midnight (Incoming.date t)
              /\ Row.description r = Incoming.description t
              /\ Row.amount r = Incoming.amount t.
Proof.
  intros Hok. induction transactions as [|t rest IH]; intros k ledger results.
  - cbn [importFrom]. split; [auto|intros t []].
  - cbn [importFrom]. unfold importOne at 1. cbn [andb].
    destruct (bool_decide_reflect
                (hashOf toFixed2 (Incoming.date t) (Incoming.description t)
                   (Incoming.amount t) ∈ seen)) as [Hin|Hout].
    + match goal with
      | |- context [importFromOf _ _ _ _ _ rest (?l, ?r)] => specialize (IH (S k) l r)
      end.
      destruct (importFromOf _ _ _ _ _ rest _) as [ledger' results'].
      destruct IH as [Hkeep Hrows]. split; [exact Hkeep|].
      intros x [<-|Hx]; [left; exact Hin|apply Hrows; exact Hx].
    + destruct (categoriseOf k (Some userId) userCategories _ _ _ _)
        as [[categoryId llmCategorized] llmConfidence].
      rewrite Hok.
      match goal with
      | |- context [importFromOf _ _ _ _ _ rest (?l, ?r)] => specialize (IH (S k) l r)
      end.
      destruct (importFromOf _ _ _ _ _ rest _) as [ledger' results'].
      destruct IH as [Hkeep Hrows]. split.
      * intros r Hr. apply Hkeep. apply in_or_app. left. exact Hr.
      * intros x [<-|Hx]; [|apply Hrows; exact Hx]. right.
        eexists. split; [apply Hkeep; apply in_or_app; right; left; reflexivity|].
        cbn. auto.
Qed.

(** Importing the same file again imports nothing. With the duplicate check
    on and no failing [create], a second POST /import of the transactions
    just imported leaves the table as it is and reports every transaction
    as skipped. *)
Theorem reimport_skips_everything userId ledger transactions ledger1 results1 :
  (forall k, createFails k = false) ->
  importTransactions rt llm categories patternStore toFixed2 newId classifyFails
    createFails true userId ledger transactions = (ledger1, Some results1) ->
  importTransactions rt llm categories patternStore toFixed2 newId classifyFails
    createFails true userId ledger1 transactions
  = (ledger1, Some (Results.mk 0 (length transactions) 0 0)).
Proof.
  intros Hok. unfold importTransactions.
  destruct transactions as [|t rest]; [discriminate|]. cbv zeta.
  pose proof (importFrom_leaves_trace userId (userCategoriesOf categories userId)
                (duplicateCheckSet toFixed2 ledger userId (t :: rest)) (t :: rest) Hok 0%nat ledger
                (Results.mk 0 0 0 0)) as Htrace.
  destruct (importFromOf true userId _ _ 0%nat (t :: rest) (ledger, _)) as [l r].
  intros [= <- <-]. destruct Htrace as [Hkeep Hrows].
  rewrite importFrom_all_seen; [reflexivity|].
  intros x Hx. destruct (Hrows x Hx) as [Hin|(row & Hrow & Hu & Hi & Hd & Ha)].
  - eapply seen_grows; eassumption.
  - eapply seen_of_row; eassumption.
Qed.

(** The duplicate check looks at the table as it was before the import and
    never at the file itself: when no transaction of the file matches a row
    already stored and no [create] fails, every transaction is imported and
    none is skipped, however often a line is repeated in the file. *)
Theorem repeated_lines_are_all_imported skipDuplicates userId ledger transactions
    ledger' results :
  (forall k, createFails k = false) ->
  (forall t, In t transactions ->
     hashOf toFixed2 (Incoming.date t) (Incoming.description t) (Incoming.amount t)
     ∉ duplicateCheckSet toFixed2 ledger userId transactions) ->
  importTransactions rt llm categories patternStore toFixed2 newId classifyFails
    createFails skipDuplicates userId ledger transactions = (ledger', Some results) ->
  Results.imported results = length transactions
  /\ Results.skipped results = 0%nat
  /\ Results.failed results = 0%nat
  /\ length ledger' = (length ledger + length transactions)%nat.
Proof.
  intros Hok Hnew. unfold importTransactions.
  destruct transactions as [|t rest]; [discriminate|]. cbv zeta.
  set (seen := if skipDuplicates then duplicateCheckSet toFixed2 ledger userId (t :: rest) else []).
  assert (forall x, In x (t :: rest) ->
            hashOf toFixed2 (Incoming.date x) (Incoming.description x) (Incoming.amount x)
            ∉ seen) as Hnone.
  { intros x Hx. unfold seen. destruct skipDuplicates; [apply Hnew; exact Hx|].
    apply not_elem_of_nil. }
  pose proof (importFrom_none_seen skipDuplicates userId
                (userCategoriesOf categories userId) seen (t :: rest) Hnone Hok 0%nat
                ledger (Results.mk 0 0 0 0)) as H.
  pose proof (importFrom_accounts skipDuplicates userId
                (userCategoriesOf categories userId) seen (t :: rest) 0%nat
                ledger (Results.mk 0 0 0 0)) as Hacc.
  destruct (importFromOf _ _ _ _ _ (t :: rest) _) as [l r].
  intros [= <- <-]. destruct H as (Hi & Hs & Hf & _ & _).
  destruct Hacc as (added & -> & Hlen & _).
  cbn [Results.imported Results.skipped Results.failed] in *.
  split; [exact Hi|]. split; [exact Hs|]. split; [exact Hf|].
  rewrite length_app. lia.
Qed.
End ImportFacts.

(** ** Categorising the uncategorised in bulk *)

Section BulkCategorizeFacts.
Import Js JsMore StatementParser Ledger OllamaService Facts.

Variable rt : JsRuntime.
Variable llm : nat -> string -> option string -> Q -> list string -> LlmOutcome.
Variable categories : list CategoryRoutes.CategoryRow.t.
Variable patternStore : list CategoryPattern.t.

Local Abbreviation bulkChoiceOf := (bulkChoice rt llm categories patternStore).
Local Abbreviation bulkFromOf := (bulkFrom rt llm categories patternStore).
Local Abbreviation afterBulkOf := (afterBulk rt llm categories patternStore).
Local Abbreviation bulkHitsOf := (bulkHits rt llm categories patternStore).

Lemma enactBulk_id t choice r : Row.id (enactBulk t choice r) = Row.id r.
Proof.
  unfold enactBulk, assign. destruct choice as [[c conf]|]; [|reflexivity].
  destruct (bool_decide _); reflexivity.
Qed.

Lemma enactBulk_other t choice r : Row.id r <> Row.id t -> enactBulk t choice r = r.
Proof.
  intros H. unfold enactBulk, assign. destruct choice as [[c conf]|]; [|reflexivity].
  rewrite bool_decide_eq_false_2 by exact H. reflexivity.
Qed.

Lemma afterBulk_absent userCategories k ts r :
  ~ In (Row.id r) (List.map Row.id ts) -> afterBulkOf userCategories k ts r = r.
Proof.
  revert k. induction ts as [|t rest IH]; intros k H; [reflexivity|].
  cbn [afterBulk]. rewrite bool_decide_eq_false_2 by (intros E; apply H; left; exact E).
  apply IH. intros Hin. apply H. right. exact Hin.
Qed.

Lemma bulkFrom_rowwise userCategories ts :
  NoDup (List.map Row.id ts) ->
  forall k ledger n,
    bulkFromOf userCategories k ts (ledger, n)
    = (List.map (afterBulkOf userCategories k ts) ledger,
       (n + bulkHitsOf userCategories k ts)%nat).
Proof.
  induction ts as [|t rest IH]; intros Hnd k ledger n.
  - cbn. rewrite List.map_id. f_equal. lia.
  - simpl in Hnd. apply NoDup_cons in Hnd as [Ht Hrest].
    cbn [bulkFrom bulkHits].
    assert (forall r, afterBulkOf userCategories (S k) rest
                        (enactBulk t (bulkChoiceOf k userCategories t) r)
                      = afterBulkOf userCategories k (t :: rest) r) as Hrow.
    { intros r. cbn [afterBulk].
      destruct (bool_decide_reflect (Row.id t = Row.id r)) as [E|E].
      - apply afterBulk_absent. rewrite enactBulk_id, <- E.
        intros Hin. apply Ht. apply list_elem_of_In. exact Hin.
      - rewrite enactBulk_other by congruence. reflexivity. }
    destruct (bulkChoiceOf k userCategories t) as [[c conf]|] eqn:C.
    + rewrite (IH Hrest), List.map_map. f_equal; try lia.
      apply List.map_ext. intros r. rewrite <- Hrow. reflexivity.
    + rewrite (IH Hrest). f_equal; try lia.
      apply List.map_ext. intros r. rewrite <- Hrow. reflexivity.
Qed.

Lemma bulkHits_le userCategories ts : forall k, (bulkHitsOf userCategories k ts <= length ts)%nat.
Proof.
  induction ts as [|t rest IH]; intros k; cbn [bulkHits length]; [lia|].
  specialize (IH (S k)). destruct (bulkChoiceOf k userCategories t); lia.
Qed.

Lemma afterBulk_at userCategories ts :
  NoDup (List.map Row.id ts) ->
  forall j k t, ts !! j = Some t ->
    afterBulkOf userCategories k ts t
    = enactBulk t (bulkChoiceOf (k + j) userCategories t) t.
Proof.
  induction ts as [|a rest IH]; intros Hnd j k t Hj; [discriminate|].
  simpl in Hnd. apply NoDup_cons in Hnd as [Ha Hrest].
  destruct j as [|j]; cbn [afterBulk].
  - injection Hj as <-. rewrite bool_decide_eq_true_2 by reflexivity.
    rewrite Nat.add_0_r. reflexivity.
  - cbn in Hj. rewrite bool_decide_eq_false_2.
    + rewrite (IH Hrest j (S k) t Hj). rewrite Nat.add_succ_r. reflexivity.
    + intros E. apply Ha. rewrite E. apply list_elem_of_In. apply in_map.
      apply list_elem_of_In. eapply list_elem_of_lookup_2. exact Hj.
Qed.

Lemma filter_ids_NoDup (f : Row.t -> bool) (l : list Row.t) :
  NoDup (List.map Row.id l) -> NoDup (List.map Row.id (List.filter f l)).
Proof.
  induction l as [|a l IH]; simpl; [auto|].
  intros H. apply NoDup_cons in H as [Ha Hl].
  destruct (f a); [|auto]. simpl. apply NoDup_cons. split; [|auto].
  intros Hin. apply Ha. apply list_elem_of_In in Hin. apply list_elem_of_In.
  apply in_map_iff in Hin as (x & Hx & Hin). apply filter_In in Hin as [Hin _].
  rewrite <- Hx. apply in_map. exact Hin.
Qed.

Lemma unselected_absent (f : Row.t -> bool) (l : list Row.t) r :
  NoDup (List.map Row.id l) -> In r l -> f r = false ->
  ~ In (Row.id r) (List.map Row.id (List.filter f l)).
Proof.
  intros Hnd Hin Hf Habs. apply in_map_iff in Habs as (x & Hx & Hxin).
  apply filter_In in Hxin as [Hxin Hfx].
  assert (x = r) as ->; [|congruence].
  clear -Hnd Hin Hxin Hx. induction l as [|a l IH]; [destruct Hin|].
  simpl in Hnd. apply NoDup_cons in Hnd as [Ha Hl].
  destruct Hin as [->|Hin], Hxin as [->|Hxin]; auto.
  - exfalso. apply Ha. apply list_elem_of_In. rewrite <- Hx. apply in_map. exact Hxin.
  - exfalso. apply Ha. apply list_elem_of_In. rewrite Hx. apply in_map. exact Hin.
Qed.

Lemma bulkChoice_own k userCategories t c conf :
  bulkChoiceOf k userCategories t = Some (c, conf) ->
  exists category, In category userCategories
    /\ CategoryRoutes.CategoryRow.id category = c
    /\ sameType (CategoryRoutes.CategoryRow.type category) (Row.type t) = true.
Proof.
  unfold bulkChoice. cbv zeta. destruct (_ =? 0)%nat; [discriminate|].
  destruct (selectCategory _ _) as [selected|] eqn:S; [|discriminate].
  intros [= <- <-]. exists selected. apply List.find_some in S as [Hin _].
  apply filter_In in Hin as [Hin Hty]. auto.
Qed.

(** POST /bulk-categorize only fills blanks. With unique transaction ids:
    a row that already has a category, belongs to another user or was not
    asked for is left exactly as it is; no row is added or removed; every
    row that changed is now flagged as categorised by the model and filed
    under one of the user's own categories of the row's type; and the count
    reported is at most the number of uncategorised rows asked for. *)
Theorem bulk_categorize_fills_blanks_only userId ledger ids ledger' updated :
  NoDup (List.map Row.id ledger) ->
  bulkCategorize rt llm categories patternStore userId ledger (Some ids) = (ledger', Some updated) ->
  length ledger' = length ledger
  /\ (forall i r, ledger !! i = Some r -> uncategorizedAmong ids userId r = false ->
        ledger' !! i = Some r)
  /\ (forall i r r', ledger !! i = Some r -> ledger' !! i = Some r' ->
        r' = r
        \/ (Row.llmCategorized r' = true
            /\ exists category,
                 In category (userCategoriesOf categories userId)
                 /\ Row.categoryId r' = Some (CategoryRoutes.CategoryRow.id category)
                 /\ sameType (CategoryRoutes.CategoryRow.type category) (Row.type r)
                    = true))
  /\ (updated <= length (List.filter (uncategorizedAmong ids userId) ledger))%nat.
Proof.
  intros Hnd. unfold bulkCategorize. destruct ids as [|id0 ids']; [discriminate|].
  set (ids := id0 :: ids'). cbv zeta.
  set (ts := List.filter (uncategorizedAmong ids userId) ledger).
  set (cats := userCategoriesOf categories userId).
  rewrite (bulkFrom_rowwise cats ts (filter_ids_NoDup _ _ Hnd)).
  intros [= <- <-]. split; [apply length_map|]. split; [|split].
  - intros i r Hi Hsel.
    change (List.map ?f ledger) with (f <$> ledger).
    rewrite list_lookup_fmap, Hi. cbn. f_equal.
    apply afterBulk_absent. apply unselected_absent; [exact Hnd| |exact Hsel].
    apply list_elem_of_In. eapply list_elem_of_lookup_2. exact Hi.
  - intros i r r' Hi Hi'.
    change (List.map ?f ledger) with (f <$> ledger) in Hi'.
    rewrite list_lookup_fmap, Hi in Hi'. cbn in Hi'. injection Hi' as <-.
    destruct (uncategorizedAmong ids userId r) eqn:Hsel.
    + assert (In r ts) as Hin.
      { apply filter_In. split; [|exact Hsel].
        apply list_elem_of_In. eapply list_elem_of_lookup_2. exact Hi. }
      apply list_elem_of_In, list_elem_of_lookup_1 in Hin as [j Hj].
      rewrite (afterBulk_at cats ts (filter_ids_NoDup _ _ Hnd) j 0%nat r Hj).
      destruct (bulkChoiceOf (0 + j) cats r) as [[c conf]|] eqn:C; [|left; reflexivity].
      right. destruct (bulkChoice_own _ _ _ _ _ C) as (category & Hc & Hid & Hty).
      cbn [enactBulk]. unfold assign. rewrite bool_decide_eq_true_2 by reflexivity.
      cbn [Row.llmCategorized Row.categoryId]. split; [reflexivity|].
      exists category. rewrite Hid. auto.
    + left. apply afterBulk_absent. apply unselected_absent; [exact Hnd| |exact Hsel].
      apply list_elem_of_In. eapply list_elem_of_lookup_2. exact Hi.
  - cbn. apply bulkHits_le.
Qed.

(** No confidence is asked for. With unique transaction ids, when the model
    cannot be reached and no keyword rule fits, POST /bulk-categorize files
    an uncategorised transaction under the first of the user's categories of
    its type (if that category has a name), at confidence 0.1. *)
Theorem bulk_categorize_files_under_first_category userId ledger ids j t first others :
  NoDup (List.map Row.id ledger) ->
  ids <> [] ->
  List.filter (uncategorizedAmong ids userId) ledger !! j = Some t ->
  categoriesForType (userCategoriesOf categories userId) (Row.type t) = first :: others ->
  CategoryRoutes.CategoryRow.name first <> EmptyString ->
  quickCategorize (Row.description t) (Row.merchant t)
    (List.map CategoryRoutes.CategoryRow.name (first :: others)) = None ->
  llm j (Row.description t) (Row.merchant t) (Row.amount t)
    (List.map CategoryRoutes.CategoryRow.name (first :: others)) = TransportFailure ->
  In (assign (Row.id t) (CategoryRoutes.CategoryRow.id first) (Fin 0.1) t)
     (fst (bulkCategorize rt llm categories patternStore userId ledger (Some ids))).
Proof.
  intros Hnd Hids Hj Hcats Hname Hquick Hllm.
  unfold bulkCategorize. destruct ids as [|id0 ids']; [congruence|].
  set (ids := id0 :: ids') in *. cbv zeta.
  set (ts := List.filter (uncategorizedAmong ids userId) ledger) in *.
  set (cats := userCategoriesOf categories userId) in *.
  rewrite (bulkFrom_rowwise cats ts (filter_ids_NoDup _ _ Hnd)). cbn [fst].
  assert (bulkChoiceOf j cats t
          = Some (CategoryRoutes.CategoryRow.id first, Fin 0.1)) as Hchoice.
  { unfold bulkChoice. cbv zeta. rewrite Hcats. cbn [length Nat.eqb].
    unfold categorizeTransaction, learnedStep. cbn [orNull].
    rewrite Hquick, Hllm. unfold llmFallback, transportFallback, selectCategory.
    cbn [CategorySuggestion.category CategorySuggestion.confidence].
    unfold firstOrUncategorized. cbn [List.map head orElse].
    assert (truthy (CategoryRoutes.CategoryRow.name first) = true) as ->.
    { unfold truthy. rewrite bool_decide_eq_false_2 by exact Hname. reflexivity. }
    cbn [List.find]. rewrite bool_decide_eq_true_2 by reflexivity. reflexivity. }
  assert (In t ledger) as Hin.
  { apply list_elem_of_lookup_2, list_elem_of_In in Hj. apply filter_In in Hj. tauto. }
  replace (assign (Row.id t) (CategoryRoutes.CategoryRow.id first) (Fin 0.1) t)
    with (afterBulkOf cats 0 ts t); [apply in_map; exact Hin|].
  rewrite (afterBulk_at cats ts (filter_ids_NoDup _ _ Hnd) j 0%nat t Hj).
  cbn [Nat.add]. rewrite Hchoice. reflexivity.
Qed.
End BulkCategorizeFacts.

Section RouteExamples.
Import Js JsMore StatementParser Ledger Fixtures.

Local Abbreviation importTwice :=
  (importTransactions Sample.runtime modelDown [groceries; travel] [] toFixed2 newId
     noFault noFault true "u" [] twoLines).

Lemma import_accounts_for_every_transaction_witness :
  (2 + 0 + 0 = length twoLines)%nat.
Proof.
  refine (proj1 (import_accounts_for_every_transaction Sample.runtime modelDown
                   [groceries; travel] [] toFixed2 newId noFault noFault true "u" []
                   twoLines (fst importTwice) (Results.mk 2 0 0 2) _)).
  vm_compute. reflexivity.
Defined.

Lemma reimport_skips_everything_witness :
  importTransactions Sample.runtime modelDown [groceries; travel] [] toFixed2 newId
    noFault noFault true "u" (fst importTwice) twoLines
  = (fst importTwice, Some (Results.mk 0 2 0 0)).
Proof.
  refine (reimport_skips_everything Sample.runtime modelDown [groceries; travel] []
            toFixed2 newId noFault noFault "u" [] twoLines (fst importTwice)
            (Results.mk 2 0 0 2) _ _).
  - reflexivity.
  - vm_compute. reflexivity.
Defined.

Lemma repeated_lines_are_all_imported_witness :
  Results.imported (Results.mk 2 0 0 2) = length twoLines
  /\ Results.skipped (Results.mk 2 0 0 2) = 0%nat
  /\ Results.failed (Results.mk 2 0 0 2) = 0%nat
  /\ length (fst importTwice) = (length (@nil Row.t) + length twoLines)%nat.
Proof.
  refine (repeated_lines_are_all_imported Sample.runtime modelDown [groceries; travel] []
            toFixed2 newId noFault noFault true "u" [] twoLines (fst importTwice)
            (Results.mk 2 0 0 2) _ _ _).
  - reflexivity.
  - intros t _. apply not_elem_of_nil.
  - vm_compute. reflexivity.
Defined.

Local Abbreviation bulkPlain :=
  (bulkCategorize Sample.runtime modelDown [travel; groceries] [] "u" [plainRow]
     (Some ["t9"])).

Lemma bulk_categorize_fills_blanks_only_witness :
  length (fst bulkPlain) = length [plainRow].
Proof.
  refine (proj1 (bulk_categorize_fills_blanks_only Sample.runtime modelDown
                   [travel; groceries] [] "u" [plainRow] ["t9"] (fst bulkPlain) 1%nat
                   _ _)).
  - apply NoDup_singleton.
  - vm_compute. reflexivity.
Defined.

Lemma bulk_categorize_files_under_first_category_witness :
  In (assign "t9" "c-travel" (Fin 0.1) plainRow) (fst bulkPlain).
Proof.
  refine (bulk_categorize_files_under_first_category Sample.runtime modelDown
            [travel; groceries] [] "u" [plainRow] ["t9"] 0%nat plainRow travel [groceries]
            _ _ _ _ _ _ _).
  - apply NoDup_singleton.
  - discriminate.
  - vm_compute. reflexivity.
  - vm_compute. reflexivity.
  - discriminate.
  - vm_compute. reflexivity.
  - reflexivity.
Defined.
End RouteExamples.

(** ** Pages *)

Section PaginationFacts.
Import TransactionRoutes.

Lemma limitNumOf_range parsedLimit : (1 <= limitNumOf parsedLimit <= 100)%Z.
Proof. unfold limitNumOf. lia. Qed.

Lemma pageNumOf_positive p : (1 <= p)%Z -> pageNumOf (Some p) = p.
Proof.
  intros H. unfold pageNumOf, parsedOr.
  destruct (Z.eqb_spec p 0); lia.
Qed.

Lemma chunks_cover {A} (l : list A) (size : nat) :
  forall pages, (0 < size)%nat -> (length l <= pages * size)%nat ->
    concat (List.map (fun p => take size (drop (p * size) l)) (seq 0 pages)) = l.
Proof.
  intros pages Hsize. revert l. induction pages as [|k IH]; intros l Hlen.
  - destruct l; [reflexivity|simpl in Hlen; lia].
  - cbn [seq List.map concat]. rewrite Nat.mul_0_l, drop_0.
    rewrite <- seq_shift, List.map_map.
    rewrite (List.map_ext _ (fun p => take size (drop (p * size) (drop size l)))).
    + rewrite IH; [apply take_drop|]. rewrite length_drop. lia.
    + intros p. rewrite drop_drop. f_equal; f_equal; lia.
Qed.

(** GET / pages the matching rows without loss or repetition. The limit is
    always between 1 and 100 and the page at least 1, whatever the query
    says; a page holds at most [limit] rows; the pages 1 to [totalPages],
    asked for with the same limit, put end to end give exactly the matching
    rows in order; and [hasNextPage] is true exactly when rows remain after
    the page. *)
Theorem pages_cover_every_row {A : Type} (matching : list A) parsedPage parsedLimit :
  let answer := listTransactions matching parsedPage parsedLimit in
  let pagination := snd answer in
  let limitNum := Pagination.limit pagination in
  (1 <= limitNum <= 100)%Z
  /\ (1 <= Pagination.currentPage pagination)%Z
  /\ (Z.of_nat (length (fst answer)) <= limitNum)%Z
  /\ concat (List.map
               (fun p => fst (listTransactions matching (Some (Z.of_nat p)) parsedLimit))
               (seq 1 (Z.to_nat (Pagination.totalPages pagination))))
     = matching
  /\ (Pagination.hasNextPage pagination = true <->
      (Pagination.currentPage pagination * limitNum < Z.of_nat (length matching))%Z).
Proof.
  intros answer pagination limitNum. subst limitNum pagination answer.
  unfold listTransactions.
  cbn [fst snd Pagination.limit Pagination.currentPage Pagination.totalPages
       Pagination.hasNextPage].
  pose proof (limitNumOf_range parsedLimit) as HL.
  assert (1 <= pageNumOf parsedPage)%Z as Hpage by (unfold pageNumOf; lia).
  generalize dependent (pageNumOf parsedPage). intros page Hpage.
  assert (forall p, (1 <= p)%Z -> pageNumOf (Some p) = p) as Hsome
    by exact pageNumOf_positive.
  generalize dependent (limitNumOf parsedLimit). intros L HL.
  set (n := Z.of_nat (length matching)).
  assert (0 <= n)%Z as Hn by (unfold n; lia).
  assert (0 <= ceilDiv n L)%Z as Hnonneg by (unfold ceilDiv; apply Z.div_pos; lia).
  assert (n <= ceilDiv n L * L)%Z as Hcover.
  { unfold ceilDiv.
    pose proof (Z.div_mod (n + L - 1) L ltac:(lia)) as Hdm.
    pose proof (Z.mod_pos_bound (n + L - 1) L ltac:(lia)) as Hb. nia. }
  assert ((ceilDiv n L - 1) * L < n \/ (n = 0 /\ ceilDiv n L = 0))%Z as Hlast.
  { unfold ceilDiv.
    pose proof (Z.div_mod (n + L - 1) L ltac:(lia)) as Hdm.
    pose proof (Z.mod_pos_bound (n + L - 1) L ltac:(lia)) as Hb.
    destruct (Z.eq_dec n 0%Z) as [E|E]; [right|left; nia].
    split; [exact E|]. rewrite E, Z.add_0_l. apply Z.div_small. lia. }
  split; [exact HL|]. split; [exact Hpage|]. split.
  { rewrite length_take. lia. }
  split.
  - rewrite <- seq_shift, List.map_map.
    rewrite (List.map_ext _ (fun p => take (Z.to_nat L) (drop (p * Z.to_nat L) matching))).
    + apply chunks_cover; [lia|].
      rewrite <- Z2Nat.inj_mul by lia. apply Nat2Z.inj_le.
      rewrite Z2Nat.id by nia. exact Hcover.
    + intros p. rewrite Hsome by lia. f_equal. f_equal.
      rewrite Nat2Z.inj_succ.
      replace (Z.succ (Z.of_nat p) - 1)%Z with (Z.of_nat p) by lia.
      rewrite Z2Nat.inj_mul by lia. rewrite Nat2Z.id. reflexivity.
  - rewrite Z.ltb_lt. fold n. split; intros Hlt.
    + destruct Hlast as [H1|[H1 H2]]; nia.
    + destruct (Z.lt_ge_cases page (ceilDiv n L)) as [H|H]; [exact H|nia].
Qed.
End PaginationFacts.

(** ** The properties above on concrete inputs *)

Section MoreWitnesses.
Import Js JsMore StatementParser Fixtures.

Lemma delete_keeps_references_witness :
  CategoryRoutes.Referenced (fst (CategoryRoutes.deleteCategory false filed "u" "c-travel")).
Proof.
  apply (proj1 (delete_keeps_references false filed "u" "c-travel")). split.
  - intros t cid [<-|[]] [= <-]. exists groceries. split; [left; reflexivity|reflexivity].
  - intros k pid [<-|[<-|[]]] H; discriminate.
Defined.

Lemma asset_table_shape_kept_witness :
  NoDup (List.map Asset.id
           (AssetHandler.handleAssetTransaction false 2 Sample.afterBuy (Some "Stock Sale")
              Sample.stockSell4000 "u")).
Proof.
  apply (proj1 (proj2 (asset_table_shape_kept false 2 Sample.afterBuy (Some "Stock Sale")
                         Sample.stockSell4000 "u"))).
  change (List.map Asset.id Sample.afterBuy) with [1%nat]. apply NoDup_singleton.
Defined.

Lemma detectFormat_first_of_table_witness : detectFormat sbiHeaders = Some SBI.
Proof.
  destruct (detectFormat_first_of_table sbiHeaders) as (format & Hfound & _ & Hsbi & _).
  rewrite Hfound. f_equal. apply Hsbi. vm_compute. reflexivity.
Defined.

Lemma type_follows_keywords_before_sign_witness :
  determineTransactionType ("Weekly " +:+ "gossip" +:+ " magazine") (Fin (-120))
  = TransactionType.asset.
Proof.
  apply (proj2 (proj2 (type_follows_keywords_before_sign "gossip" (Fin 0)))).
  vm_compute. reflexivity.
Defined.

Lemma findColumnValue_fallbacks_witness :
  firstColumnDate [("", ""); ("_1", "")] ["Date"; ""; "_1"] = None
  /\ secondColumnText [("", ""); ("_1", "")] ["Date"; ""; "_1"] = None.
Proof.
  apply (proj1 (proj2 (findColumnValue_fallbacks numbers [("", ""); ("_1", "")]
                         ["Date"; ""; "_1"]))).
  vm_compute. reflexivity.
Defined.
End MoreWitnesses.
